(** * LD_iOptron: the AzMountPro driver (src/LD_iOptron.py)

    A shallow embedding of the driver for the iOptron AZ Mount Pro and the
    properties of its command encoding, its staged-target flags, its status
    predicates and its initialisation handshake.

    Python values are modelled as the code uses them: [str] as [string]
    (one [ascii] per byte, the protocol being ASCII), [int] as [Z], [float]
    as IEEE binary64 through [SpecFloat] (precision 53, emax 1024), raised
    exceptions as a result type, and the driver object as a record threaded
    through a state-and-exception monad.  The serial port is the stream of
    bytes the mount delivers and the list of commands written; the two
    polling loops take a bound on the number of polls.  [assert] statements
    are executed, as they are unless the interpreter runs with [-O].  The
    accuracy of the unit converters is stated on the real values of the
    floats. *)

From Stdlib Require Import ZArith List String Ascii Bool Lia Reals Lra.
From Stdlib Require Import Floats.SpecFloat.
Import ListNotations.

Open Scope string_scope.
Open Scope Z_scope.

(** ** Python exceptions and results *)

Inductive exn : Type :=
  | AssertionError
  | ValueError
  | KeyError
  | IndexError
  | OverflowError
  | ZeroDivisionError
  | UnicodeDecodeError.

(** [Unfinished] is the outcome of a polling loop whose fuel ran out; it is
    not a Python outcome. *)
Inductive result (A : Type) : Type :=
  | Ok (a : A)
  | Raise (e : exn)
  | Unfinished.

Arguments Ok {A} a.
Arguments Raise {A} e.
Arguments Unfinished {A}.

Definition rbind {A B} (r : result A) (k : A -> result B) : result B :=
  match r with
  | Ok a => k a
  | Raise e => Raise e
  | Unfinished => Unfinished
  end.

(** ** Python strings *)

Module PyStr.

Definition len (s : string) : Z := Z.of_nat (String.length s).

Fixpoint take (n : nat) (s : string) : string :=
  match n, s with
  | O, _ => EmptyString
  | S _, EmptyString => EmptyString
  | S n', String c r => String c (take n' r)
  end.

Fixpoint drop (n : nat) (s : string) : string :=
  match n, s with
  | O, _ => s
  | S _, EmptyString => EmptyString
  | S n', String _ r => drop n' r
  end.

(** A slice bound as Python clamps it: a negative bound counts from the
    end, and every bound is clamped to [0, len]. *)
Definition clamp (l i : Z) : Z :=
  if i <? 0 then Z.max 0 (l + i) else Z.min i l.

(** [s[lo:hi]]; [None] is an omitted bound. *)
Definition slice (s : string) (lo hi : option Z) : string :=
  let l := len s in
  let a := match lo with Some i => clamp l i | None => 0 end in
  let b := match hi with Some i => clamp l i | None => l end in
  take (Z.to_nat (b - a)) (drop (Z.to_nat a) s).

(** [s[i]] for [0 <= i]; out of range raises IndexError. *)
Definition index (s : string) (i : nat) : result string :=
  match String.get i s with
  | Some c => Ok (String c EmptyString)
  | None => Raise IndexError
  end.

Fixpoint repeat (c : ascii) (n : nat) : string :=
  match n with
  | O => EmptyString
  | S n' => String c (repeat c n')
  end.

(** [s.rjust(width, fill)]: pads on the left, never truncates. *)
Definition rjust (width : nat) (fill : ascii) (s : string) : string :=
  repeat fill (width - String.length s) ++ s.

Definition is_digit (c : ascii) : bool :=
  let n := nat_of_ascii c in (48 <=? n)%nat && (n <=? 57)%nat.

Definition digit_val (c : ascii) : Z := Z.of_nat (nat_of_ascii c) - 48.

Definition digit_char (d : Z) : ascii := ascii_of_nat (Z.to_nat (48 + d)).

Fixpoint all_digits (s : string) : bool :=
  match s with
  | EmptyString => true
  | String c r => is_digit c && all_digits r
  end.

(** The decimal digits of a non-negative integer, most significant
    first. *)
Fixpoint dec_digits (fuel : nat) (n : Z) (acc : string) : string :=
  match fuel with
  | O => acc
  | S f =>
      let acc' := String (digit_char (n mod 10)) acc in
      if n <? 10 then acc' else dec_digits f (n / 10) acc'
  end.

Definition dec (n : Z) : string :=
  dec_digits (S (Z.to_nat (Z.log2 n))) n EmptyString.

(** [str(n)] for an [int]. *)
Definition str (n : Z) : string :=
  if n <? 0 then String "-" (dec (- n)) else dec n.

(** The ASCII characters [int()] treats as white space. *)
Definition is_space (c : ascii) : bool :=
  let n := nat_of_ascii c in
  ((9 <=? n)%nat && (n <=? 13)%nat) || ((28 <=? n)%nat && (n <=? 32)%nat).

Fixpoint lstrip (s : string) : string :=
  match s with
  | EmptyString => EmptyString
  | String c r => if is_space c then lstrip r else s
  end.

Fixpoint rstrip (s : string) : string :=
  match s with
  | EmptyString => EmptyString
  | String c r =>
      match rstrip r with
      | EmptyString => if is_space c then EmptyString else String c EmptyString
      | r' => String c r'
      end
  end.

(** Digits after the first one: single underscores are allowed between
    digits, not at the end. *)
Fixpoint int_digits (s : string) (acc : Z) (after_underscore : bool)
  : option Z :=
  match s with
  | EmptyString => if after_underscore then None else Some acc
  | String c r =>
      if is_digit c then int_digits r (10 * acc + digit_val c) false
      else if (c =? "_")%char && negb after_underscore
           then int_digits r acc true
           else None
  end.

Definition int_unsigned (s : string) : option Z :=
  match s with
  | EmptyString => None
  | String c r => if is_digit c then int_digits r (digit_val c) false else None
  end.

(** [int(s)] in base 10 for an ASCII string: surrounding white space, an
    optional sign, then digits.  (The interpreter's limit on the number of
    digits of very long literals is not modelled.) *)
Definition int (s : string) : result Z :=
  let body := rstrip (lstrip s) in
  let parsed :=
    match body with
    | String "+" r => int_unsigned r
    | String "-" r => option_map Z.opp (int_unsigned r)
    | _ => int_unsigned body
    end in
  match parsed with
  | Some z => Ok z
  | None => Raise ValueError
  end.

End PyStr.

(** ** Python floats: IEEE binary64 *)

Module PyFloat.

Definition prec : Z := 53.
Definition emax : Z := 1024.

Definition float : Type := spec_float.

(** [float(z)] for an [int], correctly rounded (to nearest, ties to
    even); the result is an infinity when [z] is too large. *)
Definition of_Z (z : Z) : float := binary_normalize prec emax z 0 false.

Definition mul : float -> float -> float := SFmul prec emax.
Definition div : float -> float -> float := SFdiv prec emax.
Definition sub : float -> float -> float := SFsub prec emax.
Definition abs : float -> float := SFabs.

(** The decimal literal [num/den], for [num] and [den] exactly
    representable: the nearest binary64 number. *)
Definition lit (num den : Z) : float := div (of_Z num) (of_Z den).

Definition is_zero (f : float) : bool :=
  match f with S754_zero _ => true | _ => false end.

(** [int(f)]: truncation towards zero. *)
Definition trunc (f : float) : result Z :=
  match f with
  | S754_zero _ => Ok 0
  | S754_nan => Raise ValueError
  | S754_infinity _ => Raise OverflowError
  | S754_finite s m e =>
      let a := if 0 <=? e then Z.shiftl (Zpos m) e
               else Z.shiftr (Zpos m) (- e) in
      Ok (if s then - a else a)
  end.

(** The exact comparison of a finite float [(-1)^s * m * 2^e] with an
    integer. *)
Definition compare_finite_Z (s : bool) (m : positive) (e : Z) (z : Z)
  : comparison :=
  let v := if s then Zneg m else Zpos m in
  if 0 <=? e then Z.compare (v * 2 ^ e) z else Z.compare v (z * 2 ^ (- e)).

Definition compare_Z (f : float) (z : Z) : option comparison :=
  match f with
  | S754_nan => None
  | S754_infinity s => Some (if s then Lt else Gt)
  | S754_zero _ => Some (Z.compare 0 z)
  | S754_finite s m e => Some (compare_finite_Z s m e z)
  end.

(** [Py_MATH_PI] and the two constants of the [math] module. *)
Definition pi : float := S754_finite false 7074237752028440 (-51).
Definition degToRad : float := div pi (of_Z 180).
Definition radToDeg : float := div (of_Z 180) pi.

End PyFloat.

(** ** Python numbers: an [int] or a [float] *)

Module PyNum.

Inductive num : Type :=
  | PyInt (z : Z)
  | PyFloat (f : PyFloat.float).

(** The conversion of an operand to [float] in mixed arithmetic. *)
Definition to_float (x : num) : result PyFloat.float :=
  match x with
  | PyFloat f => Ok f
  | PyInt z =>
      match PyFloat.of_Z z with
      | S754_infinity _ => Raise OverflowError
      | f => Ok f
      end
  end.

(** [x * y] *)
Definition mul (x y : num) : result num :=
  match x, y with
  | PyInt a, PyInt b => Ok (PyInt (a * b))
  | _, _ =>
      rbind (to_float x) (fun a =>
      rbind (to_float y) (fun b => Ok (PyFloat (PyFloat.mul a b))))
  end.

(** [x - y] *)
Definition sub (x y : num) : result num :=
  match x, y with
  | PyInt a, PyInt b => Ok (PyInt (a - b))
  | _, _ =>
      rbind (to_float x) (fun a =>
      rbind (to_float y) (fun b => Ok (PyFloat (PyFloat.sub a b))))
  end.

(** The correctly rounded quotient of two integers, [b <> 0]. *)
Definition int_true_divide (a b : Z) : PyFloat.float :=
  match a, b with
  | Z0, _ => S754_zero (b <? 0)
  | _, Z0 => S754_nan
  | Zpos p, Zpos q =>
      PyFloat.div (S754_finite false p 0) (S754_finite false q 0)
  | Zpos p, Zneg q =>
      PyFloat.div (S754_finite false p 0) (S754_finite true q 0)
  | Zneg p, Zpos q =>
      PyFloat.div (S754_finite true p 0) (S754_finite false q 0)
  | Zneg p, Zneg q =>
      PyFloat.div (S754_finite true p 0) (S754_finite true q 0)
  end.

(** [x / y]: true division, always a [float]. *)
Definition truediv (x y : num) : result num :=
  match x, y with
  | PyInt a, PyInt b =>
      if b =? 0 then Raise ZeroDivisionError
      else match int_true_divide a b with
           | S754_infinity _ => Raise OverflowError
           | f => Ok (PyFloat f)
           end
  | _, _ =>
      rbind (to_float x) (fun a =>
      rbind (to_float y) (fun b =>
        if PyFloat.is_zero b then Raise ZeroDivisionError
        else Ok (PyFloat (PyFloat.div a b))))
  end.

(** [abs(x)] *)
Definition abs (x : num) : num :=
  match x with
  | PyInt a => PyInt (Z.abs a)
  | PyFloat f => PyFloat (PyFloat.abs f)
  end.

(** Comparison is exact, also between an [int] and a [float]; [None]
    when a NaN is involved. *)
Definition compare (x y : num) : option comparison :=
  match x, y with
  | PyInt a, PyInt b => Some (Z.compare a b)
  | PyFloat f, PyFloat g => SFcompare f g
  | PyFloat f, PyInt b => PyFloat.compare_Z f b
  | PyInt a, PyFloat g => option_map CompOpp (PyFloat.compare_Z g a)
  end.

(** [x <= y] *)
Definition le (x y : num) : bool :=
  match compare x y with
  | Some (Lt | Eq) => true
  | _ => false
  end.

(** [x >= y] *)
Definition ge (x y : num) : bool :=
  match compare x y with
  | Some (Gt | Eq) => true
  | _ => false
  end.

(** [int(x)] *)
Definition int (x : num) : result Z :=
  match x with
  | PyInt a => Ok a
  | PyFloat f => PyFloat.trunc f
  end.

(** [math.radians(x)] and [math.degrees(x)]: the argument is converted
    to [float] and multiplied by the module's constant. *)
Definition math_radians (x : num) : result num :=
  rbind (to_float x) (fun f => Ok (PyFloat (PyFloat.mul f PyFloat.degToRad))).

Definition math_degrees (x : num) : result num :=
  rbind (to_float x) (fun f => Ok (PyFloat (PyFloat.mul f PyFloat.radToDeg))).

End PyNum.

Export PyNum(num, PyInt, PyFloat).

(** ** The unit converters (lines 30-51) *)

Definition ArcSec_To_Degrees (arcsec : num) : result num :=
  PyNum.truediv arcsec (PyInt 3600).

Definition ArcSec_To_Radians (arcsec : num) : result num :=
  rbind (PyNum.truediv arcsec (PyInt 3600)) PyNum.math_radians.

Definition Degrees_To_Arcsec (degrees : num) : result num :=
  PyNum.mul degrees (PyInt 3600).

Definition Degrees_To_Radians (degrees : num) : result num :=
  PyNum.math_radians degrees.

Definition Radians_To_Arcsec (radians : num) : result num :=
  rbind (PyNum.math_degrees radians) (fun d => PyNum.mul d (PyInt 3600)).

Definition Radians_To_Degrees (radians : num) : result num :=
  PyNum.math_degrees radians.

(** ** The serial port

    The port is the bytes the mount will deliver ([port_in]) and the
    commands written so far, oldest first ([port_out]).  A read that finds
    fewer bytes than it asked for returns what there is, as the port does
    when its two-second timeout elapses. *)

Module Serial.

(** [read(size)] *)
Definition read (size : nat) (input : string) : string * string :=
  (PyStr.take size input, PyStr.drop size input).

(** [line[-n:]]; for [n = 0] this is the whole line. *)
Definition tail (n : nat) (line : string) : string :=
  match n with
  | O => line
  | _ => PyStr.drop (String.length line - n) line
  end.

(** [read_until(expected)]: bytes are taken one at a time until the line
    read so far ends with [expected], or none is left. *)
Fixpoint read_until (expected : string) (line input : string)
  : string * string :=
  match input with
  | EmptyString => (line, EmptyString)
  | String c rest =>
      let line' := line ++ String c EmptyString in
      if (tail (String.length expected) line' =? expected)%string
      then (line', rest)
      else read_until expected line' rest
  end.

Definition is_ascii (c : ascii) : bool := (nat_of_ascii c <? 128)%nat.

Fixpoint all_ascii (s : string) : bool :=
  match s with
  | EmptyString => true
  | String c r => is_ascii c && all_ascii r
  end.

(** [reply.decode("utf-8")].  A reply of ASCII bytes decodes to itself.
    A byte above 127 raises UnicodeDecodeError: this is exact for the
    replies of at most one byte; replies holding a well-formed multi-byte
    sequence are outside the model. *)
Definition decode (reply : string) : result string :=
  if all_ascii reply then Ok reply else Raise UnicodeDecodeError.

End Serial.

(** ** The driver object *)

Record AzMountPro : Type := mkMount {
  new_Alt : bool;            (* self.new_Alt *)
  new_Az : bool;             (* self.new_Az *)
  port_in : string;          (* bytes the mount has yet to deliver *)
  port_out : list string;    (* commands written to the port, in order *)
  warnings : list string;    (* self.logger.warning messages, in order *)
  sleeps : nat               (* number of time.sleep calls *)
}.

(** A method: the object before, the outcome and the object after.  A
    raised exception keeps the object as it was when it was raised. *)
Definition M (A : Type) : Type := AzMountPro -> result A * AzMountPro.

Definition ret {A} (a : A) : M A := fun s => (Ok a, s).

Definition bind {A B} (m : M A) (k : A -> M B) : M B :=
  fun s =>
    match m s with
    | (Ok a, s') => k a s'
    | (Raise e, s') => (Raise e, s')
    | (Unfinished, s') => (Unfinished, s')
    end.

Definition raise {A} (e : exn) : M A := fun s => (Raise e, s).

Definition unfinished {A} : M A := fun s => (Unfinished, s).

(** A pure computation that may raise. *)
Definition lift {A} (r : result A) : M A := fun s => (r, s).

Declare Scope py_scope.
Delimit Scope py_scope with py.
Notation "x <- m ;; k" := (bind m (fun x => k))
  (at level 61, m at next level, right associativity) : py_scope.
Notation "m ;;; k" := (bind m (fun _ => k))
  (at level 61, right associativity) : py_scope.
Open Scope py_scope.

(** [assert b] *)
Definition assert (b : bool) : M unit :=
  if b then ret tt else raise AssertionError.

Definition set_new_Alt (b : bool) : M unit := fun s =>
  (Ok tt, mkMount b (new_Az s) (port_in s) (port_out s) (warnings s) (sleeps s)).

Definition set_new_Az (b : bool) : M unit := fun s =>
  (Ok tt, mkMount (new_Alt s) b (port_in s) (port_out s) (warnings s) (sleeps s)).

Definition get_new_Alt : M bool := fun s => (Ok (new_Alt s), s).
Definition get_new_Az : M bool := fun s => (Ok (new_Az s), s).

(** [self.mount.write(command.encode("utf-8"))] and the flush. *)
Definition port_write (command : string) : M unit := fun s =>
  (Ok tt, mkMount (new_Alt s) (new_Az s) (port_in s)
                  (port_out s ++ [command]) (warnings s) (sleeps s)).

Definition port_take (f : string -> string * string) : M string := fun s =>
  let '(reply, rest) := f (port_in s) in
  (Ok reply, mkMount (new_Alt s) (new_Az s) rest (port_out s)
                     (warnings s) (sleeps s)).

Definition logger_warning (msg : string) : M unit := fun s =>
  (Ok tt, mkMount (new_Alt s) (new_Az s) (port_in s) (port_out s)
                  (warnings s ++ [msg]) (sleeps s)).

(** [time.sleep(t)] *)
Definition time_sleep : M unit := fun s =>
  (Ok tt, mkMount (new_Alt s) (new_Az s) (port_in s) (port_out s)
                  (warnings s) (S (sleeps s))).

(** The [expected] argument of [_SendMessage]: a number of bytes or the
    string that ends the reply. *)
Inductive expected : Type :=
  | Count (n : nat)
  | Until (terminator : string).

(** [_SendMessage] (lines 131-168); the debug log is left out. *)
Definition _SendMessage (command : string) (exp : expected) : M string :=
  port_write command ;;;
  reply <- match exp with
           | Count n => port_take (Serial.read n)
           | Until t => port_take (Serial.read_until t EmptyString)
           end ;;
  lift (Serial.decode reply).

Definition units_Allowed : list string := ["arcsec"; "degrees"; "radians"].

(** [x in l] for a list of strings. *)
Definition str_in (x : string) (l : list string) : bool :=
  existsb (String.eqb x) l.

(** [d[k]] for a dict of strings; a missing key raises KeyError. *)
Fixpoint dict_get (d : list (string * string)) (k : string) : result string :=
  match d with
  | [] => Raise KeyError
  | (k', v) :: d' => if (k =? k')%string then Ok v else dict_get d' k
  end.

(** [Get_AltAz] (lines 170-193) *)
Definition Get_AltAz (units : string) : M (num * num) :=
  assert (str_in units units_Allowed) ;;;
  r <- _SendMessage ":GAC#" (Until "#") ;;
  let altaz_Reply := PyStr.slice r None (Some (-1)) in
  a <- lift (PyStr.int (PyStr.slice altaz_Reply None (Some 9))) ;;
  alt <- lift (PyNum.mul (PyInt a) (PyFloat (PyFloat.lit 1 100))) ;;
  z <- lift (PyStr.int (PyStr.slice altaz_Reply (Some 9) None)) ;;
  az <- lift (PyNum.mul (PyInt z) (PyFloat (PyFloat.lit 1 100))) ;;
  if (units =? "degrees")%string then
    alt' <- lift (ArcSec_To_Degrees alt) ;;
    az' <- lift (ArcSec_To_Degrees az) ;;
    ret (alt', az')
  else if (units =? "radians")%string then
    alt' <- lift (ArcSec_To_Radians alt) ;;
    az' <- lift (ArcSec_To_Radians az) ;;
    ret (alt', az')
  else ret (alt, az).

(** [Get_FirmwareVersion] (lines 219-241): the four dates, in the order
    mainboard, handcontroller, ra_motor, dec_motor. *)
Definition Get_FirmwareVersion : M (string * string * string * string) :=
  r1 <- _SendMessage ":FW1#" (Until "#") ;;
  let fw1 := PyStr.slice r1 None (Some (-1)) in
  r2 <- _SendMessage ":FW2#" (Until "#") ;;
  let fw2 := PyStr.slice r2 None (Some (-1)) in
  ret (PyStr.slice fw1 None (Some 6), PyStr.slice fw1 (Some 6) None,
       PyStr.slice fw2 None (Some 6), PyStr.slice fw2 (Some 6) None).

(** [Get_LatLong] (lines 243-253) *)
Definition Get_LatLong : M (num * num) :=
  lat_Reply <- _SendMessage ":Gt#" (Until "#") ;;
  a <- lift (PyStr.int (PyStr.slice lat_Reply (Some 1) (Some (-1)))) ;;
  lat <- lift (ArcSec_To_Degrees (PyInt a)) ;;
  long_Reply <- _SendMessage ":Gg#" (Until "#") ;;
  b <- lift (PyStr.int (PyStr.slice long_Reply (Some 1) (Some (-1)))) ;;
  long <- lift (ArcSec_To_Degrees (PyInt b)) ;;
  ret (lat, long).

(** [Get_StatusInfo] (lines 255-316): the six tables, and the two shapes
    of the returned value. *)
Definition gps_Msgs : list (string * string) :=
  [("0", "GPS off"); ("1", "GPS on"); ("2", "GPS working")].

Definition system_Msgs : list (string * string) :=
  [("0", "stopped (not zeroed)"); ("1", "tracking (PEC disabled)");
   ("2", "slewing"); ("3", "guiding"); ("4", "meridian flipping");
   ("5", "tracking (PEC enabled"); ("6", "parked"); ("7", "stopped at home")].

Definition track_Msgs : list (string * string) :=
  [("0", "siderial"); ("1", "lunar"); ("2", "solar"); ("3", "king");
   ("4", "custom")].

Definition speed_Msgs : list (string * string) :=
  [("1", "1x"); ("2", "2x"); ("3", "8x"); ("4", "16x"); ("5", "64x");
   ("6", "128x"); ("7", "256x"); ("8", "512x"); ("9", "max")].

Definition time_Msgs : list (string * string) :=
  [("0", "unknown"); ("1", "RS232"); ("2", "Hand controller"); ("3", "GPS")].

Definition hemi_Msgs : list (string * string) :=
  [("0", "Southern"); ("1", "Northern")].

Inductive status_info : Type :=
  | Readable (d : list (string * string))   (* the dict of six messages *)
  | Packed (s : string).                    (* the reply without its last byte *)

Definition Get_StatusInfo (readable : bool) : M status_info :=
  status <- _SendMessage ":GAS#" (Until "#") ;;
  if readable then
    k0 <- lift (PyStr.index status 0) ;;
    gps <- lift (dict_get gps_Msgs k0) ;;
    k1 <- lift (PyStr.index status 1) ;;
    system <- lift (dict_get system_Msgs k1) ;;
    k2 <- lift (PyStr.index status 2) ;;
    track_Rate <- lift (dict_get track_Msgs k2) ;;
    k3 <- lift (PyStr.index status 3) ;;
    move_Speed <- lift (dict_get speed_Msgs k3) ;;
    k4 <- lift (PyStr.index status 4) ;;
    time_Source <- lift (dict_get time_Msgs k4) ;;
    k5 <- lift (PyStr.index status 5) ;;
    hemisphere <- lift (dict_get hemi_Msgs k5) ;;
    ret (Readable [("GPS status", gps); ("System status", system);
                   ("Track rate", track_Rate); ("Move speed", move_Speed);
                   ("Time source", time_Source); ("Hemisphere", hemisphere)])
  else
    ret (Packed (PyStr.slice status None (Some (-1)))).

(** [v[1]] on the value [Get_StatusInfo] returned: a character of the
    packed string; the dict has no key [1]. *)
Definition subscript_1 (v : status_info) : result string :=
  match v with
  | Packed s => PyStr.index s 1
  | Readable _ => Raise KeyError
  end.

(** Lines 361-366, shared by the setters: the value in hundredths of an
    arcsecond, [int(arcsec / 0.01)]. *)
Definition to_hundredths (value : num) (units : string) : result Z :=
  rbind (if (units =? "degrees")%string then Degrees_To_Arcsec value
         else if (units =? "radians")%string then Radians_To_Arcsec value
         else Ok value) (fun arcsec =>
  rbind (PyNum.truediv arcsec (PyFloat (PyFloat.lit 1 100))) PyNum.int).

(** Lines 370-377: the command string of [_Set_Altitude]. *)
Definition altitude_cmd (altitude : Z) : string :=
  let sign := if altitude >=? 0 then "+" else EmptyString in
  ":Sa" ++ sign ++ PyStr.rjust 8 "0" (PyStr.str altitude) ++ "#".

(** [_Set_Altitude] (lines 351-381).  The range assertion of line 368 is
    commented out in the source. *)
Definition _Set_Altitude (altitude : num) (units : string) : M Z :=
  assert (str_in units units_Allowed) ;;;
  altitude' <- lift (to_hundredths altitude units) ;;
  r <- _SendMessage (altitude_cmd altitude') (Count 1) ;;
  alt_Reply <- lift (PyStr.int r) ;;
  (if alt_Reply =? 1 then set_new_Alt true else ret tt) ;;;
  ret alt_Reply.

(** [Set_AltLimit] (lines 383-410) *)
Definition Set_AltLimit (limit : num) (units : string) : M Z :=
  assert (str_in units units_Allowed) ;;;
  limit' <- lift (if (units =? "radians")%string then Radians_To_Degrees limit
                  else if (units =? "arcsec")%string then ArcSec_To_Degrees limit
                  else Ok limit) ;;
  assert (PyNum.ge limit' (PyInt (-89)) && PyNum.le limit' (PyInt 89)) ;;;
  let sign := if PyNum.ge limit' (PyInt 0) then "+" else EmptyString in
  n <- lift (PyNum.int limit') ;;
  let cmd := ":SAL" ++ sign ++ PyStr.rjust 2 "0" (PyStr.str n) ++ "#" in
  r <- _SendMessage cmd (Count 1) ;;
  lift (PyStr.int r).

(** Line 443: the command string of [_Set_Azimuth]. *)
Definition azimuth_cmd (azimuth : Z) : string :=
  ":Sz" ++ PyStr.rjust 9 "0" (PyStr.str azimuth) ++ "#".

(** [_Set_Azimuth] (lines 423-447) *)
Definition _Set_Azimuth (azimuth : num) (units : string) : M Z :=
  assert (str_in units units_Allowed) ;;;
  azimuth' <- lift (to_hundredths azimuth units) ;;
  assert ((azimuth' >=? 0) && (azimuth' <=? 129600000)) ;;;
  r <- _SendMessage (azimuth_cmd azimuth') (Count 1) ;;
  az_Reply <- lift (PyStr.int r) ;;
  (if az_Reply =? 1 then set_new_Az true else ret tt) ;;;
  ret az_Reply.

(** [Set_AltAz] (lines 412-421) *)
Definition Set_AltAz (altitude azimuth : num) (units : string) : M (Z * Z) :=
  alt_Reply <- _Set_Altitude altitude units ;;
  az_Reply <- _Set_Azimuth azimuth units ;;
  ret (alt_Reply, az_Reply).

Definition rates_Available : list (string * string) :=
  [("1x", "1"); ("2x", "2"); ("8x", "3"); ("16x", "4"); ("64x", "5");
   ("128x", "6"); ("256x", "7"); ("512x", "8"); ("max", "9")].

(** [Set_MoveRate] (lines 535-559) *)
Definition Set_MoveRate (rate : string) : M Z :=
  d <- lift (dict_get rates_Available rate) ;;
  r <- _SendMessage (":SR" ++ d ++ "#") (Count 1) ;;
  lift (PyStr.int r).

(** [Track] (lines 825-834) *)
Definition Track (do_Tracking : bool) : M Z :=
  r <- _SendMessage (if do_Tracking then ":ST1#" else ":ST0#") (Count 1) ;;
  lift (PyStr.int r).

(** The message of line 781. *)
Definition below_0_warning : string :=
  "Mount says that the requested alt is below 0".

(** [_Move] (lines 764-783) *)
Definition _Move : M Z :=
  a <- get_new_Alt ;;
  b <- get_new_Az ;;
  assert (a && b) ;;;
  set_new_Alt false ;;;
  set_new_Az false ;;;
  r <- _SendMessage ":MS#" (Count 1) ;;
  move_Reply <- lift (PyStr.int r) ;;
  (if move_Reply =? 0
   then logger_warning below_0_warning
   else ret tt) ;;;
  ret move_Reply.

(** [Go_AltAz] (lines 635-644) *)
Definition Go_AltAz (altitude azimuth : num) (units : string)
  : M ((Z * Z) * Z) :=
  set_Reply <- Set_AltAz altitude azimuth units ;;
  move_Reply <- _Move ;;
  ret (set_Reply, move_Reply).

(** [Is_At_AltAz] (lines 689-700) *)
Definition Is_At_AltAz (altitude_Query azimuth_Query margin : num)
    (units : string) : M bool :=
  actual <- Get_AltAz units ;;
  let '(altitude_Actual, azimuth_Actual) := actual in
  da <- lift (PyNum.sub altitude_Actual altitude_Query) ;;
  let alt_Good := PyNum.le (PyNum.abs da) margin in
  dz <- lift (PyNum.sub azimuth_Actual azimuth_Query) ;;
  let az_Good := PyNum.le (PyNum.abs dz) margin in
  ret (alt_Good && az_Good).

(** The four status predicates (lines 702-748). *)
Definition Is_Homed : M bool :=
  v <- Get_StatusInfo false ;;
  status <- lift (subscript_1 v) ;;
  ret (status =? "7")%string.

Definition Is_Slewing : M bool :=
  v <- Get_StatusInfo false ;;
  status <- lift (subscript_1 v) ;;
  ret (status =? "2")%string.

Definition Is_Stopped : M bool :=
  v <- Get_StatusInfo false ;;
  status <- lift (subscript_1 v) ;;
  ret (str_in status ["0"; "6"; "7"]).

Definition Is_Tracking : M bool :=
  v <- Get_StatusInfo false ;;
  status <- lift (subscript_1 v) ;;
  ret (str_in status ["1"; "5"]).

(** Line 654 names [self.Is_Stopped] without calling it: the operand is
    the bound method object, whose truth value is [True]. *)
Definition bound_method_truth : bool := true.

(** The loop of [Go_Blocking] (lines 654-655); [fuel] bounds the number of
    polls. *)
Fixpoint Go_Blocking_loop (fuel : nat) (altitude azimuth : num) : M unit :=
  match fuel with
  | O => unfinished
  | S fuel' =>
      at_target <- Is_At_AltAz altitude azimuth (PyFloat (PyFloat.lit 1 10))
                               "degrees" ;;
      if at_target && bound_method_truth then ret tt
      else time_sleep ;;; Go_Blocking_loop fuel' altitude azimuth
  end.

(** [Go_Blocking] (lines 646-657) *)
Definition Go_Blocking (fuel : nat) (altitude azimuth : num) (units : string)
  : M ((Z * Z) * Z) :=
  move_Reply <- Go_AltAz altitude azimuth units ;;
  Go_Blocking_loop fuel altitude azimuth ;;;
  ret move_Reply.

(** The loop of [Go_Home] (lines 684-685). *)
Fixpoint Go_Home_loop (fuel : nat) : M unit :=
  match fuel with
  | O => unfinished
  | S fuel' =>
      homed <- Is_Homed ;;
      if homed then ret tt else time_sleep ;;; Go_Home_loop fuel'
  end.

(** [Go_Home] (lines 676-687) *)
Definition Go_Home (fuel : nat) : M Z :=
  r <- _SendMessage ":MH#" (Count 1) ;;
  home_Reply <- lift (PyStr.int r) ;;
  Go_Home_loop fuel ;;;
  ret home_Reply.

(** ** Initialisation *)

Section Init.

(** [dateutil.parser.parse] is a library function; the driver only logs
    its result. *)
Variable datetime : Type.
Variable dateutil_parse : string -> result datetime.

(** [Get_TimeInfo] (lines 318-349) *)
Definition Get_TimeInfo : M (datetime * string) :=
  time_Reply <- _SendMessage ":GLT#" (Until "#") ;;
  let tz := PyStr.slice time_Reply (Some 0) (Some 4) in
  dst <- lift (PyStr.index time_Reply 4) ;;
  let date := PyStr.slice time_Reply (Some 5) (Some 11) in
  let time_Stamp := PyStr.slice time_Reply (Some 11) (Some 17) in
  h <- lift (PyStr.int (PyStr.slice tz (Some 1) None)) ;;
  let utc_Hours := PyStr.rjust 2 "0" (PyStr.str (h / 60)) in
  m <- lift (PyStr.int (PyStr.slice tz (Some 1) None)) ;;
  let utc_Mins := PyStr.rjust 2 "0" (PyStr.str (m mod 60)) in
  tz0 <- lift (PyStr.index tz 0) ;;
  let dt_Objs :=
    ["20"; PyStr.slice date (Some 0) (Some 2); "-";
     PyStr.slice date (Some 2) (Some 4); "-";
     PyStr.slice date (Some 4) (Some 6); "T";
     PyStr.slice time_Stamp (Some 0) (Some 2); ":";
     PyStr.slice time_Stamp (Some 2) (Some 4); ":";
     PyStr.slice time_Stamp (Some 4) (Some 6);
     tz0; utc_Hours; ":"; utc_Mins] in
  parsed <- lift (dateutil_parse (String.concat EmptyString dt_Objs)) ;;
  ret (parsed, dst).

(** The port as [__init__] finds it once opened: nothing written yet,
    [input] the bytes the mount will deliver.  The two flags do not exist
    before lines 122-123 assign them; no method reads them earlier. *)
Definition opened (input : string) : AzMountPro :=
  mkMount false false input [] [] 0.

(** [__init__] from the handshake on (lines 88-125); [fuel] bounds the
    polls of the final [Go_Home]. *)
Definition __init__ (fuel : nat) : M unit :=
  version <- _SendMessage ":V#" (Until "#") ;;
  model <- _SendMessage ":MountInfo#" (Count 4) ;;
  assert ((PyStr.slice version None (Some (-1)) =? "V1.00")%string
          && (model =? "5035")%string) ;;;
  Get_FirmwareVersion ;;;
  Track false ;;;
  Set_MoveRate "max" ;;;
  Set_AltLimit (PyInt (-89)) "degrees" ;;;
  Get_StatusInfo true ;;;
  Get_TimeInfo ;;;
  Get_LatLong ;;;
  set_new_Alt false ;;;
  set_new_Az false ;;;
  Go_Home fuel ;;;
  ret tt.

End Init.

(** ** The real value of a float and the round trips of the converters *)

(** The exponent function of binary64. *)
Abbreviation fexp64 := (fexp PyFloat.prec PyFloat.emax).

Section FloatValue.

Local Open Scope R_scope.

(** The power of two of an integer exponent. *)
Definition bpow (e : Z) : R := powerRZ 2 e.

(** The magnitude and the sign of a float; an infinity or a NaN has the
    magnitude 0 here and is excluded by [is_fin]. *)
Definition mag (x : spec_float) : R :=
  match x with
  | S754_finite _ m e => IZR (Z.pos m) * bpow e
  | _ => 0
  end.

Definition sgn (x : spec_float) : bool :=
  match x with
  | S754_zero s | S754_infinity s | S754_finite s _ _ => s
  | S754_nan => false
  end.

(** Neither an infinity nor a NaN. *)
Definition is_fin (x : spec_float) : bool :=
  match x with
  | S754_zero _ | S754_finite _ _ _ => true
  | _ => false
  end.

(** The real number a finite float stands for. *)
Definition F2R (x : spec_float) : R :=
  if sgn x then - mag x else mag x.

(** The unit roundoff bound used below and the smallest subnormal. *)
Definition u52 : R := bpow (-52).
Definition eta : R := bpow (-1074).

Inductive angle_unit : Type := Arcsec | Degree | Radian.

(** The converter of lines 30-51 from the unit [a] to the unit [b]. *)
Definition convert (a b : angle_unit) (x : num) : result num :=
  match a, b with
  | Arcsec, Degree => ArcSec_To_Degrees x
  | Arcsec, Radian => ArcSec_To_Radians x
  | Degree, Arcsec => Degrees_To_Arcsec x
  | Degree, Radian => Degrees_To_Radians x
  | Radian, Arcsec => Radians_To_Arcsec x
  | Radian, Degree => Radians_To_Degrees x
  | _, _ => Ok x
  end.

(** One millionth of a degree, in the unit. *)
Definition tolerance (a : angle_unit) : R :=
  match a with
  | Arcsec => 3600 / 1000000
  | Degree => 1 / 1000000
  | Radian => PI / 180 / 1000000
  end.

(** The real value of a number. *)
Definition num_value (x : num) : R :=
  match x with
  | PyInt z => IZR z
  | PyFloat f => F2R f
  end.

(** An [int], or a float that is neither an infinity nor a NaN. *)
Definition finite_num (x : num) : Prop :=
  match x with
  | PyInt _ => True
  | PyFloat f => is_fin f = true
  end.

(** A valid angle value: a finite number of magnitude at most [2^22] in
    its unit (in arcseconds, more than three full turns). *)
Definition valid_angle (x : num) : Prop :=
  finite_num x /\ Rabs (num_value x) <= 4194304.

(** [float(3600)], the operand of the mixed multiplications and
    divisions by 3600. *)
Definition c3600 : spec_float := PyFloat.of_Z 3600.

End FloatValue.

(** ** Vocabulary of the properties *)

(** The object with both staged flags cleared (lines 776-777). *)
Definition clear_flags (s : AzMountPro) : AzMountPro :=
  mkMount false false (port_in s) (port_out s) (warnings s) (sleeps s).

(** The part of [_Move] after the flags are cleared (lines 778-783): the
    move command is sent and its reply interpreted. *)
Definition move_exchange : M Z :=
  r <- _SendMessage ":MS#" (Count 1) ;;
  move_Reply <- lift (PyStr.int r) ;;
  (if move_Reply =? 0
   then logger_warning below_0_warning
   else ret tt) ;;;
  ret move_Reply.

(** A reply body: no byte of it is the hash sign. *)
Fixpoint no_hash (s : string) : bool :=
  match s with
  | EmptyString => true
  | String c r => negb (c =? "#")%char && no_hash r
  end.

(** The six one-character fields of a status reply. *)
Definition status_reply (c0 c1 c2 c3 c4 c5 : ascii) : string :=
  String c0 (String c1 (String c2 (String c3 (String c4
    (String c5 EmptyString))))).

(** The character is a key of the table. *)
Definition mapped (table : list (string * string)) (c : ascii) : bool :=
  match dict_get table (String c EmptyString) with
  | Ok _ => true
  | _ => false
  end.

(** ** The other operations of the driver *)

(** [x + y] *)
Definition num_add (x y : num) : result num :=
  match x, y with
  | PyInt a, PyInt b => Ok (PyInt (a + b))
  | _, _ =>
      rbind (PyNum.to_float x) (fun a =>
      rbind (PyNum.to_float y) (fun b =>
        Ok (PyFloat (SFadd PyFloat.prec PyFloat.emax a b))))
  end.

(** [Get_AltLimit] (lines 195-217) *)
Definition Get_AltLimit (units : string) : M num :=
  assert (str_in units units_Allowed) ;;;
  r <- _SendMessage ":GAL#" (Until "#") ;;
  limit_Reply <- lift (PyStr.int (PyStr.slice r None (Some 3))) ;;
  if (units =? "radians")%string
  then lift (PyNum.math_radians (PyInt limit_Reply))
  else if (units =? "arcsec")%string then ret (PyInt (limit_Reply * 3600))
  else ret (PyInt limit_Reply).

(** [Set_DST] (lines 449-460); the command of the [else] branch has no
    hash sign in the source. *)
Definition Set_DST (is_DST : bool) : M Z :=
  r <- _SendMessage (if is_DST then ":SDS1#" else ":SDS0") (Count 1) ;;
  lift (PyStr.int r).

(** [Set_Hemisphere] (lines 462-468) *)
Definition Set_Hemisphere (northern : bool) : M Z :=
  r <- _SendMessage (if northern then ":SHE1#" else ":SHE0#") (Count 1) ;;
  lift (PyStr.int r).

(** Lines 487-493: the command string of [Set_Latitude]. *)
Definition latitude_cmd (latitude : Z) : string :=
  let sign := if latitude >=? 0 then "+" else EmptyString in
  ":SLA" ++ sign ++ PyStr.rjust 8 "0" (PyStr.str latitude) ++ "#".

(** [Set_Latitude] (lines 470-495) *)
Definition Set_Latitude (latitude : num) (units : string) : M Z :=
  assert (str_in units units_Allowed) ;;;
  latitude' <- lift (to_hundredths latitude units) ;;
  assert ((-32400000 <? latitude') && (latitude' <? 32400000)) ;;;
  r <- _SendMessage (latitude_cmd latitude') (Count 1) ;;
  lift (PyStr.int r).

(** Lines 514-520: the command string of [Set_Longitude]. *)
Definition longitude_cmd (longitude : Z) : string :=
  let sign := if longitude >=? 0 then "+" else EmptyString in
  ":SLO" ++ sign ++ PyStr.rjust 8 "0" (PyStr.str longitude) ++ "#".

(** [Set_Longitude] (lines 497-522) *)
Definition Set_Longitude (longitude : num) (units : string) : M Z :=
  assert (str_in units units_Allowed) ;;;
  longitude' <- lift (to_hundredths longitude units) ;;
  assert ((-64800000 <? longitude') && (longitude' <? 64800000)) ;;;
  r <- _SendMessage (longitude_cmd longitude') (Count 1) ;;
  lift (PyStr.int r).

(** [type(x) == int] *)
Definition is_int (x : num) : bool :=
  match x with
  | PyInt _ => true
  | PyFloat _ => false
  end.

(** Lines 572-577: the command string of [Set_TimeOffset]. *)
Definition time_offset_cmd (minutes : Z) : string :=
  let sign := if minutes >=? 0 then "+" else EmptyString in
  ":SG" ++ sign ++ PyStr.str minutes ++ "#".

(** [Set_TimeOffset] (lines 561-578).  Past the assertion [minutes] is an
    [int]; [PyNum.int] only takes it out of [num]. *)
Definition Set_TimeOffset (minutes : num) : M Z :=
  assert (PyNum.le (PyInt (-720)) minutes
          && PyNum.le minutes (PyInt 780)
          && is_int minutes) ;;;
  m <- lift (PyNum.int minutes) ;;
  r <- _SendMessage (time_offset_cmd m) (Count 1) ;;
  lift (PyStr.int r).

Definition modes_Available : list (string * string) :=
  [("siderial", "0"); ("lunar", "1"); ("solar", "2"); ("king", "3");
   ("custom", "4")].

(** [Set_TrackRate] (lines 580-597) *)
Definition Set_TrackRate (mode : string) : M Z :=
  d <- lift (dict_get modes_Available mode) ;;
  r <- _SendMessage (":RT" ++ d ++ "#") (Count 1) ;;
  lift (PyStr.int r).

(** [Calibrate] (lines 619-633) *)
Definition Calibrate : M Z :=
  r <- _SendMessage ":CM#" (Count 1) ;;
  lift (PyStr.int r).

(** [Go_Delta] (lines 660-674); [new_Alt0] and [new_Az0] are the local
    variables [new_Alt] and [new_Az] of the source, not the flags. *)
Definition Go_Delta (altitude_Delta azimuth_Delta : num) (units : string)
  : M ((Z * Z) * Z) :=
  current <- Get_AltAz units ;;
  let '(alt_Current, az_Current) := current in
  new_Alt0 <- lift (num_add alt_Current altitude_Delta) ;;
  new_Az0 <- lift (num_add az_Current azimuth_Delta) ;;
  Go_AltAz new_Alt0 new_Az0 units.

Definition directions : list (string * string) :=
  [("up", ":mn#"); ("down", ":ms#"); ("left", ":mw#"); ("right", ":me#")].

(** [KeyPad] (lines 750-762): no byte of reply is read. *)
Definition KeyPad (direction : string) : M unit :=
  cmd <- lift (dict_get directions direction) ;;
  _SendMessage cmd (Count 0) ;;;
  ret tt.

(** [Reset_All] (lines 785-791) *)
Definition Reset_All : M Z :=
  r <- _SendMessage ":RAS#" (Count 1) ;;
  lift (PyStr.int r).

(** [Stop] (lines 793-799) *)
Definition Stop : M Z :=
  r <- _SendMessage ":Q#" (Count 1) ;;
  lift (PyStr.int r).

(** [Stop_Keypad] (lines 801-807) *)
Definition Stop_Keypad : M Z :=
  r <- _SendMessage ":q#" (Count 1) ;;
  lift (PyStr.int r).

(** [Stop_LeftRight] (lines 809-815) *)
Definition Stop_LeftRight : M Z :=
  r <- _SendMessage ":qR#" (Count 1) ;;
  lift (PyStr.int r).

(** [Stop_UpDown] (lines 817-823) *)
Definition Stop_UpDown : M Z :=
  r <- _SendMessage ":qD#" (Count 1) ;;
  lift (PyStr.int r).

(** The loops of [TestRun] (lines 838-839, 843-844, 848-849): poll
    [Is_Stopped] until it is true. *)
Fixpoint wait_stopped (fuel : nat) : M unit :=
  match fuel with
  | O => unfinished
  | S fuel' =>
      stopped <- Is_Stopped ;;
      if stopped then ret tt else time_sleep ;;; wait_stopped fuel'
  end.

(** [TestRun] (lines 836-850); [fuel] bounds the polls of every loop. *)
Definition TestRun (fuel : nat) : M unit :=
  Go_Home fuel ;;;
  wait_stopped fuel ;;;
  time_sleep ;;;
  Go_AltAz (PyInt 80) (PyInt 190) "degrees" ;;;
  wait_stopped fuel ;;;
  time_sleep ;;;
  Go_Delta (PyInt 10) (PyInt (-10)) "degrees" ;;;
  wait_stopped fuel ;;;
  time_sleep.

(** ** Vocabulary of the further properties *)

(** A command answered by one byte that is read as an integer: the body of
    [Calibrate], [Reset_All], the four stop commands, [Track],
    [Set_Hemisphere] and [Set_DST]. *)
Definition ack_exchange (cmd : string) : M Z :=
  r <- _SendMessage cmd (Count 1) ;;
  lift (PyStr.int r).

(** The operations that only send a fixed command, with that command. *)
Definition fixed_commands : list (M Z * string) :=
  [(Calibrate, ":CM#"); (Reset_All, ":RAS#"); (Stop, ":Q#");
   (Stop_Keypad, ":q#"); (Stop_LeftRight, ":qR#"); (Stop_UpDown, ":qD#");
   (Track true, ":ST1#"); (Track false, ":ST0#");
   (Set_Hemisphere true, ":SHE1#"); (Set_Hemisphere false, ":SHE0#");
   (Set_DST true, ":SDS1#"); (Set_DST false, ":SDS0")].

(** From [s] to [s'] only commands satisfying [P] were written. *)
Definition wrote (P : string -> Prop) (s s' : AzMountPro) : Prop :=
  exists l, port_out s' = (port_out s ++ l)%list /\ Forall P l.

(** From [s] to [s'] the two staged flags are the same. *)
Definition same_flags (s s' : AzMountPro) : Prop :=
  new_Alt s' = new_Alt s /\ new_Az s' = new_Az s.

(** The relation [R] holds between the object before and after the
    method, whatever the mount answers and whatever the outcome. *)
Definition always {A} (R : AzMountPro -> AzMountPro -> Prop) (m : M A)
  : Prop :=
  forall s, R s (snd (m s)).

(** When the method returns, the commands it has written satisfy [Q]. *)
Definition emits {A} (m : M A) (Q : list string -> Prop) : Prop :=
  forall s v s', m s = (Ok v, s') ->
    exists l, port_out s' = (port_out s ++ l)%list /\ Q l.
(** The commands [Go_AltAz] writes: the two set commands and the move
    command. *)
Definition move_command (c : string) : Prop :=
  (exists t, c = ":Sa" ++ t) \/ (exists t, c = ":Sz" ++ t) \/ c = ":MS#".


(** From [s] to [s'] the staged flags are the same and no set-target or
    move command was written. *)
Definition target_untouched (s s' : AzMountPro) : Prop :=
  same_flags s s' /\ wrote (fun c => ~ move_command c) s s'.

(** A status reply body: digits only, its system-state digit (the second
    character) satisfying [P]. *)
Definition status_with (P : ascii -> bool) (body : string) : bool :=
  PyStr.all_digits body &&
  match String.get 1 body with
  | Some c => P c
  | None => false
  end.

Definition is_home_digit (c : ascii) : bool := (c =? "7")%char.

Definition is_stopped_digit (c : ascii) : bool :=
  (c =? "0")%char || (c =? "6")%char || (c =? "7")%char.

(** The bytes of successive replies, each ended by the hash sign. *)
Fixpoint replies (bodies : list string) : string :=
  match bodies with
  | [] => EmptyString
  | body :: rest => body ++ String "#" (replies rest)
  end.

(** When the method returns, the object satisfies [P]. *)
Definition ends {A} (m : M A) (P : AzMountPro -> Prop) : Prop :=
  forall s v s', m s = (Ok v, s') -> P s'.

(** The commands of a successful initialisation before the polls of the
    final homing. *)
Definition init_commands : list string :=
  [":V#"; ":MountInfo#"; ":FW1#"; ":FW2#"; ":ST0#"; ":SR9#"; ":SAL-89#";
   ":GAS#"; ":GLT#"; ":Gt#"; ":Gg#"; ":MH#"].

(** Lines 183-191 of [Get_AltAz]: the value returned for a field of the
    reply that reads as the integer [n]. *)
Definition reported (units : string) (n : Z) : result num :=
  rbind (PyNum.mul (PyInt n) (PyFloat (PyFloat.lit 1 100))) (fun v =>
    if (units =? "degrees")%string then ArcSec_To_Degrees v
    else if (units =? "radians")%string then ArcSec_To_Radians v
    else Ok v).

(** * Properties *)

(** ** Sanity checks of the Python primitives *)

Example str_examples :
  PyStr.str 4442400 = "4442400" /\ PyStr.str (-360000) = "-360000" /\
  PyStr.str 0 = "0" /\
  PyStr.rjust 8 "0" (PyStr.str 4442400) = "04442400" /\
  PyStr.rjust 8 "0" (PyStr.str (-360000)) = "0-360000".
Proof. repeat split; reflexivity. Qed.

Example int_examples :
  PyStr.int "1" = Ok 1 /\ PyStr.int "+28800000" = Ok 28800000 /\
  PyStr.int "068400000" = Ok 68400000 /\ PyStr.int EmptyString = Raise ValueError /\
  PyStr.int "-89" = Ok (-89) /\ PyStr.int " 1_0 " = Ok 10 /\
  PyStr.int "#" = Raise ValueError /\ PyStr.int "1_" = Raise ValueError.
Proof. repeat split; reflexivity. Qed.

Example slice_examples :
  PyStr.slice "V1.00#" None (Some (-1)) = "V1.00" /\
  PyStr.slice "+28800000068400000" None (Some 9) = "+28800000" /\
  PyStr.slice "+28800000068400000" (Some 9) None = "068400000" /\
  PyStr.slice "+123#" (Some 1) (Some (-1)) = "123" /\
  PyStr.slice EmptyString None (Some (-1)) = EmptyString.
Proof. repeat split; reflexivity. Qed.

Example float_examples :
  PyFloat.lit 1 100 = S754_finite false 5764607523034235 (-59) /\
  PyFloat.degToRad = S754_finite false 5030569068109113 (-58) /\
  PyFloat.radToDeg = S754_finite false 8063664102031864 (-47) /\
  PyNum.truediv (PyInt 1) (PyInt 3)
    = Ok (PyFloat (S754_finite false 6004799503160661 (-54))) /\
  to_hundredths (PyFloat (PyFloat.lit 1234 100)) "degrees" = Ok 4442400 /\
  to_hundredths (PyInt 1) "radians" = Ok 20626480 /\
  to_hundredths (PyInt 360) "degrees" = Ok 129600000.
Proof. repeat split; vm_compute; reflexivity. Qed.

(** ** The port and [_SendMessage] *)

Lemma digit_is_ascii (c : ascii) :
  PyStr.is_digit c = true -> Serial.is_ascii c = true /\ c <> "#"%char.
Proof.
  destruct c as [[] [] [] [] [] [] [] []]; vm_compute; intros H;
    (discriminate H || (split; [reflexivity | discriminate])).
Qed.

(** A one-character string parses to 1 only if it is the character 1. *)
Lemma int_one_char (c : ascii) :
  PyStr.int (String c EmptyString) = Ok 1 -> c = "1"%char.
Proof.
  destruct c as [[] [] [] [] [] [] [] []]; vm_compute; intros H;
    (reflexivity || discriminate H).
Qed.

Lemma int_empty : PyStr.int EmptyString = Raise ValueError.
Proof. reflexivity. Qed.

(** What a one-byte exchange does to the object. *)
Lemma SendMessage_Count1_some cmd c rest a z o w k :
  Serial.is_ascii c = true ->
  _SendMessage cmd (Count 1) (mkMount a z (String c rest) o w k)
  = (Ok (String c EmptyString), mkMount a z rest (o ++ [cmd]) w k).
Proof.
  intros Hc. unfold _SendMessage, bind, port_write, port_take, lift. simpl.
  unfold Serial.decode. simpl. rewrite Hc. destruct rest; reflexivity.
Qed.

Lemma SendMessage_Count1_bad cmd c rest a z o w k :
  Serial.is_ascii c = false ->
  _SendMessage cmd (Count 1) (mkMount a z (String c rest) o w k)
  = (Raise UnicodeDecodeError, mkMount a z rest (o ++ [cmd]) w k).
Proof.
  intros Hc. unfold _SendMessage, bind, port_write, port_take, lift. simpl.
  unfold Serial.decode. simpl. rewrite Hc. destruct rest; reflexivity.
Qed.

Lemma SendMessage_Count1_none cmd a z o w k :
  _SendMessage cmd (Count 1) (mkMount a z EmptyString o w k)
  = (Ok EmptyString, mkMount a z EmptyString (o ++ [cmd]) w k).
Proof. reflexivity. Qed.

(** Every exchange writes its command and leaves the flags alone. *)
Lemma SendMessage_frame cmd exp s :
  let s' := snd (_SendMessage cmd exp s) in
  new_Alt s' = new_Alt s /\ new_Az s' = new_Az s /\
  port_out s' = (port_out s ++ [cmd])%list /\ warnings s' = warnings s /\
  sleeps s' = sleeps s.
Proof.
  destruct s as [a z i o w k].
  unfold _SendMessage, bind, port_write, port_take, lift. simpl.
  destruct exp as [n | t]; simpl.
  - destruct (Serial.decode (PyStr.take n i)); simpl; repeat split.
  - destruct (Serial.read_until t EmptyString i) as [reply rest].
    destruct (Serial.decode reply); simpl; repeat split.
Qed.

Lemma SendMessage_Count cmd n a z i o w k :
  Serial.all_ascii (PyStr.take n i) = true ->
  _SendMessage cmd (Count n) (mkMount a z i o w k)
  = (Ok (PyStr.take n i), mkMount a z (PyStr.drop n i) (o ++ [cmd]) w k).
Proof.
  intros H. unfold _SendMessage, bind, port_write, port_take, lift. simpl.
  unfold Serial.decode. rewrite H. reflexivity.
Qed.

Lemma SendMessage_Until cmd t reply rest a z i o w k :
  Serial.read_until t EmptyString i = (reply, rest) ->
  Serial.all_ascii reply = true ->
  _SendMessage cmd (Until t) (mkMount a z i o w k)
  = (Ok reply, mkMount a z rest (o ++ [cmd]) w k).
Proof.
  intros R H. unfold _SendMessage, bind, port_write, port_take, lift. simpl.
  rewrite R. unfold Serial.decode. rewrite H. reflexivity.
Qed.

(** *** Replies that end with the hash sign *)

Lemma append_assoc_char (line : string) (c : ascii) (r : string) :
  (line ++ String c EmptyString) ++ r = line ++ String c r.
Proof. induction line as [| x l IH]; simpl; [reflexivity | now rewrite IH]. Qed.

Lemma append_empty_r (s : string) : s ++ EmptyString = s.
Proof. induction s as [| x l IH]; simpl; [reflexivity | now rewrite IH]. Qed.

Lemma length_append_char (line : string) (c : ascii) :
  String.length (line ++ String c EmptyString) = S (String.length line).
Proof. induction line as [| x l IH]; simpl; [reflexivity | now rewrite IH]. Qed.

Lemma drop_length_append (line r : string) :
  PyStr.drop (String.length line) (line ++ r) = r.
Proof. induction line as [| x l IH]; simpl; [reflexivity | exact IH]. Qed.

Lemma take_length_append (line r : string) :
  PyStr.take (String.length line) (line ++ r) = line.
Proof. induction line as [| x l IH]; simpl; [reflexivity | now rewrite IH]. Qed.

Lemma tail_1_append (line : string) (c : ascii) :
  Serial.tail 1 (line ++ String c EmptyString) = String c EmptyString.
Proof.
  unfold Serial.tail. rewrite length_append_char.
  replace (S (String.length line) - 1)%nat with (String.length line) by lia.
  apply drop_length_append.
Qed.

Lemma read_until_step (t line : string) (c : ascii) (rest : string) :
  Serial.read_until t line (String c rest)
  = if (Serial.tail (String.length t) (line ++ String c EmptyString) =? t)%string
    then (line ++ String c EmptyString, rest)
    else Serial.read_until t (line ++ String c EmptyString) rest.
Proof. reflexivity. Qed.

(** Reading until the hash sign takes the bytes before the first hash sign
    and that sign. *)
Lemma read_until_hash (body : string) :
  forall line rest,
    no_hash body = true ->
    Serial.read_until "#" line (body ++ String "#" rest)
    = (line ++ body ++ "#", rest).
Proof.
  induction body as [| c body IH]; intros line rest H.
  - change (EmptyString ++ String "#" rest) with (String "#" rest).
    rewrite read_until_step.
    change (String.length "#") with 1%nat. rewrite tail_1_append.
    reflexivity.
  - change ((String c body) ++ String "#" rest)
      with (String c (body ++ String "#" rest)).
    rewrite read_until_step.
    change (String.length "#") with 1%nat. rewrite tail_1_append.
    simpl in H. apply andb_true_iff in H. destruct H as [Hc Hb].
    assert (E : (String c EmptyString =? "#")%string = false).
    { simpl. apply negb_true_iff in Hc. rewrite Hc. reflexivity. }
    rewrite E. rewrite (IH _ _ Hb). rewrite append_assoc_char. reflexivity.
Qed.

Lemma all_ascii_append (s r : string) :
  Serial.all_ascii (s ++ r) = Serial.all_ascii s && Serial.all_ascii r.
Proof.
  induction s as [| c s IH]; simpl; [reflexivity |].
  rewrite IH. apply andb_assoc.
Qed.

(** [s[:-1]] drops the last character. *)
Lemma slice_drop_last (body : string) (c : ascii) :
  PyStr.slice (body ++ String c EmptyString) None (Some (-1)) = body.
Proof.
  unfold PyStr.slice, PyStr.len, PyStr.clamp.
  rewrite length_append_char.
  change (-1 <? 0) with true. cbv iota.
  replace (Z.max 0 (Z.of_nat (S (String.length body)) + -1) - 0)
    with (Z.of_nat (String.length body)) by lia.
  rewrite Nat2Z.id. change (Z.to_nat 0) with 0%nat.
  change (PyStr.drop 0 (body ++ String c EmptyString))
    with (body ++ String c EmptyString).
  apply take_length_append.
Qed.

(** The exchange of a query whose reply is [body] and the hash sign. *)
Lemma SendMessage_hash cmd body rest a z o w k :
  no_hash body = true ->
  Serial.all_ascii body = true ->
  _SendMessage cmd (Until "#")
    (mkMount a z (body ++ String "#" rest) o w k)
  = (Ok (body ++ "#"), mkMount a z rest (o ++ [cmd]) w k).
Proof.
  intros Hh Ha. apply SendMessage_Until.
  - apply (read_until_hash body EmptyString rest Hh).
  - rewrite all_ascii_append, Ha. reflexivity.
Qed.

(** ** The staged-target flags *)

Opaque _SendMessage.
Arguments PyStr.int : simpl never.
Arguments to_hundredths : simpl never.
Arguments altitude_cmd : simpl never.
Arguments azimuth_cmd : simpl never.
Arguments str_in : simpl never.
Arguments PyStr.take : simpl never.

Ltac mrun :=
  repeat (progress
    (unfold bind, lift, ret, raise, assert, get_new_Alt, get_new_Az,
       set_new_Alt, set_new_Az, logger_warning, time_sleep;
     cbn beta iota zeta
       delta [new_Alt new_Az port_in port_out warnings sleeps fst snd])).

Lemma int_0 : PyStr.int "0" = Ok 0.
Proof. reflexivity. Qed.

Lemma int_1 : PyStr.int "1" = Ok 1.
Proof. reflexivity. Qed.

Ltac run :=
  unfold bind, lift, ret, raise, assert, get_new_Alt, get_new_Az,
    set_new_Alt, set_new_Az, logger_warning in *; cbn in *.

Lemma Move_unstaged s :
  new_Alt s && new_Az s = false -> _Move s = (Raise AssertionError, s).
Proof.
  intros H. unfold _Move. run. rewrite H. reflexivity.
Qed.

Lemma Move_staged s :
  new_Alt s = true -> new_Az s = true ->
  _Move s = move_exchange (clear_flags s).
Proof.
  intros Ha Hz. unfold _Move, move_exchange, clear_flags. run.
  rewrite Ha, Hz. reflexivity.
Qed.

(** The exchange of the move command never touches the flags, whatever the
    mount answers. *)
Lemma move_exchange_frame s :
  let s' := snd (move_exchange s) in
  new_Alt s' = new_Alt s /\ new_Az s' = new_Az s /\
  port_out s' = (port_out s ++ [":MS#"])%list.
Proof.
  unfold move_exchange.
  pose proof (SendMessage_frame ":MS#" (Count 1) s) as F. cbv zeta in F.
  destruct F as (Fa & Fz & Fo & _). run.
  destruct (_SendMessage ":MS#" (Count 1) s) as [[r | e |] s1]; simpl in *;
    try (repeat split; assumption).
  destruct (PyStr.int r) as [v | e |]; simpl; try (repeat split; assumption).
  destruct (v =? 0); simpl; repeat split; assumption.
Qed.

Lemma Set_Altitude_stages altitude units s :
  new_Alt s = false ->
  new_Alt (snd (_Set_Altitude altitude units s)) = true ->
  PyStr.take 1 (port_in s) = "1" /\
  fst (_Set_Altitude altitude units s) = Ok 1.
Proof.
  destruct s as [a z i o w k]. simpl. intros ->. unfold _Set_Altitude. run.
  destruct (str_in units units_Allowed); cbn; [| discriminate].
  destruct (to_hundredths altitude units) as [v | e |]; simpl;
    try discriminate.
  destruct i as [| c rest].
  - rewrite SendMessage_Count1_none. simpl. discriminate.
  - destruct (Serial.is_ascii c) eqn:Hc.
    + rewrite (SendMessage_Count1_some _ _ _ _ _ _ _ _ Hc). simpl.
      destruct (PyStr.int (String c EmptyString)) as [r | e |] eqn:Hr;
        simpl; try discriminate.
      destruct (r =? 1) eqn:H1; simpl; try discriminate.
      apply Z.eqb_eq in H1. subst r. intros _.
      apply int_one_char in Hr. subst c. split; reflexivity.
    + rewrite (SendMessage_Count1_bad _ _ _ _ _ _ _ _ Hc). simpl. discriminate.
Qed.

Lemma Set_Azimuth_stages azimuth units s :
  new_Az s = false ->
  new_Az (snd (_Set_Azimuth azimuth units s)) = true ->
  PyStr.take 1 (port_in s) = "1" /\
  fst (_Set_Azimuth azimuth units s) = Ok 1.
Proof.
  destruct s as [a z i o w k]. simpl. intros ->. unfold _Set_Azimuth. run.
  destruct (str_in units units_Allowed); cbn; [| discriminate].
  destruct (to_hundredths azimuth units) as [v | e |]; simpl;
    try discriminate.
  destruct ((v >=? 0) && (v <=? 129600000)); simpl; [| discriminate].
  destruct i as [| c rest].
  - rewrite SendMessage_Count1_none. simpl. discriminate.
  - destruct (Serial.is_ascii c) eqn:Hc.
    + rewrite (SendMessage_Count1_some _ _ _ _ _ _ _ _ Hc). simpl.
      destruct (PyStr.int (String c EmptyString)) as [r | e |] eqn:Hr;
        simpl; try discriminate.
      destruct (r =? 1) eqn:H1; simpl; try discriminate.
      apply Z.eqb_eq in H1. subst r. intros _.
      apply int_one_char in Hr. subst c. split; reflexivity.
    + rewrite (SendMessage_Count1_bad _ _ _ _ _ _ _ _ Hc). simpl. discriminate.
Qed.

(** C1.  [_Move] with both flags set clears both flags and only then
    sends the move command and interprets the reply, so both flags are
    false afterwards whatever the reply; with a flag unset it raises the
    assertion error and leaves the object, hence the port, untouched; and a
    staged flag that was false is true after its set command only if the
    one-byte acknowledgment was the character 1. *)
Theorem Move_commit_and_staging (s : AzMountPro) :
  (new_Alt s = true -> new_Az s = true ->
     _Move s = move_exchange (clear_flags s) /\
     new_Alt (snd (_Move s)) = false /\
     new_Az (snd (_Move s)) = false /\
     port_out (snd (_Move s)) = (port_out s ++ [":MS#"])%list) /\
  (new_Alt s = false \/ new_Az s = false ->
     _Move s = (Raise AssertionError, s)) /\
  (forall altitude units,
     new_Alt s = false ->
     new_Alt (snd (_Set_Altitude altitude units s)) = true ->
     PyStr.take 1 (port_in s) = "1" /\
     fst (_Set_Altitude altitude units s) = Ok 1) /\
  (forall azimuth units,
     new_Az s = false ->
     new_Az (snd (_Set_Azimuth azimuth units s)) = true ->
     PyStr.take 1 (port_in s) = "1" /\
     fst (_Set_Azimuth azimuth units s) = Ok 1).
Proof.
  split; [| split; [| split]].
  - intros Ha Hz. rewrite (Move_staged s Ha Hz).
    destruct (move_exchange_frame (clear_flags s)) as (Fa & Fz & Fo).
    repeat split; assumption.
  - intros H. apply Move_unstaged.
    destruct H as [H | H]; rewrite H; [reflexivity | apply andb_false_r].
  - intros altitude units. apply Set_Altitude_stages.
  - intros azimuth units. apply Set_Azimuth_stages.
Qed.

Lemma Move_commit_and_staging_witness :
  (_Move (mkMount true true "0" [":Sa+28800000#"] [] 0)
   = move_exchange (clear_flags (mkMount true true "0" [":Sa+28800000#"] [] 0)))
  /\ _Move (mkMount true false "1" [] [] 0)
     = (Raise AssertionError, mkMount true false "1" [] [] 0)
  /\ fst (_Set_Altitude (PyInt 80) "degrees" (mkMount false false "1" [] [] 0))
     = Ok 1
  /\ fst (_Set_Azimuth (PyInt 190) "degrees" (mkMount false false "1" [] [] 0))
     = Ok 1.
Proof.
  split; [| split; [| split]].
  - exact (proj1 (proj1 (Move_commit_and_staging
                           (mkMount true true "0" [":Sa+28800000#"] [] 0))
                        eq_refl eq_refl)).
  - exact (proj1 (proj2 (Move_commit_and_staging
                           (mkMount true false "1" [] [] 0)))
                 (or_intror eq_refl)).
  - refine (proj2 (proj1 (proj2 (proj2 (Move_commit_and_staging
                                          (mkMount false false "1" [] [] 0))))
                         (PyInt 80) "degrees" eq_refl _)).
    vm_compute. reflexivity.
  - refine (proj2 (proj2 (proj2 (proj2 (Move_commit_and_staging
                                          (mkMount false false "1" [] [] 0))))
                         (PyInt 190) "degrees" eq_refl _)).
    vm_compute. reflexivity.
Defined.

(** *** The set commands and the move command on a known acknowledgment *)

Lemma Set_Altitude_acked altitude units v a z rest o w k :
  str_in units units_Allowed = true ->
  to_hundredths altitude units = Ok v ->
  _Set_Altitude altitude units (mkMount a z (String "1" rest) o w k)
  = (Ok 1, mkMount true z rest (o ++ [altitude_cmd v]) w k).
Proof.
  intros Hu Hv. unfold _Set_Altitude. rewrite Hu, Hv. mrun.
  rewrite SendMessage_Count1_some by reflexivity. rewrite int_1.
  reflexivity.
Qed.

Lemma Set_Azimuth_acked azimuth units v a z rest o w k :
  str_in units units_Allowed = true ->
  to_hundredths azimuth units = Ok v ->
  0 <= v <= 129600000 ->
  _Set_Azimuth azimuth units (mkMount a z (String "1" rest) o w k)
  = (Ok 1, mkMount a true rest (o ++ [azimuth_cmd v]) w k).
Proof.
  intros Hu Hv Hr. unfold _Set_Azimuth. rewrite Hu, Hv. mrun.
  replace ((v >=? 0) && (v <=? 129600000)) with true
    by (symmetry; apply andb_true_iff; split; lia).
  mrun. rewrite SendMessage_Count1_some by reflexivity. rewrite int_1.
  reflexivity.
Qed.

Lemma move_exchange_rejected a z rest o w k :
  move_exchange (mkMount a z (String "0" rest) o w k)
  = (Ok 0, mkMount a z rest (o ++ [":MS#"]) (w ++ [below_0_warning]) k).
Proof.
  unfold move_exchange. mrun.
  rewrite SendMessage_Count1_some by reflexivity. rewrite int_0.
  reflexivity.
Qed.

Lemma move_exchange_accepted a z rest o w k :
  move_exchange (mkMount a z (String "1" rest) o w k)
  = (Ok 1, mkMount a z rest (o ++ [":MS#"]) w k).
Proof.
  unfold move_exchange. mrun.
  rewrite SendMessage_Count1_some by reflexivity. rewrite int_1.
  reflexivity.
Qed.

(** ** Absolute moves *)

(** C2, as the code has it.  When the acknowledgment of the move command
    is 0, [Go_AltAz] returns normally: its result is the pair of the set
    replies and the move reply 0, a warning is logged, and no exception is
    raised; an accepted move returns the same pair with the move reply 1,
    so the caller tells the two apart by the last component. *)
Theorem Go_AltAz_returns_move_reply
    (altitude azimuth : num) (units : string) (s : AzMountPro)
    (set_Reply : Z * Z) (ack : ascii) (rest : string)
    (o w : list string) (k : nat) :
  Set_AltAz altitude azimuth units s
  = (Ok set_Reply, mkMount true true (String ack rest) o w k) ->
  (ack = "0"%char ->
     Go_AltAz altitude azimuth units s
     = (Ok (set_Reply, 0),
        mkMount false false rest (o ++ [":MS#"]) (w ++ [below_0_warning]) k))
  /\
  (ack = "1"%char ->
     Go_AltAz altitude azimuth units s
     = (Ok (set_Reply, 1), mkMount false false rest (o ++ [":MS#"]) w k)).
Proof.
  intros Hset. split; intros ->; unfold Go_AltAz; unfold bind at 1;
    rewrite Hset; unfold bind at 1; rewrite Move_staged by reflexivity;
    unfold clear_flags; cbn [port_in port_out warnings sleeps].
  - rewrite move_exchange_rejected. reflexivity.
  - rewrite move_exchange_accepted. reflexivity.
Qed.

Lemma Go_AltAz_returns_move_reply_witness :
  Go_AltAz (PyInt 80) (PyInt 190) "degrees" (mkMount false false "110" [] [] 0)
  = (Ok ((1, 1), 0),
     mkMount false false EmptyString
       [":Sa+28800000#"; ":Sz068400000#"; ":MS#"] [below_0_warning] 0).
Proof.
  refine (proj1 (Go_AltAz_returns_move_reply (PyInt 80) (PyInt 190) "degrees"
                   (mkMount false false "110" [] [] 0) (1, 1) "0" EmptyString
                   [":Sa+28800000#"; ":Sz068400000#"] [] 0 _) eq_refl).
  vm_compute. reflexivity.
Defined.

(** C2 as stated fails: with the move acknowledgment 0 the call returns
    a value, the move reply 0 next to the set replies; nothing is
    raised. *)
Lemma Go_AltAz_rejected_is_not_an_error :
  fst (Go_AltAz (PyInt 80) (PyInt 190) "degrees"
         (mkMount false false "110" [] [] 0))
  = Ok ((1, 1), 0).
Proof. vm_compute. reflexivity. Qed.

(** C10.  With exactly one flag set, [_Move] raises the assertion error
    and leaves the object as it was, so the staged flag stays true; when
    only the other axis is staged afterwards, the next [_Move] sends the
    move command, and the command of the axis staged before the failed
    commit is not sent again. *)
Theorem Move_failure_keeps_stale_flag (s : AzMountPro) :
  (xorb (new_Alt s) (new_Az s) = true ->
     _Move s = (Raise AssertionError, s)) /\
  (forall azimuth units v rest,
     new_Alt s = true -> new_Az s = false ->
     str_in units units_Allowed = true ->
     to_hundredths azimuth units = Ok v ->
     0 <= v <= 129600000 ->
     port_in s = String "1" (String "1" rest) ->
     let s1 := snd (_Move s) in
     let s2 := snd (_Set_Azimuth azimuth units s1) in
     new_Alt s1 = true /\
     _Move s2
     = (Ok 1, mkMount false false rest
                (port_out s ++ [azimuth_cmd v; ":MS#"])
                (warnings s) (sleeps s))) /\
  (forall altitude units v rest,
     new_Alt s = false -> new_Az s = true ->
     str_in units units_Allowed = true ->
     to_hundredths altitude units = Ok v ->
     port_in s = String "1" (String "1" rest) ->
     let s1 := snd (_Move s) in
     let s2 := snd (_Set_Altitude altitude units s1) in
     new_Az s1 = true /\
     _Move s2
     = (Ok 1, mkMount false false rest
                (port_out s ++ [altitude_cmd v; ":MS#"])
                (warnings s) (sleeps s))).
Proof.
  split; [| split].
  - intros H. apply Move_unstaged.
    destruct (new_Alt s), (new_Az s); simpl in *; congruence.
  - intros azimuth units v rest Ha Hz Hu Hv Hr Hin.
    destruct s as [a z i o w k]. simpl in Ha, Hz, Hin. subst a z i.
    rewrite Move_unstaged by reflexivity. cbn [snd].
    rewrite (Set_Azimuth_acked azimuth units v) by assumption. cbn [snd].
    split; [reflexivity |].
    rewrite Move_staged by reflexivity. unfold clear_flags.
    cbn [port_in port_out warnings sleeps].
    rewrite move_exchange_accepted. rewrite <- app_assoc. reflexivity.
  - intros altitude units v rest Ha Hz Hu Hv Hin.
    destruct s as [a z i o w k]. simpl in Ha, Hz, Hin. subst a z i.
    rewrite Move_unstaged by reflexivity. cbn [snd].
    rewrite (Set_Altitude_acked altitude units v) by assumption. cbn [snd].
    split; [reflexivity |].
    rewrite Move_staged by reflexivity. unfold clear_flags.
    cbn [port_in port_out warnings sleeps].
    rewrite move_exchange_accepted. rewrite <- app_assoc. reflexivity.
Qed.

Lemma Move_failure_keeps_stale_flag_witness :
  _Move (mkMount true false "11" [":Sa+28800000#"; ":Sz000000000#"] [] 0)
  = (Raise AssertionError,
     mkMount true false "11" [":Sa+28800000#"; ":Sz000000000#"] [] 0)
  /\
  _Move (snd (_Set_Azimuth (PyInt 190) "degrees"
           (snd (_Move (mkMount true false "11"
                          [":Sa+28800000#"; ":Sz000000000#"] [] 0)))))
  = (Ok 1, mkMount false false EmptyString
             [":Sa+28800000#"; ":Sz000000000#"; azimuth_cmd 68400000; ":MS#"]
             [] 0)
  /\
  _Move (snd (_Set_Altitude (PyInt 80) "degrees"
           (snd (_Move (mkMount false true "11" [] [] 0)))))
  = (Ok 1, mkMount false false EmptyString
             [altitude_cmd 28800000; ":MS#"] [] 0).
Proof.
  split; [| split].
  - exact (proj1 (Move_failure_keeps_stale_flag
                    (mkMount true false "11"
                       [":Sa+28800000#"; ":Sz000000000#"] [] 0)) eq_refl).
  - refine (proj2 (proj1 (proj2 (Move_failure_keeps_stale_flag
                    (mkMount true false "11"
                       [":Sa+28800000#"; ":Sz000000000#"] [] 0)))
                    (PyInt 190) "degrees" 68400000 EmptyString
                    eq_refl eq_refl eq_refl _ _ eq_refl)).
    + vm_compute. reflexivity.
    + lia.
  - refine (proj2 (proj2 (proj2 (Move_failure_keeps_stale_flag
                    (mkMount false true "11" [] [] 0)))
                    (PyInt 80) "degrees" 28800000 EmptyString
                    eq_refl eq_refl eq_refl _ eq_refl)).
    vm_compute. reflexivity.
Defined.

(** ** Range checks and the wire format of the set commands *)

Lemma Set_Azimuth_out_of_range azimuth units v s :
  str_in units units_Allowed = true ->
  to_hundredths azimuth units = Ok v ->
  v < 0 \/ 129600000 < v ->
  _Set_Azimuth azimuth units s = (Raise AssertionError, s).
Proof.
  intros Hu Hv Hr. unfold _Set_Azimuth. rewrite Hu, Hv. mrun.
  replace ((v >=? 0) && (v <=? 129600000)) with false; [reflexivity |].
  symmetry. apply andb_false_iff. destruct Hr; [left | right]; lia.
Qed.

Lemma Set_Azimuth_writes azimuth units v s :
  str_in units units_Allowed = true ->
  to_hundredths azimuth units = Ok v ->
  0 <= v <= 129600000 ->
  port_out (snd (_Set_Azimuth azimuth units s))
  = (port_out s ++ [azimuth_cmd v])%list.
Proof.
  intros Hu Hv Hr. unfold _Set_Azimuth. rewrite Hu, Hv. mrun.
  replace ((v >=? 0) && (v <=? 129600000)) with true
    by (symmetry; apply andb_true_iff; split; lia).
  mrun.
  pose proof (SendMessage_frame (azimuth_cmd v) (Count 1) s) as F.
  cbv zeta in F. destruct F as (_ & _ & Fo & _).
  destruct (_SendMessage (azimuth_cmd v) (Count 1) s) as [[r | e |] s1];
    mrun; try exact Fo.
  destruct (PyStr.int r) as [x | e |]; mrun; try exact Fo.
  destruct (x =? 1); mrun; exact Fo.
Qed.

Lemma Set_Altitude_writes altitude units v s :
  str_in units units_Allowed = true ->
  to_hundredths altitude units = Ok v ->
  port_out (snd (_Set_Altitude altitude units s))
  = (port_out s ++ [altitude_cmd v])%list.
Proof.
  intros Hu Hv. unfold _Set_Altitude. rewrite Hu, Hv. mrun.
  pose proof (SendMessage_frame (altitude_cmd v) (Count 1) s) as F.
  cbv zeta in F. destruct F as (_ & _ & Fo & _).
  destruct (_SendMessage (altitude_cmd v) (Count 1) s) as [[r | e |] s1];
    mrun; try exact Fo.
  destruct (PyStr.int r) as [x | e |]; mrun; try exact Fo.
  destruct (x =? 1); mrun; exact Fo.
Qed.

(** C5, as the code has it.  [_Set_Azimuth] checks the value converted to
    hundredths of an arcsecond against the closed range 0..129600000: a
    value below 0 or above 129600000 raises the assertion error before the
    command is formatted and the object, hence the port, is untouched,
    while every value of the closed range, 360 degrees included, is
    written.  [_Set_Altitude] has no range check: every converted altitude
    is formatted and written. *)
Theorem Set_target_range_checks
    (units : string) (s : AzMountPro) :
  str_in units units_Allowed = true ->
  (forall azimuth v,
     to_hundredths azimuth units = Ok v ->
     (v < 0 \/ 129600000 < v ->
        _Set_Azimuth azimuth units s = (Raise AssertionError, s)) /\
     (0 <= v <= 129600000 ->
        port_out (snd (_Set_Azimuth azimuth units s))
        = (port_out s ++ [azimuth_cmd v])%list)) /\
  (forall altitude v,
     to_hundredths altitude units = Ok v ->
     port_out (snd (_Set_Altitude altitude units s))
     = (port_out s ++ [altitude_cmd v])%list).
Proof.
  intros Hu. split.
  - intros azimuth v Hv. split; intros Hr.
    + exact (Set_Azimuth_out_of_range azimuth units v s Hu Hv Hr).
    + exact (Set_Azimuth_writes azimuth units v s Hu Hv Hr).
  - intros altitude v Hv. exact (Set_Altitude_writes altitude units v s Hu Hv).
Qed.

Lemma Set_target_range_checks_witness :
  _Set_Azimuth (PyFloat (PyFloat.lit 36001 100)) "degrees"
    (mkMount false false "1" [] [] 0)
  = (Raise AssertionError, mkMount false false "1" [] [] 0)
  /\
  port_out (snd (_Set_Azimuth (PyInt 360) "degrees"
                   (mkMount false false "1" [] [] 0)))
  = [azimuth_cmd 129600000]
  /\
  port_out (snd (_Set_Altitude (PyInt 100) "degrees"
                   (mkMount false false "1" [] [] 0)))
  = [altitude_cmd 36000000].
Proof.
  pose proof (Set_target_range_checks "degrees"
                (mkMount false false "1" [] [] 0) eq_refl) as [Haz Halt].
  split; [| split].
  - refine (proj1 (Haz (PyFloat (PyFloat.lit 36001 100)) 129603600 _) _).
    + vm_compute. reflexivity.
    + right. lia.
  - refine (proj2 (Haz (PyInt 360) 129600000 _) _).
    + vm_compute. reflexivity.
    + lia.
  - refine (Halt (PyInt 100) 36000000 _). vm_compute. reflexivity.
Defined.

(** C5 as stated fails: an azimuth of 360 degrees, outside [0, 360), and
    an altitude of 100 degrees are both formatted, written and
    acknowledged. *)
Lemma Set_target_out_of_range_is_written :
  _Set_Azimuth (PyInt 360) "degrees" (mkMount false false "1" [] [] 0)
  = (Ok 1, mkMount false true EmptyString [":Sz129600000#"] [] 0)
  /\
  _Set_Altitude (PyInt 100) "degrees" (mkMount false false "1" [] [] 0)
  = (Ok 1, mkMount true false EmptyString [":Sa+36000000#"] [] 0).
Proof. split; vm_compute; reflexivity. Qed.

(** *** The payload of a non-negative altitude *)

Lemma digit_char_is_digit (d : Z) :
  0 <= d < 10 -> PyStr.is_digit (PyStr.digit_char d) = true.
Proof.
  intros H.
  assert (C : d = 0 \/ d = 1 \/ d = 2 \/ d = 3 \/ d = 4 \/ d = 5 \/ d = 6
              \/ d = 7 \/ d = 8 \/ d = 9) by lia.
  repeat (destruct C as [-> | C]; [reflexivity |]). subst d. reflexivity.
Qed.

Lemma all_digits_append (s r : string) :
  PyStr.all_digits (s ++ r) = PyStr.all_digits s && PyStr.all_digits r.
Proof.
  induction s as [| c s IH]; simpl; [reflexivity |].
  rewrite IH. apply andb_assoc.
Qed.

Lemma length_append (s r : string) :
  String.length (s ++ r) = (String.length s + String.length r)%nat.
Proof. induction s as [| c s IH]; simpl; [reflexivity | now rewrite IH]. Qed.

Lemma all_digits_repeat_0 (n : nat) :
  PyStr.all_digits (PyStr.repeat "0" n) = true.
Proof. induction n as [| n IH]; simpl; [reflexivity | exact IH]. Qed.

Lemma length_repeat (c : ascii) (n : nat) :
  String.length (PyStr.repeat c n) = n.
Proof. induction n as [| n IH]; simpl; [reflexivity | now rewrite IH]. Qed.

(** The digits of a number below [10^(k+1)]: at most [k+1] of them. *)
Lemma dec_digits_shape (fuel : nat) :
  forall (n : Z) (acc : string) (k : nat),
    0 <= n < 10 ^ Z.of_nat (S k) ->
    exists d, PyStr.dec_digits fuel n acc = d ++ acc
              /\ (String.length d <= S k)%nat
              /\ PyStr.all_digits d = true.
Proof.
  induction fuel as [| fuel IH]; intros n acc k H; simpl.
  - exists EmptyString. repeat split. simpl. lia.
  - assert (Hd : PyStr.is_digit (PyStr.digit_char (n mod 10)) = true)
      by (apply digit_char_is_digit; apply Z.mod_pos_bound; lia).
    destruct (n <? 10) eqn:L.
    + exists (String (PyStr.digit_char (n mod 10)) EmptyString).
      simpl. rewrite Hd. repeat split. lia.
    + apply Z.ltb_ge in L. destruct k as [| k].
      { exfalso. change (10 ^ Z.of_nat 1) with 10 in H. lia. }
      destruct (IH (n / 10) (String (PyStr.digit_char (n mod 10)) acc) k)
        as (d & Ed & Ld & Dd).
      { split; [apply Z.div_pos; lia |].
        apply Z.div_lt_upper_bound; [lia |].
        rewrite <- Z.pow_succ_r by lia. rewrite <- Nat2Z.inj_succ.
        exact (proj2 H). }
      exists (d ++ String (PyStr.digit_char (n mod 10)) EmptyString).
      rewrite Ed, append_assoc_char, all_digits_append, length_append.
      simpl. rewrite Dd, Hd. repeat split. lia.
Qed.

(** A non-negative altitude below [10^8] hundredths of an arcsecond is
    written as the plus sign and exactly eight digits. *)
Lemma altitude_cmd_nonneg (v : Z) :
  0 <= v < 10 ^ 8 ->
  exists payload,
    altitude_cmd v = ":Sa+" ++ payload ++ "#"
    /\ String.length payload = 8%nat
    /\ PyStr.all_digits payload = true.
Proof.
  intros H. unfold altitude_cmd, PyStr.str, PyStr.rjust.
  replace (v >=? 0) with true by (symmetry; apply Z.geb_le; lia).
  replace (v <? 0) with false by (symmetry; apply Z.ltb_ge; lia).
  unfold PyStr.dec.
  destruct (dec_digits_shape (S (Z.to_nat (Z.log2 v))) v EmptyString 7 H)
    as (d & Ed & Ld & Dd).
  rewrite Ed, append_empty_r.
  exists (PyStr.repeat "0" (8 - String.length d) ++ d). split; [reflexivity |].
  rewrite length_append, length_repeat, all_digits_append,
    all_digits_repeat_0, Dd.
  split; [lia | reflexivity].
Qed.

(** C4.  The command strings [_Set_Altitude] writes for +12.34, 0, -12.34
    and -1 degrees.  For the two negative values the sign comes from
    [str] and counts towards the width of [rjust]: -12.34 degrees gives a
    sign and seven digits, -1 degree gives a zero, the sign and six
    digits. *)
Theorem Set_Altitude_wire_strings :
  port_out (snd (_Set_Altitude (PyFloat (PyFloat.lit 1234 100)) "degrees"
                   (mkMount false false "1" [] [] 0)))
  = [":Sa+04442400#"]
  /\
  port_out (snd (_Set_Altitude (PyInt 0) "degrees"
                   (mkMount false false "1" [] [] 0)))
  = [":Sa+00000000#"]
  /\
  port_out (snd (_Set_Altitude (PyFloat (PyFloat.lit (-1234) 100)) "degrees"
                   (mkMount false false "1" [] [] 0)))
  = [":Sa-4442400#"]
  /\
  port_out (snd (_Set_Altitude (PyInt (-1)) "degrees"
                   (mkMount false false "1" [] [] 0)))
  = [":Sa0-360000#"].
Proof. repeat split; vm_compute; reflexivity. Qed.

(** ** The blocking move *)

(** C3.  The mount answers the three commands of the move with 1, reports
    the position (80, 190) degrees, and would report the system state 2,
    slewing, if asked.  [Go_Blocking] returns after the first position
    poll: no status query is written, the status reply is still unread,
    and [Is_Stopped] on the object as returned is false. *)
Theorem Go_Blocking_returns_while_slewing :
  let s := mkMount false false "111+28800000068400000#020000#" [] [] 0 in
  let '(r, s') := Go_Blocking 1 (PyInt 80) (PyInt 190) "degrees" s in
  r = Ok ((1, 1), 1) /\
  port_out s' = [":Sa+28800000#"; ":Sz068400000#"; ":MS#"; ":GAC#"] /\
  port_in s' = "020000#" /\
  fst (Is_Stopped s') = Ok false /\
  fst (Is_Slewing s') = Ok true.
Proof. vm_compute. repeat split; reflexivity. Qed.

(** ** The status reply *)

Lemma all_digits_no_hash (s : string) :
  PyStr.all_digits s = true -> no_hash s = true /\ Serial.all_ascii s = true.
Proof.
  induction s as [| c s IH]; simpl; [intros _; split; reflexivity |].
  intros H. apply andb_true_iff in H. destruct H as [Hc Hs].
  destruct (IH Hs) as [Hn Ha]. destruct (digit_is_ascii c Hc) as [Hc1 Hc2].
  rewrite Hn, Ha, Hc1. split; [| reflexivity].
  apply Ascii.eqb_neq in Hc2. rewrite Hc2. reflexivity.
Qed.

Lemma eqb_one_char (c d : ascii) :
  (String c EmptyString =? String d EmptyString)%string = (c =? d)%char.
Proof. simpl. destruct (c =? d)%char; reflexivity. Qed.

(** The query of the status with [readable=False]: the six fields come
    back as they were read. *)
Lemma Get_StatusInfo_packed c0 c1 c2 c3 c4 c5 rest a z o w k :
  PyStr.all_digits (status_reply c0 c1 c2 c3 c4 c5) = true ->
  Get_StatusInfo false
    (mkMount a z (status_reply c0 c1 c2 c3 c4 c5 ++ String "#" rest) o w k)
  = (Ok (Packed (status_reply c0 c1 c2 c3 c4 c5)),
     mkMount a z rest (o ++ [":GAS#"]) w k).
Proof.
  intros H. destruct (all_digits_no_hash _ H) as [Hn Ha].
  unfold Get_StatusInfo. mrun. rewrite (SendMessage_hash _ _ _ _ _ _ _ _ Hn Ha).
  rewrite slice_drop_last. reflexivity.
Qed.

(** C6.  On a status reply of six digits and the hash sign, each of the
    four predicates returns a boolean that depends on the second digit
    alone: [Is_Homed] is true exactly for 7, [Is_Slewing] exactly for 2,
    [Is_Stopped] exactly for 0, 6 and 7, and [Is_Tracking] exactly for 1
    and 5; so 7 gives homed and stopped, and 2 gives slewing and not
    stopped. *)
Theorem status_predicates
    (c0 c1 c2 c3 c4 c5 : ascii) (rest : string)
    (a z : bool) (o w : list string) (k : nat) :
  PyStr.all_digits (status_reply c0 c1 c2 c3 c4 c5) = true ->
  let s := mkMount a z (status_reply c0 c1 c2 c3 c4 c5 ++ String "#" rest)
                   o w k in
  let s' := mkMount a z rest (o ++ [":GAS#"]) w k in
  (Is_Homed s = (Ok (c1 =? "7")%char, s') /\
   Is_Slewing s = (Ok (c1 =? "2")%char, s') /\
   Is_Stopped s
   = (Ok ((c1 =? "0")%char || (c1 =? "6")%char || (c1 =? "7")%char), s') /\
   Is_Tracking s = (Ok ((c1 =? "1")%char || (c1 =? "5")%char), s')) /\
  (c1 = "7"%char ->
     Is_Homed s = (Ok true, s') /\ Is_Stopped s = (Ok true, s')) /\
  (c1 = "2"%char ->
     Is_Slewing s = (Ok true, s') /\ Is_Stopped s = (Ok false, s')).
Proof.
  intros H s s'.
  assert (P : Is_Homed s = (Ok (c1 =? "7")%char, s') /\
              Is_Slewing s = (Ok (c1 =? "2")%char, s') /\
              Is_Stopped s
              = (Ok ((c1 =? "0")%char || (c1 =? "6")%char || (c1 =? "7")%char),
                 s') /\
              Is_Tracking s = (Ok ((c1 =? "1")%char || (c1 =? "5")%char), s')).
  { unfold Is_Homed, Is_Slewing, Is_Stopped, Is_Tracking, s, s'.
    unfold bind at 1 3 5 7. rewrite (Get_StatusInfo_packed _ _ _ _ _ _ _ _ _ _ _ _ H).
    unfold status_reply, subscript_1, PyStr.index, str_in, existsb.
    cbn [String.get Nat.eqb]. mrun.
    rewrite !eqb_one_char, !orb_false_r, !orb_assoc. repeat split. }
  split; [exact P |].
  destruct P as (Ph & Psl & Pst & _).
  split; intros E; rewrite E in *; split; assumption.
Qed.

Lemma status_predicates_witness :
  Is_Homed (mkMount false false "070911#" [] [] 0)
  = (Ok true, mkMount false false EmptyString [":GAS#"] [] 0)
  /\
  Is_Stopped (mkMount false false "020911#" [] [] 0)
  = (Ok false, mkMount false false EmptyString [":GAS#"] [] 0).
Proof.
  split.
  - exact (proj1 (proj1 (proj2 (status_predicates "0" "7" "0" "9" "1" "1"
                                  EmptyString false false [] [] 0 eq_refl))
                        eq_refl)).
  - exact (proj2 (proj2 (proj2 (status_predicates "0" "2" "0" "9" "1" "1"
                                  EmptyString false false [] [] 0 eq_refl))
                        eq_refl)).
Defined.

Lemma dict_get_cases (d : list (string * string)) (key : string) :
  (exists v, dict_get d key = Ok v) \/ dict_get d key = Raise KeyError.
Proof.
  induction d as [| [k' v] d IH]; simpl; [right; reflexivity |].
  destruct (key =? k')%string; [left; exists v; reflexivity | exact IH].
Qed.

Lemma mapped_cases (table : list (string * string)) (c : ascii) :
  (mapped table c = true /\
   exists v, dict_get table (String c EmptyString) = Ok v) \/
  (mapped table c = false /\
   dict_get table (String c EmptyString) = Raise KeyError).
Proof.
  unfold mapped.
  destruct (dict_get_cases table (String c EmptyString)) as [[v E] | E];
    rewrite E; [left | right]; split; try reflexivity. exists v. reflexivity.
Qed.

(** The query of the status with [readable=True] looks every field up in
    its table. *)
Lemma Get_StatusInfo_readable_unmapped c0 c1 c2 c3 c4 c5 rest a z o w k :
  PyStr.all_digits (status_reply c0 c1 c2 c3 c4 c5) = true ->
  mapped gps_Msgs c0 && mapped system_Msgs c1 && mapped track_Msgs c2
  && mapped speed_Msgs c3 && mapped time_Msgs c4 && mapped hemi_Msgs c5
  = false ->
  Get_StatusInfo true
    (mkMount a z (status_reply c0 c1 c2 c3 c4 c5 ++ String "#" rest) o w k)
  = (Raise KeyError, mkMount a z rest (o ++ [":GAS#"]) w k).
Proof.
  intros H U. destruct (all_digits_no_hash _ H) as [Hn Ha].
  unfold Get_StatusInfo. mrun. rewrite (SendMessage_hash _ _ _ _ _ _ _ _ Hn Ha).
  unfold status_reply, PyStr.index. cbn [append String.get Nat.eqb]. mrun.
  destruct (mapped_cases gps_Msgs c0) as [[M0 [v0 E0]] | [M0 E0]];
    rewrite E0; mrun; [| reflexivity].
  destruct (mapped_cases system_Msgs c1) as [[M1 [v1 E1]] | [M1 E1]];
    rewrite E1; mrun; [| reflexivity].
  destruct (mapped_cases track_Msgs c2) as [[M2 [v2 E2]] | [M2 E2]];
    rewrite E2; mrun; [| reflexivity].
  destruct (mapped_cases speed_Msgs c3) as [[M3 [v3 E3]] | [M3 E3]];
    rewrite E3; mrun; [| reflexivity].
  destruct (mapped_cases time_Msgs c4) as [[M4 [v4 E4]] | [M4 E4]];
    rewrite E4; mrun; [| reflexivity].
  destruct (mapped_cases hemi_Msgs c5) as [[M5 [v5 E5]] | [M5 E5]];
    rewrite E5; mrun; [| reflexivity].
  rewrite M0, M1, M2, M3, M4, M5 in U. discriminate U.
Qed.

(** A system-state digit outside the table is none of the digits the
    predicates look for. *)
Lemma unmapped_system_digit (c : ascii) :
  mapped system_Msgs c = false ->
  (c =? "0")%char = false /\ (c =? "1")%char = false /\
  (c =? "2")%char = false /\ (c =? "5")%char = false /\
  (c =? "6")%char = false /\ (c =? "7")%char = false.
Proof.
  destruct c as [[] [] [] [] [] [] [] []]; vm_compute; intros H;
    (discriminate H || (repeat split; reflexivity)).
Qed.

(** C7, as the code has it.  On a status reply of six digits of which
    one is not a key of its field's table, [Get_StatusInfo] with
    [readable=True] raises the key error; with [readable=False] it returns
    the six digits as read, unchecked, and when the system-state digit is
    the unmapped one each of the four predicates returns false. *)
Theorem unmapped_status_digit
    (c0 c1 c2 c3 c4 c5 : ascii) (rest : string)
    (a z : bool) (o w : list string) (k : nat) :
  PyStr.all_digits (status_reply c0 c1 c2 c3 c4 c5) = true ->
  mapped gps_Msgs c0 && mapped system_Msgs c1 && mapped track_Msgs c2
  && mapped speed_Msgs c3 && mapped time_Msgs c4 && mapped hemi_Msgs c5
  = false ->
  let s := mkMount a z (status_reply c0 c1 c2 c3 c4 c5 ++ String "#" rest)
                   o w k in
  let s' := mkMount a z rest (o ++ [":GAS#"]) w k in
  Get_StatusInfo true s = (Raise KeyError, s') /\
  Get_StatusInfo false s = (Ok (Packed (status_reply c0 c1 c2 c3 c4 c5)), s') /\
  (mapped system_Msgs c1 = false ->
     Is_Homed s = (Ok false, s') /\ Is_Slewing s = (Ok false, s') /\
     Is_Stopped s = (Ok false, s') /\ Is_Tracking s = (Ok false, s')).
Proof.
  intros H U s s'. split; [| split].
  - exact (Get_StatusInfo_readable_unmapped _ _ _ _ _ _ rest a z o w k H U).
  - exact (Get_StatusInfo_packed _ _ _ _ _ _ rest a z o w k H).
  - intros M. destruct (unmapped_system_digit c1 M) as (E0 & E1 & E2 & E5 & E6 & E7).
    unfold Is_Homed, Is_Slewing, Is_Stopped, Is_Tracking, s, s'.
    unfold bind at 1 3 5 7.
    rewrite (Get_StatusInfo_packed _ _ _ _ _ _ _ _ _ _ _ _ H).
    unfold status_reply, subscript_1, PyStr.index, str_in, existsb.
    cbn [String.get Nat.eqb]. mrun.
    rewrite !eqb_one_char, E0, E1, E2, E5, E6, E7. repeat split.
Qed.

Lemma unmapped_status_digit_witness :
  Get_StatusInfo true (mkMount false false "090911#" [] [] 0)
  = (Raise KeyError, mkMount false false EmptyString [":GAS#"] [] 0)
  /\
  Is_Stopped (mkMount false false "090911#" [] [] 0)
  = (Ok false, mkMount false false EmptyString [":GAS#"] [] 0).
Proof.
  pose proof (unmapped_status_digit "0" "9" "0" "9" "1" "1" EmptyString
                false false [] [] 0 eq_refl eq_refl) as (Hr & _ & Hp).
  split; [exact Hr |].
  exact (proj1 (proj2 (proj2 (Hp eq_refl)))).
Defined.

(** C7 as stated fails: on the reply 090911, whose system-state digit 9
    is in no table, the four predicates return false and the packed query
    returns the digits; nothing is raised. *)
Lemma unmapped_digit_gives_false_predicates :
  fst (Is_Stopped (mkMount false false "090911#" [] [] 0)) = Ok false /\
  fst (Is_Slewing (mkMount false false "090911#" [] [] 0)) = Ok false /\
  fst (Is_Homed (mkMount false false "090911#" [] [] 0)) = Ok false /\
  fst (Is_Tracking (mkMount false false "090911#" [] [] 0)) = Ok false /\
  fst (Get_StatusInfo false (mkMount false false "090911#" [] [] 0))
  = Ok (Packed "090911").
Proof. repeat split; vm_compute; reflexivity. Qed.

(** ** The handshake *)

(** C8.  When the version reply without its last byte is not V1.00, or
    the four-byte model reply is not 5035, [__init__] raises the assertion
    error, and the version and model queries are the only commands
    written. *)
Theorem init_handshake_mismatch
    (datetime : Type) (dateutil_parse : string -> result datetime)
    (fuel : nat) (input version rest : string) :
  Serial.read_until "#" EmptyString input = (version, rest) ->
  Serial.all_ascii version = true ->
  Serial.all_ascii (PyStr.take 4 rest) = true ->
  PyStr.slice version None (Some (-1)) <> "V1.00"
  \/ PyStr.take 4 rest <> "5035" ->
  __init__ datetime dateutil_parse fuel (opened input)
  = (Raise AssertionError,
     mkMount false false (PyStr.drop 4 rest) [":V#"; ":MountInfo#"] [] 0).
Proof.
  intros Hv Av Am Hne. unfold __init__, opened. mrun.
  rewrite (SendMessage_Until _ _ _ _ _ _ _ _ _ _ Hv Av).
  rewrite (SendMessage_Count _ _ _ _ _ _ _ _ Am).
  replace ((PyStr.slice version None (Some (-1)) =? "V1.00")%string
           && (PyStr.take 4 rest =? "5035")%string) with false;
    [reflexivity |].
  symmetry. apply andb_false_iff.
  destruct Hne as [N | N]; [left | right]; apply String.eqb_neq; exact N.
Qed.

Lemma init_handshake_mismatch_witness :
  __init__ unit (fun _ => Ok tt) 1 (opened "V1.00#5036170518170518#")
  = (Raise AssertionError,
     mkMount false false "170518170518#" [":V#"; ":MountInfo#"] [] 0).
Proof.
  refine (init_handshake_mismatch unit (fun _ => Ok tt) 1
            "V1.00#5036170518170518#" "V1.00#" "5036170518170518#"
            eq_refl eq_refl eq_refl _).
  right. discriminate.
Defined.

(** With the expected version and model the initialisation goes on to the
    other commands and homes the mount. *)
Example init_handshake_match :
  __init__ unit (fun _ => Ok tt) 2
    (opened ("V1.00#5035170518170518#140101140101#111070911#"
             ++ "+0000170101120000#+185400#-009300#1020911#070911#"))
  = (Ok tt,
     mkMount false false EmptyString
       [":V#"; ":MountInfo#"; ":FW1#"; ":FW2#"; ":ST0#"; ":SR9#"; ":SAL-89#";
        ":GAS#"; ":GLT#"; ":Gt#"; ":Gg#"; ":MH#"; ":GAS#"; ":GAS#"] [] 1).
Proof. vm_compute. reflexivity. Qed.

(** ** The accuracy of the unit converters *)

(** *** Rounding: the integer side *)

Lemma fexp64_eq (e : Z) : fexp64 e = Z.max (e - 53) (-1074).
Proof. reflexivity. Qed.

Lemma digits2_pos_size (p : positive) : digits2_pos p = Pos.size p.
Proof. induction p as [p IH | p IH |]; simpl; congruence. Qed.

Lemma Zdigits2_bounds (m : Z) :
  0 < m -> 2 ^ (Zdigits2 m - 1) <= m < 2 ^ Zdigits2 m.
Proof.
  destruct m as [| p | p]; try lia. intros _. simpl Zdigits2.
  rewrite digits2_pos_size. split.
  - assert (H' : Z.pos (2 ^ Pos.size p) <= Z.pos p~0) by exact (Pos.size_le p).
    rewrite Pos2Z.inj_pow in H'.
    replace (Z.pos (Pos.size p)) with (Z.succ (Z.pos (Pos.size p) - 1)) in H'
      by lia.
    rewrite Z.pow_succ_r in H' by lia. lia.
  - assert (H' : Z.pos p < Z.pos (2 ^ Pos.size p)) by exact (Pos.size_gt p).
    rewrite Pos2Z.inj_pow in H'. exact H'.
Qed.

Lemma Zdigits2_nonneg (m : Z) : 0 <= Zdigits2 m.
Proof. destruct m; simpl; lia. Qed.

Lemma Zdigits2_le (m k : Z) : 0 <= m < 2 ^ k -> 0 <= k -> Zdigits2 m <= k.
Proof.
  intros [H0 H] Hk. destruct (Z.eq_dec m 0) as [-> | N]; [simpl; lia |].
  destruct (Zdigits2_bounds m ltac:(lia)) as [L _].
  destruct (Z_le_gt_dec (Zdigits2 m) k) as [? | G]; [assumption |].
  exfalso. assert (2 ^ k <= 2 ^ (Zdigits2 m - 1)) by (apply Z.pow_le_mono_r; lia).
  lia.
Qed.

Lemma shr_1_m (mrs : shr_record) :
  0 <= shr_m mrs -> shr_m (shr_1 mrs) = shr_m mrs / 2.
Proof.
  destruct mrs as [m r s]. simpl. intros H.
  destruct m as [| [p | p |] | p]; simpl; try lia; try reflexivity.
  - rewrite Pos2Z.inj_xI.
    apply Z.div_unique with (r := 1); lia.
  - rewrite Pos2Z.inj_xO.
    apply Z.div_unique with (r := 0); lia.
Qed.

Lemma iter_shr_1_m (p : positive) :
  forall mrs, 0 <= shr_m mrs ->
    shr_m (iter_pos shr_1 p mrs) = shr_m mrs / 2 ^ Z.pos p.
Proof.
  induction p as [p IH | p IH |]; intros mrs H; simpl iter_pos.
  - assert (H1 : 0 <= shr_m (shr_1 mrs))
      by (rewrite shr_1_m by assumption; apply Z.div_pos; lia).
    assert (H2 : 0 <= shr_m (iter_pos shr_1 p (shr_1 mrs)))
      by (rewrite IH by assumption; apply Z.div_pos; [assumption | lia]).
    rewrite IH by assumption. rewrite IH by assumption.
    rewrite shr_1_m by assumption.
    rewrite !Z.div_div by lia.
    f_equal. change 2 with (2 ^ 1) at 1.
    rewrite <- !Z.pow_add_r by lia. f_equal. lia.
  - assert (H2 : 0 <= shr_m (iter_pos shr_1 p mrs))
      by (rewrite IH by assumption; apply Z.div_pos; [assumption | lia]).
    rewrite IH by assumption. rewrite IH by assumption.
    rewrite !Z.div_div by lia.
    f_equal. rewrite <- !Z.pow_add_r by lia. f_equal. lia.
  - rewrite shr_1_m by assumption. reflexivity.
Qed.

Lemma shr_record_of_loc_m (m : Z) (l : location) :
  shr_m (shr_record_of_loc m l) = m.
Proof. destruct l as [| []]; reflexivity. Qed.

(** The first step of rounding: the mantissa is shifted to the exponent
    [Z.max e (fexp64 (Zdigits2 m + e))]. *)
Lemma shr_fexp_spec (m e : Z) (l : location) :
  0 <= m ->
  let E := Z.max e (fexp64 (Zdigits2 m + e)) in
  let '(mrs, e') := shr_fexp PyFloat.prec PyFloat.emax m e l in
  e' = E /\ shr_m mrs = m / 2 ^ (E - e) /\
  (E = e -> mrs = shr_record_of_loc m l).
Proof.
  intros Hm E. unfold shr_fexp, shr.
  destruct (fexp64 (Zdigits2 m + e) - e) as [| p | p] eqn:D.
  - assert (E = e) by (unfold E; lia). rewrite H, Z.sub_diag.
    rewrite shr_record_of_loc_m, Z.div_1_r. auto.
  - assert (HE : E - e = Z.pos p) by (unfold E; lia).
    split; [unfold E; lia |]. split.
    + rewrite iter_shr_1_m by (rewrite shr_record_of_loc_m; exact Hm).
      rewrite shr_record_of_loc_m, HE. reflexivity.
    + intros. lia.
  - assert (E = e) by (unfold E; lia). rewrite H, Z.sub_diag.
    rewrite shr_record_of_loc_m, Z.div_1_r. auto.
Qed.

Lemma round_nearest_even_cases (m : Z) (l : location) :
  round_nearest_even m l = m \/ round_nearest_even m l = m + 1.
Proof.
  destruct l as [| []]; simpl; auto. destruct (Z.even m); auto.
Qed.

Lemma shr_fexp_exact (M E : Z) :
  0 <= M <= 2 ^ 53 -> -1074 <= E ->
  let '(mrs, e) := shr_fexp PyFloat.prec PyFloat.emax M E loc_Exact in
  E <= e /\ shr_m mrs * 2 ^ (e - E) = M.
Proof.
  intros [H0 H1] HE.
  pose proof (shr_fexp_spec M E loc_Exact H0) as S. cbv zeta in S.
  destruct (shr_fexp PyFloat.prec PyFloat.emax M E loc_Exact) as [mrs e].
  destruct S as (Se & Sm & _). rewrite <- Se in Sm.
  destruct (Z.eq_dec M (2 ^ 53)) as [EM | N].
  - rewrite EM in Se. change (Zdigits2 (2 ^ 53)) with 54 in Se.
    rewrite fexp64_eq in Se.
    assert (D : e - E = 1) by lia. rewrite D in *.
    split; [lia | rewrite Sm, EM; reflexivity].
  - assert (D : Zdigits2 M <= 53) by (apply Zdigits2_le; lia).
    rewrite fexp64_eq in Se. assert (D' : e - E = 0) by lia. rewrite D' in *.
    split; [lia | rewrite Sm, Z.div_1_r; lia].
Qed.

(** Rounding [mx * 2^ex] (with the location [lx] of the exact value among
    [mx] and [mx + 1]) gives a mantissa [M] at the exponent [E]: [M] is the
    mantissa shifted to [E], or its successor. *)
Lemma binary_round_aux_spec (sx : bool) (mx ex : Z) (lx : location) :
  0 <= mx ->
  let E := Z.max ex (fexp64 (Zdigits2 mx + ex)) in
  let m1 := mx / 2 ^ (E - ex) in
  exists M : Z,
    (M = m1 \/ M = m1 + 1) /\
    (E = ex -> lx = loc_Exact -> M = mx) /\
    match binary_round_aux PyFloat.prec PyFloat.emax sx mx ex lx with
    | S754_zero s => s = sx /\ M = 0
    | S754_finite s m e => s = sx /\ E <= e /\ Z.pos m * 2 ^ (e - E) = M
    | S754_infinity s =>
        s = sx /\ exists m e, 971 < e /\ E <= e /\ Z.pos m * 2 ^ (e - E) = M
    | S754_nan => False
    end.
Proof.
  intros Hm E m1. unfold binary_round_aux.
  pose proof (shr_fexp_spec mx ex lx Hm) as S. cbv zeta in S. fold E in S.
  destruct (shr_fexp PyFloat.prec PyFloat.emax mx ex lx) as [mrs' e'].
  destruct S as (Se & Sm & Sx). subst e'. fold m1 in Sm.
  set (M := round_nearest_even (shr_m mrs') (loc_of_shr_record mrs')).
  assert (HE : -1074 <= E) by (unfold E; rewrite fexp64_eq; lia).
  assert (Hm1 : 0 <= m1 < 2 ^ 53).
  { unfold m1. split; [apply Z.div_pos; lia |].
    destruct (Z.eq_dec mx 0) as [-> | N].
    - rewrite Z.div_0_l by lia. lia.
    - apply Z.div_lt_upper_bound; [lia |].
      destruct (Zdigits2_bounds mx ltac:(lia)) as [_ U].
      rewrite <- Z.pow_add_r by (unfold E; lia).
      eapply Z.lt_le_trans; [exact U |].
      apply Z.pow_le_mono_r; [lia |]. unfold E. rewrite fexp64_eq. lia. }
  assert (HM : M = m1 \/ M = m1 + 1).
  { unfold M. rewrite <- Sm. apply round_nearest_even_cases. }
  exists M. split; [exact HM |]. split.
  { intros Ee Hl. unfold M. rewrite (Sx Ee), Hl. simpl.
    reflexivity. }
  pose proof (shr_fexp_exact M E ltac:(lia) HE) as X.
  destruct (shr_fexp PyFloat.prec PyFloat.emax M E loc_Exact) as [mrs'' e''].
  destruct X as [Xe Xm].
  destruct (shr_m mrs'') as [| m | m] eqn:Dm.
  - split; [reflexivity | lia].
  - destruct (e'' <=? PyFloat.emax - PyFloat.prec) eqn:Ov.
    + repeat split; assumption.
    + split; [reflexivity |]. exists m, e''. apply Z.leb_gt in Ov.
      change (PyFloat.emax - PyFloat.prec) with 971 in Ov. auto.
  - assert (0 < 2 ^ (e'' - E)) by (apply Z.pow_pos_nonneg; lia). nia.
Qed.

Section RoundingError.

Local Open Scope R_scope.

(** *** Rounding: the real side *)

Lemma bpow_pos (e : Z) : 0 < bpow e.
Proof. apply powerRZ_lt. lra. Qed.

Lemma bpow_add (a b : Z) : bpow (a + b) = bpow a * bpow b.
Proof. apply powerRZ_add. lra. Qed.

Lemma bpow_IZR (k : Z) : (0 <= k)%Z -> bpow k = IZR (2 ^ k).
Proof.
  intros H. unfold bpow. destruct k as [| p | p]; try lia.
  - reflexivity.
  - rewrite <- Zpower_pos_powerRZ. reflexivity.
Qed.

Lemma bpow_neg (k : Z) : bpow (- k) = / bpow k.
Proof. apply powerRZ_neg'. Qed.

Lemma bpow_le (a b : Z) : (a <= b)%Z -> bpow a <= bpow b.
Proof.
  intros H. replace b with (a + (b - a))%Z by lia. rewrite bpow_add.
  rewrite (bpow_IZR (b - a)) by lia.
  assert (1 <= IZR (2 ^ (b - a))).
  { apply IZR_le. assert (0 < 2 ^ (b - a))%Z by (apply Z.pow_pos_nonneg; lia). lia. }
  pose proof (bpow_pos a). nra.
Qed.

Lemma mag_nonneg (x : spec_float) : 0 <= mag x.
Proof.
  destruct x as [s | s | | s m e]; simpl; try lra.
  pose proof (bpow_pos e). assert (0 < IZR (Z.pos m)) by (apply IZR_lt; lia).
  nra.
Qed.

Lemma u52_pos : 0 < u52. Proof. apply bpow_pos. Qed.
Lemma eta_pos : 0 < eta. Proof. apply bpow_pos. Qed.

(** Rounding a non-negative real [r] located by [(mx, ex, lx)] gives a
    zero or finite float whose magnitude is within [u52 * r + eta] of [r]. *)
Lemma round_mag (sx : bool) (mx ex : Z) (lx : location) (r : R) :
  (0 <= mx)%Z ->
  IZR mx * bpow ex <= r <= (IZR mx + 1) * bpow ex ->
  (lx = loc_Exact -> r = IZR mx * bpow ex) ->
  (lx <> loc_Exact -> bpow ex <= u52 * r + eta) ->
  r < bpow 971 ->
  let z := binary_round_aux PyFloat.prec PyFloat.emax sx mx ex lx in
  is_fin z = true /\ sgn z = sx /\
  r - (u52 * r + eta) <= mag z <= r + (u52 * r + eta).
Proof.
  intros Hm [Hlo Hhi] Hex Hin Hov z.
  pose proof (binary_round_aux_spec sx mx ex lx Hm) as S. cbv zeta in S.
  fold z in S.
  set (E := Z.max ex (fexp64 (Zdigits2 mx + ex))) in *.
  set (n := (E - ex)%Z) in *.
  set (m1 := (mx / 2 ^ n)%Z) in *.
  destruct S as (M & HM & HMx & Hz).
  assert (Hn : (0 <= n)%Z) by (unfold n, E; lia).
  assert (P2 : (0 < 2 ^ n)%Z) by (apply Z.pow_pos_nonneg; lia).
  assert (Hr0 : 0 <= r).
  { pose proof (bpow_pos ex). assert (0 <= IZR mx) by (apply IZR_le; lia). nra. }
  (* the division by [2^n] in the integers *)
  assert (Dlo : (m1 * 2 ^ n <= mx)%Z)
    by (unfold m1; rewrite Z.mul_comm; apply Z.mul_div_le; lia).
  assert (Dhi : (mx + 1 <= (m1 + 1) * 2 ^ n)%Z).
  { unfold m1. pose proof (Z.mod_pos_bound mx (2 ^ n) P2).
    pose proof (Z.div_mod mx (2 ^ n) ltac:(lia)). nia. }
  assert (BE : bpow E = bpow ex * IZR (2 ^ n)).
  { replace E with (ex + n)%Z by (unfold n; lia).
    rewrite bpow_add, (bpow_IZR n) by lia. reflexivity. }
  assert (Rlo : IZR m1 * bpow E <= r).
  { rewrite BE. apply IZR_le in Dlo. rewrite mult_IZR in Dlo.
    pose proof (bpow_pos ex). nra. }
  assert (Rhi : r <= (IZR m1 + 1) * bpow E).
  { rewrite BE. apply IZR_le in Dhi. rewrite mult_IZR, !plus_IZR in Dhi.
    pose proof (bpow_pos ex). nra. }
  (* the error of one unit at the exponent [E] *)
  assert (Herr : IZR M = IZR mx /\ r = IZR mx * bpow ex /\ E = ex
                 \/ bpow E <= u52 * r + eta).
  { destruct (Z.eq_dec E ex) as [Ee | Ne].
    - destruct lx as [| c] eqn:Dl.
      + left. rewrite (HMx Ee eq_refl). auto.
      + right. rewrite Ee. apply Hin. discriminate.
    - right. assert (EF : E = fexp64 (Zdigits2 mx + ex)) by (unfold E; lia).
      rewrite fexp64_eq in EF.
      destruct (Z.eq_dec E (-1074)) as [E1 | E1].
      + rewrite E1. fold eta. pose proof u52_pos. nra.
      + assert (E2 : E = (Zdigits2 mx + ex - 53)%Z) by lia.
        assert (mx0 : (0 < mx)%Z).
        { destruct (Z.eq_dec mx 0) as [-> | ?]; [| lia].
          simpl in E2. unfold E in Ne. lia. }
        destruct (Zdigits2_bounds mx mx0) as [L _].
        pose proof (Zdigits2_nonneg mx).
        assert (Zdigits2 mx <> 0%Z).
        { destruct mx; simpl; lia. }
        assert (B : bpow (E + 52) <= r).
        { replace (E + 52)%Z with ((Zdigits2 mx - 1) + ex)%Z by lia.
          rewrite bpow_add, (bpow_IZR (Zdigits2 mx - 1)) by lia.
          apply IZR_le in L. pose proof (bpow_pos ex). nra. }
        replace E with ((-52) + (E + 52))%Z at 1 by lia.
        rewrite bpow_add. fold u52. pose proof u52_pos. pose proof eta_pos. nra. }
  assert (HMr : IZR M = IZR m1 \/ IZR M = IZR m1 + 1).
  { destruct HM as [-> | ->]; [left | right; rewrite plus_IZR]; reflexivity. }
  assert (Hy : r - (u52 * r + eta) <= IZR M * bpow E <= r + (u52 * r + eta)).
  { pose proof (bpow_pos E). pose proof u52_pos. pose proof eta_pos.
    destruct Herr as [(K1 & K2 & K3) | K1].
    - rewrite K1, K3, <- K2. nra.
    - destruct HMr as [-> | ->]; nra. }
  assert (Hval : forall m e, (E <= e)%Z -> (Z.pos m * 2 ^ (e - E))%Z = M ->
                   IZR (Z.pos m) * bpow e = IZR M * bpow E).
  { intros m e He <-. rewrite mult_IZR.
    replace e with (E + (e - E))%Z at 1 by lia.
    rewrite bpow_add, (bpow_IZR (e - E)) by lia. ring. }
  destruct z as [s | s | | s m e].
  - destruct Hz as [-> HM0]. rewrite HM0 in Hy. simpl.
    rewrite Rmult_0_l in Hy. auto.
  - exfalso. destruct Hz as [_ (m & e & He & HEe & Hme)].
    rewrite <- (Hval m e HEe Hme) in Hy.
    assert (bpow 972 <= IZR (Z.pos m) * bpow e).
    { assert (bpow 972 <= bpow e) by (apply bpow_le; lia).
      assert (1 <= IZR (Z.pos m)) by (apply IZR_le; lia).
      pose proof (bpow_pos e). nra. }
    assert (bpow 972 = 2 * bpow 971).
    { replace 972%Z with (1 + 971)%Z by lia. rewrite bpow_add.
      rewrite (bpow_IZR 1) by lia. reflexivity. }
    assert (u52 <= 1 / 2).
    { unfold u52. transitivity (bpow (-1)); [apply bpow_le; lia |].
      unfold bpow. simpl. lra. }
    assert (eta <= bpow 970) by (apply bpow_le; lia).
    assert (bpow 971 = 2 * bpow 970).
    { replace 971%Z with (1 + 970)%Z by lia. rewrite bpow_add.
      rewrite (bpow_IZR 1) by lia. reflexivity. }
    assert (u52 * r <= r / 2) by nra.
    pose proof (bpow_pos 970). lra.
  - contradiction.
  - destruct Hz as (-> & HEe & Hme). simpl.
    rewrite (Hval m e HEe Hme). auto.
Qed.

(** *** Multiplication *)

Lemma mul_mag (x c : spec_float) :
  is_fin x = true -> is_fin c = true ->
  mag x * mag c < bpow 971 ->
  let r := mag x * mag c in
  let z := PyFloat.mul x c in
  is_fin z = true /\ sgn z = xorb (sgn x) (sgn c) /\
  r - (u52 * r + eta) <= mag z <= r + (u52 * r + eta).
Proof.
  intros Fx Fc Hov r z. pose proof eta_pos as He. pose proof u52_pos as Hu.
  destruct x as [sx | sx | | sx mx ex]; try discriminate Fx;
    destruct c as [sc | sc | | sc mc ec]; try discriminate Fc;
    try (unfold r, z; simpl; repeat split;
         rewrite ?Rmult_0_l, ?Rmult_0_r; lra).
  unfold z, PyFloat.mul, SFmul.
  apply round_mag.
  - lia.
  - unfold r. simpl mag. rewrite Pos2Z.inj_mul, mult_IZR, bpow_add.
    pose proof (bpow_pos ex). pose proof (bpow_pos ec). nra.
  - intros _. unfold r. simpl mag. rewrite Pos2Z.inj_mul, mult_IZR, bpow_add.
    ring.
  - intros N. contradiction N. reflexivity.
  - exact Hov.
Qed.

(** *** Division *)

Lemma new_location_exact (nb k : Z) :
  new_location nb k = loc_Exact -> k = 0%Z.
Proof.
  unfold new_location, new_location_even, new_location_odd.
  destruct (Z.even nb); destruct (Z.eqb_spec k 0); auto; discriminate.
Qed.

Lemma div_mag (x : spec_float) (sc : bool) (mc : positive) (ec : Z) :
  is_fin x = true ->
  let c := S754_finite sc mc ec in
  mag x / mag c < bpow 971 ->
  let r := mag x / mag c in
  let z := PyFloat.div x c in
  is_fin z = true /\ sgn z = xorb (sgn x) (sgn c) /\
  r - (u52 * r + eta) <= mag z <= r + (u52 * r + eta).
Proof.
  intros Fx c Hov r z. pose proof eta_pos as He. pose proof u52_pos as Hu.
  assert (Cpos : 0 < mag c).
  { simpl. pose proof (bpow_pos ec).
    assert (0 < IZR (Z.pos mc)) by (apply IZR_lt; lia). nra. }
  destruct x as [sx | sx | | sx mx ex]; try discriminate Fx.
  { unfold r, z. simpl. unfold Rdiv. rewrite !Rmult_0_l. repeat split; lra. }
  unfold z, c, PyFloat.div, SFdiv.
  destruct (SFdiv_core_binary PyFloat.prec PyFloat.emax (Z.pos mx) ex
              (Z.pos mc) ec) as [[q e'] loc] eqn:Core.
  unfold SFdiv_core_binary in Core.
  set (d1 := Zdigits2 (Z.pos mx)) in *. set (d2 := Zdigits2 (Z.pos mc)) in *.
  set (e0 := Z.min (fexp64 (d1 + ex - (d2 + ec))) (ex - ec)) in *.
  set (s := (ex - ec - e0)%Z) in *.
  assert (Hs : (0 <= s)%Z) by (unfold s, e0; lia).
  set (m' := match s with
             | 0%Z => Z.pos mx
             | Z.pos _ => Z.shiftl (Z.pos mx) s
             | Z.neg _ => 0%Z
             end) in *.
  assert (Hm' : m' = (Z.pos mx * 2 ^ s)%Z).
  { unfold m'. destruct s as [| p | p] eqn:Ds; try lia.
    apply Z.shiftl_mul_pow2. lia. }
  pose proof (Z_div_mod m' (Z.pos mc) ltac:(lia)) as DM.
  destruct (Z.div_eucl m' (Z.pos mc)) as [q0 rem].
  destruct DM as [Dq Drem].
  injection Core as <- <- <-.
  set (t := bpow e0 * bpow ec).
  assert (tpos : 0 < t) by (unfold t; pose proof (bpow_pos e0);
                            pose proof (bpow_pos ec); nra).
  assert (X : mag (S754_finite sx mx ex)
              = (IZR (Z.pos mc) * IZR q0 + IZR rem) * t).
  { simpl mag. replace ex with (s + (e0 + ec))%Z at 1 by (unfold s; lia).
    rewrite !bpow_add, (bpow_IZR s) by lia.
    rewrite <- mult_IZR, <- plus_IZR, <- Dq, Hm', mult_IZR. unfold t. ring. }
  assert (C : mag c = IZR (Z.pos mc) * bpow ec) by reflexivity.
  assert (mcpos : 0 < IZR (Z.pos mc)) by (apply IZR_lt; lia).
  assert (Hr : r = (IZR q0 + IZR rem / IZR (Z.pos mc)) * bpow e0).
  { unfold r. rewrite X. fold c. rewrite C. unfold t.
    pose proof (bpow_pos ec). field. split; lra. }
  assert (Hrem : 0 <= IZR rem / IZR (Z.pos mc) < 1).
  { destruct Drem as [R0 R1]. apply IZR_le in R0. apply IZR_lt in R1.
    split.
    - apply Rmult_le_pos; [lra |]. left. apply Rinv_0_lt_compat. lra.
    - apply Rmult_lt_reg_r with (IZR (Z.pos mc)); [lra |].
      unfold Rdiv. rewrite Rmult_assoc, Rinv_l by lra. lra. }
  assert (q0pos : (0 <= q0)%Z).
  { destruct (Z_lt_le_dec q0 0) as [N | ?]; [| assumption].
    exfalso. assert (0 <= m')%Z by (rewrite Hm'; apply Z.mul_nonneg_nonneg; lia || (apply Z.pow_nonneg; lia)).
    nia. }
  assert (Hr0 : 0 <= r).
  { rewrite Hr. pose proof (bpow_pos e0). apply IZR_le in q0pos. nra. }
  apply round_mag.
  - exact q0pos.
  - fold r. rewrite Hr. pose proof (bpow_pos e0). nra.
  - intros L. apply new_location_exact in L. fold r. rewrite Hr, L.
    unfold Rdiv. rewrite Rmult_0_l. ring.
  - intros _. fold r.
    assert (Fe : (e0 <= fexp64 (d1 + ex - (d2 + ec)))%Z) by (unfold e0; lia).
    rewrite fexp64_eq in Fe.
    destruct (Z_le_gt_dec e0 (-1074)) as [Le | Gt].
    + assert (bpow e0 <= eta) by (apply bpow_le; exact Le). nra.
    + assert (Fe' : (e0 + 52 <= (d1 - 1 + ex) - (d2 + ec))%Z) by lia.
      destruct (Zdigits2_bounds (Z.pos mx) ltac:(lia)) as [L1 _].
      destruct (Zdigits2_bounds (Z.pos mc) ltac:(lia)) as [_ U2].
      fold d1 in L1. fold d2 in U2.
      assert (d1pos : (1 <= d1)%Z) by (unfold d1; simpl; lia).
      assert (d2pos : (1 <= d2)%Z) by (unfold d2; simpl; lia).
      assert (B1 : bpow (d1 - 1 + ex) <= mag (S754_finite sx mx ex)).
      { simpl mag. rewrite bpow_add, (bpow_IZR (d1 - 1)) by lia.
        apply IZR_le in L1. pose proof (bpow_pos ex). nra. }
      assert (B2 : mag c <= bpow (d2 + ec)).
      { rewrite C, bpow_add, (bpow_IZR d2) by lia.
        apply IZR_lt in U2. pose proof (bpow_pos ec). nra. }
      assert (B3 : bpow (e0 + 52) * bpow (d2 + ec) <= bpow (d1 - 1 + ex)).
      { rewrite <- bpow_add. apply bpow_le. lia. }
      assert (B4 : r * mag c = mag (S754_finite sx mx ex)).
      { unfold r. field. lra. }
      assert (B5 : bpow (e0 + 52) <= r).
      { pose proof (bpow_pos (e0 + 52)). pose proof (bpow_pos (d2 + ec)).
        apply Rmult_le_reg_r with (mag c); [exact Cpos |].
        rewrite B4. eapply Rle_trans; [| exact B1].
        eapply Rle_trans; [| exact B3].
        apply Rmult_le_compat_l; lra. }
      replace e0 with ((-52) + (e0 + 52))%Z at 1 by lia.
      rewrite bpow_add. fold u52. nra.
  - exact Hov.
Qed.

(** *** The converters on floats *)

Lemma c3600_eq : c3600 = S754_finite false 7916483719987200 (-41).
Proof. vm_compute. reflexivity. Qed.

Lemma degToRad_eq :
  PyFloat.degToRad = S754_finite false 5030569068109113 (-58).
Proof. vm_compute. reflexivity. Qed.

Lemma radToDeg_eq :
  PyFloat.radToDeg = S754_finite false 8063664102031864 (-47).
Proof. vm_compute. reflexivity. Qed.

Lemma bpow_neg_IZR (k : Z) : (0 <= k)%Z -> bpow (- k) = / IZR (2 ^ k).
Proof. intros H. rewrite bpow_neg, bpow_IZR by exact H. reflexivity. Qed.

Lemma mag_c3600 : mag c3600 = 3600.
Proof.
  rewrite c3600_eq. unfold mag. change (bpow (-41)) with (bpow (Z.opp 41)).
  rewrite (bpow_neg_IZR 41) by lia.
  change (2 ^ 41)%Z with 2199023255552%Z. lra.
Qed.

Lemma mag_degToRad :
  mag PyFloat.degToRad = 5030569068109113 / 288230376151711744.
Proof.
  rewrite degToRad_eq. unfold mag. change (bpow (-58)) with (bpow (Z.opp 58)).
  rewrite (bpow_neg_IZR 58) by lia.
  change (2 ^ 58)%Z with 288230376151711744%Z. lra.
Qed.

Lemma mag_radToDeg :
  mag PyFloat.radToDeg = 8063664102031864 / 140737488355328.
Proof.
  rewrite radToDeg_eq. unfold mag. change (bpow (-47)) with (bpow (Z.opp 47)).
  rewrite (bpow_neg_IZR 47) by lia.
  change (2 ^ 47)%Z with 140737488355328%Z. lra.
Qed.

Lemma u52_eq : u52 = 1 / 4503599627370496.
Proof.
  unfold u52. change (bpow (-52)) with (bpow (Z.opp 52)).
  rewrite (bpow_neg_IZR 52) by lia.
  change (2 ^ 52)%Z with 4503599627370496%Z. lra.
Qed.

Lemma eta_le : eta <= 1 / 1267650600228229401496703205376.
Proof.
  unfold eta. transitivity (bpow (Z.opp 100)); [apply bpow_le; lia |].
  rewrite (bpow_neg_IZR 100) by lia.
  change (2 ^ 100)%Z with 1267650600228229401496703205376%Z. lra.
Qed.

Lemma bpow_971_ge : 1267650600228229401496703205376 <= bpow 971.
Proof.
  transitivity (bpow 100); [| apply bpow_le; lia].
  rewrite (bpow_IZR 100) by lia.
  change (2 ^ 100)%Z with 1267650600228229401496703205376%Z. lra.
Qed.

Lemma to_float_3600 : PyNum.to_float (PyInt 3600) = Ok c3600.
Proof. vm_compute. reflexivity. Qed.

Lemma c3600_not_zero : PyFloat.is_zero c3600 = false.
Proof. vm_compute. reflexivity. Qed.

(** The six converters on a float: one or two roundings. *)
Lemma ArcSec_To_Degrees_float (x : spec_float) :
  ArcSec_To_Degrees (PyFloat x) = Ok (PyFloat (PyFloat.div x c3600)).
Proof.
  unfold ArcSec_To_Degrees, PyNum.truediv. rewrite to_float_3600.
  cbn [PyNum.to_float rbind]. rewrite c3600_not_zero. reflexivity.
Qed.

Lemma Degrees_To_Arcsec_float (x : spec_float) :
  Degrees_To_Arcsec (PyFloat x) = Ok (PyFloat (PyFloat.mul x c3600)).
Proof.
  unfold Degrees_To_Arcsec, PyNum.mul. rewrite to_float_3600. reflexivity.
Qed.

Lemma Degrees_To_Radians_float (x : spec_float) :
  Degrees_To_Radians (PyFloat x)
  = Ok (PyFloat (PyFloat.mul x PyFloat.degToRad)).
Proof. reflexivity. Qed.

Lemma Radians_To_Degrees_float (x : spec_float) :
  Radians_To_Degrees (PyFloat x)
  = Ok (PyFloat (PyFloat.mul x PyFloat.radToDeg)).
Proof. reflexivity. Qed.

Lemma ArcSec_To_Radians_float (x : spec_float) :
  ArcSec_To_Radians (PyFloat x)
  = Ok (PyFloat (PyFloat.mul (PyFloat.div x c3600) PyFloat.degToRad)).
Proof.
  unfold ArcSec_To_Radians. fold (ArcSec_To_Degrees (PyFloat x)).
  rewrite ArcSec_To_Degrees_float. reflexivity.
Qed.

Lemma Radians_To_Arcsec_float (x : spec_float) :
  Radians_To_Arcsec (PyFloat x)
  = Ok (PyFloat (PyFloat.mul (PyFloat.mul x PyFloat.radToDeg) c3600)).
Proof.
  unfold Radians_To_Arcsec. cbn [PyNum.math_degrees PyNum.to_float rbind].
  fold (Degrees_To_Arcsec (PyFloat (PyFloat.mul x PyFloat.radToDeg))).
  apply Degrees_To_Arcsec_float.
Qed.

(** One multiplication by a positive constant of at most 3600, and one
    division by 3600, on a float of magnitude at most [2^80]. *)
Lemma step_mul (x c : spec_float) (kc : R) :
  is_fin x = true -> is_fin c = true -> sgn c = false ->
  mag c = kc -> 0 <= kc <= 3600 ->
  mag x <= 1208925819614629174706176 ->
  let z := PyFloat.mul x c in
  is_fin z = true /\ sgn z = sgn x /\
  mag x * kc - (u52 * (mag x * kc) + eta) <= mag z
  <= mag x * kc + (u52 * (mag x * kc) + eta).
Proof.
  intros Fx Fc Sc Mc Hk Hx z.
  pose proof (mag_nonneg x) as X0. pose proof bpow_971_ge as B.
  destruct (mul_mag x c Fx Fc) as (F & S & Hb).
  - rewrite Mc. nra.
  - rewrite Mc in Hb. rewrite Sc, xorb_false_r in S. auto.
Qed.

Lemma step_div (x : spec_float) :
  is_fin x = true ->
  mag x <= 1208925819614629174706176 ->
  let z := PyFloat.div x c3600 in
  is_fin z = true /\ sgn z = sgn x /\
  mag x / 3600 - (u52 * (mag x / 3600) + eta) <= mag z
  <= mag x / 3600 + (u52 * (mag x / 3600) + eta).
Proof.
  intros Fx Hx z.
  pose proof (mag_nonneg x) as X0. pose proof bpow_971_ge as B.
  pose proof mag_c3600 as M. unfold z. rewrite c3600_eq in *.
  destruct (div_mag x false 7916483719987200 (-41) Fx) as (F & S & Hb).
  - rewrite M. lra.
  - rewrite M in Hb. simpl sgn in S. rewrite xorb_false_r in S. auto.
Qed.

Lemma c3600_fin : is_fin c3600 = true /\ sgn c3600 = false.
Proof. rewrite c3600_eq. split; reflexivity. Qed.

Lemma degToRad_fin : is_fin PyFloat.degToRad = true /\ sgn PyFloat.degToRad = false.
Proof. rewrite degToRad_eq. split; reflexivity. Qed.

Lemma radToDeg_fin : is_fin PyFloat.radToDeg = true /\ sgn PyFloat.radToDeg = false.
Proof. rewrite radToDeg_eq. split; reflexivity. Qed.

Tactic Notation "by_mul" constr(y) constr(c) constr(Mc)
    ident(F) ident(S) ident(B) :=
  let Hc := fresh in
  let Hs := fresh in
  match c with
  | c3600 => destruct c3600_fin as [Hc Hs]
  | PyFloat.degToRad => destruct degToRad_fin as [Hc Hs]
  | PyFloat.radToDeg => destruct radToDeg_fin as [Hc Hs]
  end;
  destruct (step_mul y c _ ltac:(assumption) Hc Hs Mc ltac:(lra) ltac:(lra))
    as (F & S & B);
  rewrite u52_eq in B; clear Hc Hs.

Tactic Notation "by_div" constr(y) ident(F) ident(S) ident(B) :=
  destruct (step_div y ltac:(assumption) ltac:(lra)) as (F & S & B);
  rewrite u52_eq in B.

Ltac conclude S1 S2 :=
  unfold F2R; rewrite S2, S1;
  match goal with |- context [sgn ?x] => destruct (sgn x) end;
  apply Rabs_le; unfold tolerance; lra.

(** The round trip of a float. *)
Lemma round_trip_float (a b : angle_unit) (x : spec_float) :
  a <> b -> is_fin x = true -> mag x <= 4194304 ->
  exists y z : spec_float,
    convert a b (PyFloat x) = Ok (PyFloat y) /\
    convert b a (PyFloat y) = Ok (PyFloat z) /\
    is_fin z = true /\
    Rabs (F2R z - F2R x) <= tolerance a.
Proof.
  intros Hab Fx Hx.
  pose proof eta_le as He. pose proof eta_pos as He0.
  pose proof (mag_nonneg x) as X0. pose proof PI2_3_2 as Hpi.
  destruct a, b; try (contradiction Hab; reflexivity); cbn [convert].
  - (* arcsec -> degree -> arcsec *)
    eexists; eexists.
    split; [apply ArcSec_To_Degrees_float |].
    split; [apply Degrees_To_Arcsec_float |].
    by_div x F1 S1 B1.
    by_mul (PyFloat.div x c3600) c3600 mag_c3600 F2 S2 B2.
    split; [exact F2 |]. conclude S1 S2.
  - (* arcsec -> radian -> arcsec *)
    eexists; eexists.
    split; [apply ArcSec_To_Radians_float |].
    split; [apply Radians_To_Arcsec_float |].
    by_div x F1 S1 B1.
    by_mul (PyFloat.div x c3600) PyFloat.degToRad mag_degToRad F2 S2 B2.
    rewrite S1 in S2.
    by_mul (PyFloat.mul (PyFloat.div x c3600) PyFloat.degToRad)
           PyFloat.radToDeg mag_radToDeg F3 S3 B3.
    by_mul (PyFloat.mul (PyFloat.mul (PyFloat.div x c3600) PyFloat.degToRad)
              PyFloat.radToDeg) c3600 mag_c3600 F4 S4 B4.
    split; [exact F4 |]. rewrite S2 in S3. conclude S3 S4.
  - (* degree -> arcsec -> degree *)
    eexists; eexists.
    split; [apply Degrees_To_Arcsec_float |].
    split; [apply ArcSec_To_Degrees_float |].
    by_mul x c3600 mag_c3600 F1 S1 B1.
    by_div (PyFloat.mul x c3600) F2 S2 B2.
    split; [exact F2 |]. conclude S1 S2.
  - (* degree -> radian -> degree *)
    eexists; eexists.
    split; [apply Degrees_To_Radians_float |].
    split; [apply Radians_To_Degrees_float |].
    by_mul x PyFloat.degToRad mag_degToRad F1 S1 B1.
    by_mul (PyFloat.mul x PyFloat.degToRad) PyFloat.radToDeg mag_radToDeg
           F2 S2 B2.
    split; [exact F2 |]. conclude S1 S2.
  - (* radian -> arcsec -> radian *)
    eexists; eexists.
    split; [apply Radians_To_Arcsec_float |].
    split; [apply ArcSec_To_Radians_float |].
    by_mul x PyFloat.radToDeg mag_radToDeg F1 S1 B1.
    by_mul (PyFloat.mul x PyFloat.radToDeg) c3600 mag_c3600 F2 S2 B2.
    rewrite S1 in S2.
    by_div (PyFloat.mul (PyFloat.mul x PyFloat.radToDeg) c3600) F3 S3 B3.
    by_mul (PyFloat.div (PyFloat.mul (PyFloat.mul x PyFloat.radToDeg) c3600)
              c3600) PyFloat.degToRad mag_degToRad F4 S4 B4.
    split; [exact F4 |]. rewrite S2 in S3. conclude S3 S4.
  - (* radian -> degree -> radian *)
    eexists; eexists.
    split; [apply Radians_To_Degrees_float |].
    split; [apply Degrees_To_Radians_float |].
    by_mul x PyFloat.radToDeg mag_radToDeg F1 S1 B1.
    by_mul (PyFloat.mul x PyFloat.radToDeg) PyFloat.degToRad mag_degToRad
           F2 S2 B2.
    split; [exact F2 |]. conclude S1 S2.
Qed.

(** *** Integers as angle values *)

Lemma iter_xO_value (d p : positive) :
  Z.pos (Pos.iter xO p d) = (Z.pos p * 2 ^ Z.pos d)%Z.
Proof.
  change (Pos.iter xO p d) with (Zpower.shift_pos d p).
  rewrite Zpower.shift_pos_correct.
  change (Z.pow_pos 2 d) with (2 ^ Z.pos d)%Z. ring.
Qed.

(** Aligning a mantissa to a lower exponent keeps the value. *)
Lemma shl_align_value (mx : positive) (ex ex' : Z) :
  let '(mz, ez) := shl_align mx ex ex' in
  IZR (Z.pos mz) * bpow ez = IZR (Z.pos mx) * bpow ex.
Proof.
  unfold shl_align. destruct (ex' - ex)%Z as [| d | d] eqn:D; try reflexivity.
  rewrite iter_xO_value, mult_IZR.
  replace ex with (Z.pos d + ex')%Z by lia.
  rewrite bpow_add, (bpow_IZR (Z.pos d)) by lia. ring.
Qed.

(** The conversion of an integer of magnitude at most [2^80]. *)
Lemma of_Z_mag (z : Z) :
  IZR (Z.abs z) <= 1208925819614629174706176 ->
  let f := PyFloat.of_Z z in
  is_fin f = true /\ sgn f = (z <? 0)%Z /\
  IZR (Z.abs z) - (u52 * IZR (Z.abs z) + eta) <= mag f
  <= IZR (Z.abs z) + (u52 * IZR (Z.abs z) + eta).
Proof.
  intros Hz f. pose proof eta_pos as He. pose proof u52_pos as Hu.
  pose proof bpow_971_ge as B.
  assert (K : forall s p,
             IZR (Z.pos p) <= 1208925819614629174706176 ->
             let g := binary_round PyFloat.prec PyFloat.emax s p 0 in
             is_fin g = true /\ sgn g = s /\
             IZR (Z.pos p) - (u52 * IZR (Z.pos p) + eta) <= mag g
             <= IZR (Z.pos p) + (u52 * IZR (Z.pos p) + eta)).
  { intros s p Hp g. unfold g, binary_round.
    pose proof (shl_align_value p 0
                  (fexp64 (Z.pos (digits2_pos p) + 0))) as V.
    destruct (shl_align p 0 (fexp64 (Z.pos (digits2_pos p) + 0)))
      as [mz ez].
    change (bpow 0) with 1 in V. rewrite Rmult_1_r in V.
    apply round_mag.
    - lia.
    - rewrite V. pose proof (bpow_pos ez). nra.
    - intros _. symmetry. exact V.
    - intros N. contradiction N. reflexivity.
    - lra. }
  destruct z as [| p | p].
  - unfold f. simpl. rewrite Rmult_0_r. repeat split; lra.
  - exact (K false p Hz).
  - exact (K true p Hz).
Qed.

Lemma to_float_int (z : Z) :
  is_fin (PyFloat.of_Z z) = true ->
  PyNum.to_float (PyInt z) = Ok (PyFloat.of_Z z).
Proof.
  unfold PyNum.to_float. destruct (PyFloat.of_Z z); try discriminate;
    reflexivity.
Qed.

(** The true division of an integer of magnitude at most [2^80] by
    3600. *)
Lemma int_true_divide_mag (a : Z) :
  IZR (Z.abs a) <= 1208925819614629174706176 ->
  let f := PyNum.int_true_divide a 3600 in
  is_fin f = true /\ sgn f = (a <? 0)%Z /\
  IZR (Z.abs a) / 3600 - (u52 * (IZR (Z.abs a) / 3600) + eta) <= mag f
  <= IZR (Z.abs a) / 3600 + (u52 * (IZR (Z.abs a) / 3600) + eta).
Proof.
  intros Ha f. pose proof eta_pos as He. pose proof u52_pos as Hu.
  pose proof bpow_971_ge as B.
  assert (K : forall s p,
             IZR (Z.pos p) <= 1208925819614629174706176 ->
             let g := PyFloat.div (S754_finite s p 0)
                                  (S754_finite false 3600 0) in
             is_fin g = true /\ sgn g = s /\
             IZR (Z.pos p) / 3600 - (u52 * (IZR (Z.pos p) / 3600) + eta)
             <= mag g
             <= IZR (Z.pos p) / 3600 + (u52 * (IZR (Z.pos p) / 3600) + eta)).
  { intros s p Hp g. unfold g.
    assert (M1 : mag (S754_finite s p 0) = IZR (Z.pos p))
      by (simpl; change (bpow 0) with 1; ring).
    assert (M2 : mag (S754_finite false 3600 0) = 3600)
      by (simpl; change (bpow 0) with 1; ring).
    destruct (div_mag (S754_finite s p 0) false 3600 0 eq_refl)
      as (F & S & Hb).
    - rewrite M1, M2. assert (0 < IZR (Z.pos p)) by (apply IZR_lt; lia). lra.
    - rewrite M1, M2 in Hb. split; [exact F |]. split; [| exact Hb].
      rewrite S. cbn [sgn]. apply xorb_false_r. }
  destruct a as [| p | p].
  - unfold f. simpl. unfold Rdiv. rewrite !Rmult_0_l, Rmult_0_r.
    repeat split; lra.
  - exact (K false p Ha).
  - exact (K true p Ha).
Qed.

Lemma truediv_int_3600 (a : Z) :
  is_fin (PyNum.int_true_divide a 3600) = true ->
  PyNum.truediv (PyInt a) (PyInt 3600)
  = Ok (PyFloat (PyNum.int_true_divide a 3600)).
Proof.
  unfold PyNum.truediv. change (3600 =? 0)%Z with false. cbv iota.
  destruct (PyNum.int_true_divide a 3600); try discriminate; reflexivity.
Qed.

Tactic Notation "by_itd" constr(a) ident(F) ident(S) ident(B) :=
  destruct (int_true_divide_mag a ltac:(lra)) as (F & S & B);
  rewrite u52_eq in B.

Tactic Notation "by_of_Z" constr(a) ident(F) ident(S) ident(B) :=
  destruct (of_Z_mag a ltac:(lra)) as (F & S & B);
  rewrite u52_eq in B.

Lemma IZR_sign_abs (z : Z) :
  IZR z = if (z <? 0)%Z then - IZR (Z.abs z) else IZR (Z.abs z).
Proof.
  destruct (Z.ltb_spec z 0).
  - rewrite <- opp_IZR. f_equal. lia.
  - f_equal. lia.
Qed.

Ltac conclude_int z S :=
  unfold F2R; rewrite S; rewrite (IZR_sign_abs z);
  destruct (z <? 0)%Z; apply Rabs_le; unfold tolerance; lra.

Lemma round_trip_int (a b : angle_unit) (z : Z) :
  a <> b -> IZR (Z.abs z) <= 4194304 ->
  exists (y : num) (w : spec_float),
    convert a b (PyInt z) = Ok y /\
    convert b a y = Ok (PyFloat w) /\
    is_fin w = true /\
    Rabs (F2R w - IZR z) <= tolerance a.
Proof.
  intros Hab Hz.
  pose proof eta_le as He. pose proof eta_pos as He0.
  pose proof PI2_3_2 as Hpi.
  assert (X0 : 0 <= IZR (Z.abs z)) by (apply IZR_le; lia).
  destruct a, b; try (contradiction Hab; reflexivity); cbn [convert].
  - (* arcsec -> degree -> arcsec *)
    by_itd z F1 S1 B1.
    by_mul (PyNum.int_true_divide z 3600) c3600 mag_c3600 F2 S2 B2.
    eexists; eexists.
    split; [exact (truediv_int_3600 z F1) |].
    split; [apply Degrees_To_Arcsec_float |].
    split; [exact F2 |]. rewrite S1 in S2. conclude_int z S2.
  - (* arcsec -> radian -> arcsec *)
    by_itd z F1 S1 B1.
    by_mul (PyNum.int_true_divide z 3600) PyFloat.degToRad mag_degToRad
           F2 S2 B2.
    rewrite S1 in S2.
    by_mul (PyFloat.mul (PyNum.int_true_divide z 3600) PyFloat.degToRad)
           PyFloat.radToDeg mag_radToDeg F3 S3 B3.
    rewrite S2 in S3.
    by_mul (PyFloat.mul
              (PyFloat.mul (PyNum.int_true_divide z 3600) PyFloat.degToRad)
              PyFloat.radToDeg) c3600 mag_c3600 F4 S4 B4.
    rewrite S3 in S4.
    eexists; eexists.
    split.
    { unfold ArcSec_To_Radians. rewrite (truediv_int_3600 z F1). reflexivity. }
    split; [apply Radians_To_Arcsec_float |].
    split; [exact F4 |]. conclude_int z S4.
  - (* degree -> arcsec -> degree *)
    assert (A : IZR (Z.abs (z * 3600)) = IZR (Z.abs z) * 3600).
    { rewrite Z.abs_mul, mult_IZR. reflexivity. }
    assert (Sg : ((z * 3600 <? 0) = (z <? 0))%Z).
    { destruct (Z.ltb_spec (z * 3600) 0), (Z.ltb_spec z 0); try reflexivity;
        lia. }
    destruct (int_true_divide_mag (z * 3600) ltac:(lra)) as (F1 & S1 & B1).
    rewrite u52_eq, A in B1. rewrite Sg in S1.
    eexists; eexists.
    split; [reflexivity |].
    split; [exact (truediv_int_3600 (z * 3600) F1) |].
    split; [exact F1 |]. conclude_int z S1.
  - (* degree -> radian -> degree *)
    by_of_Z z F1 S1 B1.
    by_mul (PyFloat.of_Z z) PyFloat.degToRad mag_degToRad F2 S2 B2.
    rewrite S1 in S2.
    by_mul (PyFloat.mul (PyFloat.of_Z z) PyFloat.degToRad) PyFloat.radToDeg
           mag_radToDeg F3 S3 B3.
    rewrite S2 in S3.
    eexists; eexists.
    split.
    { unfold Degrees_To_Radians, PyNum.math_radians.
      rewrite (to_float_int z F1). reflexivity. }
    split; [apply Radians_To_Degrees_float |].
    split; [exact F3 |]. conclude_int z S3.
  - (* radian -> arcsec -> radian *)
    by_of_Z z F1 S1 B1.
    by_mul (PyFloat.of_Z z) PyFloat.radToDeg mag_radToDeg F2 S2 B2.
    rewrite S1 in S2.
    by_mul (PyFloat.mul (PyFloat.of_Z z) PyFloat.radToDeg) c3600 mag_c3600
           F3 S3 B3.
    rewrite S2 in S3.
    by_div (PyFloat.mul (PyFloat.mul (PyFloat.of_Z z) PyFloat.radToDeg) c3600)
           F4 S4 B4.
    rewrite S3 in S4.
    by_mul (PyFloat.div
              (PyFloat.mul (PyFloat.mul (PyFloat.of_Z z) PyFloat.radToDeg)
                 c3600) c3600) PyFloat.degToRad mag_degToRad F5 S5 B5.
    rewrite S4 in S5.
    eexists; eexists.
    split.
    { unfold Radians_To_Arcsec, PyNum.math_degrees.
      rewrite (to_float_int z F1). cbn [rbind].
      fold (Degrees_To_Arcsec
              (PyFloat (PyFloat.mul (PyFloat.of_Z z) PyFloat.radToDeg))).
      apply Degrees_To_Arcsec_float. }
    split; [apply ArcSec_To_Radians_float |].
    split; [exact F5 |]. conclude_int z S5.
  - (* radian -> degree -> radian *)
    by_of_Z z F1 S1 B1.
    by_mul (PyFloat.of_Z z) PyFloat.radToDeg mag_radToDeg F2 S2 B2.
    rewrite S1 in S2.
    by_mul (PyFloat.mul (PyFloat.of_Z z) PyFloat.radToDeg) PyFloat.degToRad
           mag_degToRad F3 S3 B3.
    rewrite S2 in S3.
    eexists; eexists.
    split.
    { unfold Radians_To_Degrees, PyNum.math_degrees.
      rewrite (to_float_int z F1). reflexivity. }
    split; [apply Degrees_To_Radians_float |].
    split; [exact F3 |]. conclude_int z S3.
Qed.

Lemma Rabs_F2R (f : spec_float) : Rabs (F2R f) = mag f.
Proof.
  pose proof (mag_nonneg f). unfold F2R. destruct (sgn f).
  - rewrite Rabs_Ropp. apply Rabs_pos_eq. assumption.
  - apply Rabs_pos_eq. assumption.
Qed.

(** C9.  For every ordered pair of distinct units and every valid angle
    value [x] in the first unit (an [int] or a finite float, of magnitude
    at most [2^22]), the converter to the second unit returns a number,
    the converter back returns a finite number, and that number is within
    one millionth of a degree, expressed in the first unit, of [x].  The
    converters are functions: they have no state to change, and on these
    inputs they raise nothing. *)
Theorem converters_round_trip (a b : angle_unit) (x : num) :
  a <> b -> valid_angle x ->
  exists y z : num,
    convert a b x = Ok y /\
    convert b a y = Ok z /\
    finite_num z /\
    Rabs (num_value z - num_value x) <= tolerance a.
Proof.
  intros Hab [Fx Hx]. destruct x as [n | f]; cbn [num_value finite_num] in *.
  - rewrite <- abs_IZR in Hx.
    destruct (round_trip_int a b n Hab Hx) as (y & w & C1 & C2 & Fw & E).
    exists y, (PyFloat w). repeat split; assumption.
  - rewrite Rabs_F2R in Hx.
    destruct (round_trip_float a b f Hab Fx Hx) as (y & w & C1 & C2 & Fw & E).
    exists (PyFloat y), (PyFloat w). repeat split; assumption.
Qed.

Lemma converters_round_trip_witness :
  (exists y z : num,
     convert Degree Radian (PyInt 80) = Ok y /\
     convert Radian Degree y = Ok z /\
     finite_num z /\
     Rabs (num_value z - num_value (PyInt 80)) <= tolerance Degree)
  /\
  (exists y z : num,
     convert Arcsec Degree (PyFloat (PyFloat.of_Z 288000)) = Ok y /\
     convert Degree Arcsec y = Ok z /\
     finite_num z /\
     Rabs (num_value z - num_value (PyFloat (PyFloat.of_Z 288000)))
     <= tolerance Arcsec).
Proof.
  split; apply converters_round_trip; try discriminate.
  - split; [exact I |]. cbn [num_value]. rewrite Rabs_pos_eq; lra.
  - change (PyFloat.of_Z 288000)
      with (S754_finite false 4947802324992000 (-34)).
    split; [reflexivity |]. cbn [num_value]. rewrite Rabs_F2R. unfold mag.
    change (bpow (-34)) with (bpow (Z.opp 34)).
    rewrite (bpow_neg_IZR 34) by lia.
    change (2 ^ 34)%Z with 17179869184%Z. lra.
Defined.

End RoundingError.

(** * Further properties of the driver *)

(** ** The monad *)

Lemma bind_lift_ok {A B} (v : A) (k : A -> M B) : bind (lift (Ok v)) k = k v.
Proof. reflexivity. Qed.

Lemma bind_assert_true {B} (k : unit -> M B) : bind (assert true) k = k tt.
Proof. reflexivity. Qed.

(** ** One-byte acknowledgments *)

Lemma int_one_char_cases (c : ascii) :
  PyStr.int (String c EmptyString)
  = if PyStr.is_digit c then Ok (PyStr.digit_val c) else Raise ValueError.
Proof.
  destruct c as [[] [] [] [] [] [] [] []]; vm_compute; reflexivity.
Qed.

Lemma ack_exchange_digit cmd c rest a z o w k :
  PyStr.is_digit c = true ->
  ack_exchange cmd (mkMount a z (String c rest) o w k)
  = (Ok (PyStr.digit_val c), mkMount a z rest (o ++ [cmd]) w k).
Proof.
  intros H. unfold ack_exchange. mrun.
  rewrite SendMessage_Count1_some by (apply digit_is_ascii; exact H).
  rewrite int_one_char_cases, H. reflexivity.
Qed.

Lemma ack_exchange_not_digit cmd c rest a z o w k :
  PyStr.is_digit c = false ->
  exists e,
    ack_exchange cmd (mkMount a z (String c rest) o w k)
    = (Raise e, mkMount a z rest (o ++ [cmd]) w k).
Proof.
  intros H. unfold ack_exchange. mrun.
  destruct (Serial.is_ascii c) eqn:A.
  - rewrite SendMessage_Count1_some by exact A.
    rewrite int_one_char_cases, H. exists ValueError. reflexivity.
  - rewrite SendMessage_Count1_bad by exact A.
    exists UnicodeDecodeError. reflexivity.
Qed.

Lemma ack_exchange_silent cmd a z o w k :
  ack_exchange cmd (mkMount a z EmptyString o w k)
  = (Raise ValueError, mkMount a z EmptyString (o ++ [cmd]) w k).
Proof.
  unfold ack_exchange. mrun. rewrite SendMessage_Count1_none. reflexivity.
Qed.

(** X1.  Each operation that sends a fixed command writes that command and
    nothing else, reads exactly one byte, returns the digit it read and
    leaves the staged flags alone; a byte that is no digit raises; a mount
    that sends nothing makes it raise the value error, the command having
    been written. *)
Theorem fixed_commands_exchange (op : M Z) (cmd : string) :
  In (op, cmd) fixed_commands ->
  forall (a z : bool) (rest : string) (o w : list string) (k : nat),
    (forall c, PyStr.is_digit c = true ->
       op (mkMount a z (String c rest) o w k)
       = (Ok (PyStr.digit_val c), mkMount a z rest (o ++ [cmd]) w k)) /\
    (forall c, PyStr.is_digit c = false ->
       exists e, op (mkMount a z (String c rest) o w k)
                 = (Raise e, mkMount a z rest (o ++ [cmd]) w k)) /\
    op (mkMount a z EmptyString o w k)
    = (Raise ValueError, mkMount a z EmptyString (o ++ [cmd]) w k).
Proof.
  intros H a z rest o w k.
  assert (E : op = ack_exchange cmd).
  { unfold fixed_commands in H. simpl in H.
    repeat (destruct H as [H | H];
            [injection H as <- <-; reflexivity |]).
    contradiction. }
  subst op. split; [| split].
  - intros c Hc. apply ack_exchange_digit. exact Hc.
  - intros c Hc. apply ack_exchange_not_digit. exact Hc.
  - apply ack_exchange_silent.
Qed.

Lemma fixed_commands_exchange_witness :
  Stop (mkMount true true "1" [":Sa+28800000#"] [] 0)
  = (Ok 1, mkMount true true EmptyString [":Sa+28800000#"; ":Q#"] [] 0)
  /\
  Set_DST false (mkMount false false EmptyString [] [] 0)
  = (Raise ValueError, mkMount false false EmptyString [":SDS0"] [] 0).
Proof.
  split.
  - refine (proj1 (fixed_commands_exchange Stop ":Q#" _ true true EmptyString
                     [":Sa+28800000#"] [] 0) "1"%char eq_refl).
    simpl. auto.
  - refine (proj2 (proj2 (fixed_commands_exchange (Set_DST false) ":SDS0" _
                            false false EmptyString [] [] 0))).
    simpl. auto 20.
Defined.

(** ** What the operations write and what they leave alone *)

Section Always.

Context (R : AzMountPro -> AzMountPro -> Prop).
Hypothesis R_refl : forall s, R s s.
Hypothesis R_trans : forall s1 s2 s3, R s1 s2 -> R s2 s3 -> R s1 s3.

Lemma always_ret {A} (a : A) : always R (ret a).
Proof. intros s. apply R_refl. Qed.

Lemma always_raise {A} (e : exn) : always R (@raise A e).
Proof. intros s. apply R_refl. Qed.

Lemma always_unfinished {A} : always R (@unfinished A).
Proof. intros s. apply R_refl. Qed.

Lemma always_lift {A} (r : result A) : always R (lift r).
Proof. intros s. apply R_refl. Qed.

Lemma always_assert (b : bool) : always R (assert b).
Proof. intros s. destruct b; apply R_refl. Qed.

Lemma always_bind {A B} (m : M A) (k : A -> M B) :
  always R m -> (forall a, always R (k a)) -> always R (bind m k).
Proof.
  intros Hm Hk s. specialize (Hm s). unfold bind.
  destruct (m s) as [[a | e |] s1]; cbn [snd] in *; try exact Hm.
  eapply R_trans; [exact Hm | apply Hk].
Qed.

End Always.

Lemma wrote_refl P s : wrote P s s.
Proof. exists []. rewrite app_nil_r. split; [reflexivity | constructor]. Qed.

Lemma wrote_trans P s1 s2 s3 : wrote P s1 s2 -> wrote P s2 s3 -> wrote P s1 s3.
Proof.
  intros (l1 & E1 & F1) (l2 & E2 & F2). exists (l1 ++ l2)%list.
  rewrite E2, E1, app_assoc. split; [reflexivity |].
  apply Forall_app. split; assumption.
Qed.

Lemma same_flags_refl s : same_flags s s.
Proof. split; reflexivity. Qed.

Lemma same_flags_trans s1 s2 s3 :
  same_flags s1 s2 -> same_flags s2 s3 -> same_flags s1 s3.
Proof. intros [A1 Z1] [A2 Z2]. split; congruence. Qed.

Lemma wrote_SendMessage (P : string -> Prop) cmd exp :
  P cmd -> always (wrote P) (_SendMessage cmd exp).
Proof.
  intros H s. destruct (SendMessage_frame cmd exp s) as (_ & _ & Fo & _).
  exists [cmd]. split; [exact Fo | repeat constructor; exact H].
Qed.

Lemma flags_SendMessage cmd exp : always same_flags (_SendMessage cmd exp).
Proof.
  intros s. destruct (SendMessage_frame cmd exp s) as (Fa & Fz & _).
  split; assumption.
Qed.

Lemma wrote_same_out P s s' : port_out s' = port_out s -> wrote P s s'.
Proof.
  intros E. exists []. rewrite app_nil_r. split; [exact E | constructor].
Qed.

Lemma wrote_time_sleep P : always (wrote P) time_sleep.
Proof. intros s. apply wrote_same_out. reflexivity. Qed.

Lemma flags_time_sleep : always same_flags time_sleep.
Proof. intros s. split; reflexivity. Qed.

Lemma wrote_logger_warning P msg : always (wrote P) (logger_warning msg).
Proof. intros s. apply wrote_same_out. reflexivity. Qed.

Lemma wrote_set_new_Alt P b : always (wrote P) (set_new_Alt b).
Proof. intros s. apply wrote_same_out. reflexivity. Qed.

Lemma wrote_set_new_Az P b : always (wrote P) (set_new_Az b).
Proof. intros s. apply wrote_same_out. reflexivity. Qed.

Lemma wrote_get_new_Alt P : always (wrote P) get_new_Alt.
Proof. intros s. apply wrote_same_out. reflexivity. Qed.

Lemma wrote_get_new_Az P : always (wrote P) get_new_Az.
Proof. intros s. apply wrote_same_out. reflexivity. Qed.

(** Splits a method into its steps; [leaf] closes the steps it knows. *)
Ltac steps leaf R_refl R_trans :=
  repeat first
    [ leaf
    | apply (always_ret _ R_refl)
    | apply (always_raise _ R_refl)
    | apply (always_unfinished _ R_refl)
    | apply (always_lift _ R_refl)
    | apply (always_assert _ R_refl)
    | match goal with
      | |- always _ (if ?b then _ else _) => destruct b
      | |- always _ (let '(_, _) := ?p in _) => destruct p
      end
    | apply (always_bind _ R_trans); [| intro] ].

Ltac sends_with P leaf :=
  steps ltac:(first [ leaf
                    | apply wrote_SendMessage
                    | apply wrote_time_sleep | apply wrote_logger_warning
                    | apply wrote_set_new_Alt | apply wrote_set_new_Az
                    | apply wrote_get_new_Alt | apply wrote_get_new_Az ])
        (wrote_refl P) (wrote_trans P).

Ltac sends P := sends_with P fail.

Ltac keeps_with leaf :=
  steps ltac:(first [ leaf | apply flags_SendMessage | apply flags_time_sleep ])
        same_flags_refl same_flags_trans.

Ltac keeps := keeps_with fail.

(** The command of a set-target operation is no status query, no position
    query and no move command. *)
Lemma altitude_cmd_prefix v : exists t, altitude_cmd v = ":Sa" ++ t.
Proof. unfold altitude_cmd. eexists. reflexivity. Qed.

Lemma azimuth_cmd_prefix v : exists t, azimuth_cmd v = ":Sz" ++ t.
Proof. unfold azimuth_cmd. eexists. reflexivity. Qed.

Lemma Go_AltAz_sends altitude azimuth units :
  always (wrote move_command) (Go_AltAz altitude azimuth units).
Proof.
  unfold Go_AltAz, Set_AltAz, _Set_Altitude, _Set_Azimuth, _Move.
  sends move_command.
  - left. apply altitude_cmd_prefix.
  - right. left. apply azimuth_cmd_prefix.
  - right. right. reflexivity.
Qed.

Lemma Get_AltAz_sends units :
  always (wrote (fun c => c = ":GAC#")) (Get_AltAz units).
Proof.
  unfold Get_AltAz. sends (fun c : string => c = ":GAC#"). reflexivity.
Qed.

Lemma Go_Blocking_loop_sends fuel altitude azimuth :
  always (wrote (fun c => c = ":GAC#")) (Go_Blocking_loop fuel altitude azimuth).
Proof.
  induction fuel as [| fuel IH]; simpl.
  - apply always_unfinished. apply wrote_refl.
  - unfold Is_At_AltAz.
    sends_with (fun c : string => c = ":GAC#")
               ltac:(first [ apply Get_AltAz_sends | exact IH ]).
Qed.

Lemma wrote_weaken (P Q : string -> Prop) s s' :
  (forall c, P c -> Q c) -> wrote P s s' -> wrote Q s s'.
Proof.
  intros H (l & E & F). exists l. split; [exact E |].
  eapply Forall_impl; [exact H | exact F].
Qed.

(** X2.  [Go_Blocking] writes the two set commands, the move command and
    position queries: whatever the mount answers and however long it
    polls, it never writes the status query. *)
Theorem Go_Blocking_never_queries_status
    (fuel : nat) (altitude azimuth : num) (units : string) :
  always (wrote (fun c => move_command c \/ c = ":GAC#"))
         (Go_Blocking fuel altitude azimuth units)
  /\ forall s, ~ In ":GAS#" (skipn (List.length (port_out s))
                   (port_out (snd (Go_Blocking fuel altitude azimuth units s)))).
Proof.
  assert (A : always (wrote (fun c => move_command c \/ c = ":GAC#"))
                (Go_Blocking fuel altitude azimuth units)).
  { unfold Go_Blocking.
    sends_with (fun c : string => move_command c \/ c = ":GAC#")
      ltac:(first
        [ intros s; eapply wrote_weaken; [| apply Go_AltAz_sends];
          solve [auto]
        | intros s; eapply wrote_weaken; [| apply Go_Blocking_loop_sends];
          solve [auto] ]). }
  split; [exact A |].
  intros s. destruct (A s) as (l & E & F). rewrite E.
  rewrite skipn_app, skipn_all, Nat.sub_diag. simpl.
  intros Hin. rewrite Forall_forall in F. specialize (F _ Hin).
  destruct F as [[(t & Ht) | [(t & Ht) | Ht]] | Ht]; discriminate Ht.
Qed.

(** ** The staged target and the other operations *)

Lemma target_untouched_refl s : target_untouched s s.
Proof. split; [apply same_flags_refl | apply wrote_refl]. Qed.

Lemma target_untouched_trans s1 s2 s3 :
  target_untouched s1 s2 -> target_untouched s2 s3 -> target_untouched s1 s3.
Proof.
  intros [F1 W1] [F2 W2]. split.
  - eapply same_flags_trans; eassumption.
  - eapply wrote_trans; eassumption.
Qed.

Lemma untouched_SendMessage cmd exp :
  ~ move_command cmd -> always target_untouched (_SendMessage cmd exp).
Proof.
  intros H s. split; [apply flags_SendMessage | apply wrote_SendMessage].
  exact H.
Qed.

Lemma untouched_time_sleep : always target_untouched time_sleep.
Proof.
  intros s. split; [apply flags_time_sleep | apply wrote_time_sleep].
Qed.

Ltac not_move :=
  let H := fresh in
  intros H;
  unfold latitude_cmd, longitude_cmd, time_offset_cmd in H; simpl in H;
  destruct H as [[? H] | [[? H] | H]]; discriminate H.

Ltac untouched_with leaf :=
  steps ltac:(first [ leaf
                    | apply untouched_SendMessage; [not_move]
                    | apply untouched_time_sleep ])
        target_untouched_refl target_untouched_trans.

Ltac untouched := untouched_with fail.

Lemma dict_get_In (d : list (string * string)) (key v : string) :
  dict_get d key = Ok v -> In (key, v) d.
Proof.
  induction d as [| [k' v'] d IH]; simpl; [discriminate |].
  destruct (String.eqb_spec key k') as [-> | N].
  - intros H. injection H as ->. left. reflexivity.
  - intros H. right. apply IH. exact H.
Qed.

Lemma KeyPad_untouched direction : always target_untouched (KeyPad direction).
Proof.
  intros s. unfold KeyPad, bind, lift.
  destruct (dict_get directions direction) as [cmd | e |] eqn:D;
    cbn [snd]; try apply target_untouched_refl.
  apply dict_get_In in D. simpl in D.
  assert (N : ~ move_command cmd).
  { destruct D as [D | [D | [D | [D | []]]]]; injection D as _ <-;
      not_move. }
  pose proof (untouched_SendMessage cmd (Count 0) N s) as U.
  destruct (_SendMessage cmd (Count 0) s) as [[r | e |] s1]; exact U.
Qed.

Lemma Get_StatusInfo_untouched readable :
  always target_untouched (Get_StatusInfo readable).
Proof. unfold Get_StatusInfo. untouched. Qed.

Lemma Get_AltAz_untouched units : always target_untouched (Get_AltAz units).
Proof. unfold Get_AltAz. untouched. Qed.

Lemma Is_Homed_untouched : always target_untouched Is_Homed.
Proof.
  unfold Is_Homed. untouched_with ltac:(apply Get_StatusInfo_untouched).
Qed.

Lemma Go_Home_loop_untouched fuel : always target_untouched (Go_Home_loop fuel).
Proof.
  induction fuel as [| fuel IH]; simpl.
  - apply always_unfinished. apply target_untouched_refl.
  - untouched_with ltac:(first [ apply Is_Homed_untouched | exact IH ]).
Qed.

Lemma ack_exchange_untouched cmd :
  ~ move_command cmd -> always target_untouched (ack_exchange cmd).
Proof.
  intros N. unfold ack_exchange.
  untouched_with ltac:(apply untouched_SendMessage; exact N).
Qed.

(** X3.  The staged target survives every operation but the set-target and
    move operations: whatever the mount answers, the queries, the other
    setters, the keypad, homing and the operations that send a fixed
    command leave both staged flags as they were and write no set-target
    command and no move command. *)
Theorem staged_target_untouched :
  (forall units, always target_untouched (Get_AltAz units)) /\
  (forall units, always target_untouched (Get_AltLimit units)) /\
  always target_untouched Get_FirmwareVersion /\
  always target_untouched Get_LatLong /\
  (forall readable, always target_untouched (Get_StatusInfo readable)) /\
  (forall datetime parse,
     always target_untouched (Get_TimeInfo datetime parse)) /\
  (forall limit units, always target_untouched (Set_AltLimit limit units)) /\
  (forall latitude units,
     always target_untouched (Set_Latitude latitude units)) /\
  (forall longitude units,
     always target_untouched (Set_Longitude longitude units)) /\
  (forall rate, always target_untouched (Set_MoveRate rate)) /\
  (forall mode, always target_untouched (Set_TrackRate mode)) /\
  (forall minutes, always target_untouched (Set_TimeOffset minutes)) /\
  (forall direction, always target_untouched (KeyPad direction)) /\
  (forall altitude azimuth margin units,
     always target_untouched (Is_At_AltAz altitude azimuth margin units)) /\
  always target_untouched Is_Homed /\
  always target_untouched Is_Slewing /\
  always target_untouched Is_Stopped /\
  always target_untouched Is_Tracking /\
  (forall fuel, always target_untouched (Go_Home fuel)) /\
  (forall op cmd, In (op, cmd) fixed_commands ->
     always target_untouched op).
Proof.
  repeat match goal with |- _ /\ _ => split end; intros.
  - apply Get_AltAz_untouched.
  - unfold Get_AltLimit. untouched.
  - unfold Get_FirmwareVersion. untouched.
  - unfold Get_LatLong. untouched.
  - apply Get_StatusInfo_untouched.
  - unfold Get_TimeInfo. untouched.
  - unfold Set_AltLimit. untouched.
  - unfold Set_Latitude. untouched.
  - unfold Set_Longitude. untouched.
  - unfold Set_MoveRate. untouched.
  - unfold Set_TrackRate. untouched.
  - unfold Set_TimeOffset. untouched.
  - apply KeyPad_untouched.
  - unfold Is_At_AltAz. untouched_with ltac:(apply Get_AltAz_untouched).
  - apply Is_Homed_untouched.
  - unfold Is_Slewing. untouched_with ltac:(apply Get_StatusInfo_untouched).
  - unfold Is_Stopped. untouched_with ltac:(apply Get_StatusInfo_untouched).
  - unfold Is_Tracking. untouched_with ltac:(apply Get_StatusInfo_untouched).
  - unfold Go_Home.
    untouched_with ltac:(apply Go_Home_loop_untouched).
  - assert (E : op = ack_exchange cmd /\ ~ move_command cmd).
    { unfold fixed_commands in H. simpl in H.
      repeat (destruct H as [H | H];
              [injection H as <- <-; split; [reflexivity | not_move] |]).
      contradiction. }
    destruct E as [-> N]. apply ack_exchange_untouched. exact N.
Qed.

Lemma staged_target_untouched_witness :
  always target_untouched Stop.
Proof.
  refine (proj2 (proj2 (proj2 (proj2 (proj2 (proj2 (proj2 (proj2 (proj2
           (proj2 (proj2 (proj2 (proj2 (proj2 (proj2 (proj2 (proj2 (proj2
           (proj2 staged_target_untouched))))))))))))))))))
           Stop ":Q#" _).
  simpl. auto.
Defined.

(** ** Homing *)

Lemma append_assoc_hash (b r t : string) :
  b ++ String "#" (r ++ t) = (b ++ String "#" r) ++ t.
Proof. induction b as [| c b IH]; simpl; [reflexivity | now rewrite IH]. Qed.


Lemma Get_StatusInfo_packed_body body rest a z o w k :
  PyStr.all_digits body = true ->
  Get_StatusInfo false (mkMount a z (body ++ String "#" rest) o w k)
  = (Ok (Packed body), mkMount a z rest (o ++ [":GAS#"]) w k).
Proof.
  intros H. destruct (all_digits_no_hash _ H) as [Hn Ha].
  unfold Get_StatusInfo. mrun. rewrite (SendMessage_hash _ _ _ _ _ _ _ _ Hn Ha).
  rewrite slice_drop_last. reflexivity.
Qed.

Lemma Is_Homed_on P body rest a z o w k :
  status_with P body = true ->
  exists c, String.get 1 body = Some c /\ P c = true /\
    Is_Homed (mkMount a z (body ++ String "#" rest) o w k)
    = (Ok (is_home_digit c), mkMount a z rest (o ++ [":GAS#"]) w k).
Proof.
  unfold status_with. intros H. apply andb_true_iff in H. destruct H as [D G].
  destruct (String.get 1 body) as [c |] eqn:E; [| discriminate].
  exists c. split; [reflexivity |]. split; [exact G |].
  unfold Is_Homed. unfold bind at 1.
  rewrite (Get_StatusInfo_packed_body _ _ _ _ _ _ _ D).
  unfold subscript_1, PyStr.index. rewrite E. mrun.
  rewrite eqb_one_char. reflexivity.
Qed.

Lemma app_repeat_S (o : list string) (c : string) (n : nat) :
  ((o ++ [c]) ++ List.repeat c n)%list = (o ++ List.repeat c (S n))%list.
Proof. rewrite <- app_assoc. reflexivity. Qed.

Lemma Go_Home_loop_returns (waits : list string) :
  forall home rest a z o w k fuel,
    forallb (status_with (fun c => negb (is_home_digit c))) waits = true ->
    status_with is_home_digit home = true ->
    (List.length waits < fuel)%nat ->
    Go_Home_loop fuel
      (mkMount a z (replies waits ++ home ++ String "#" rest) o w k)
    = (Ok tt, mkMount a z rest
                (o ++ List.repeat ":GAS#" (S (List.length waits))) w
                (k + List.length waits)).
Proof.
  induction waits as [| b ws IH]; intros home rest a z o w k fuel Hw Hh Hf.
  - destruct fuel as [| fuel]; [simpl in Hf; lia |].
    cbn [replies append List.length Go_Home_loop].
    destruct (Is_Homed_on _ home rest a z o w k Hh) as (c & _ & Hc & E).
    unfold bind at 1. rewrite E, Hc. mrun.
    rewrite Nat.add_0_r. reflexivity.
  - destruct fuel as [| fuel]; [simpl in Hf; lia |].
    cbn [forallb] in Hw. apply andb_true_iff in Hw. destruct Hw as [Hb Hws].
    cbn [replies List.length Go_Home_loop].
    rewrite <- append_assoc_hash.
    destruct (Is_Homed_on _ b (replies ws ++ home ++ String "#" rest)
                a z o w k Hb) as (c & _ & Hc & E).
    unfold bind at 1. rewrite E. apply negb_true_iff in Hc. rewrite Hc. mrun.
    rewrite (IH home rest a z (o ++ [":GAS#"])%list w (S k) fuel Hws Hh)
      by (simpl in Hf; lia).
    rewrite app_repeat_S. do 2 f_equal. lia.
Qed.

Lemma Go_Home_loop_unfinished (waits : list string) :
  forall rest a z o w k,
    forallb (status_with (fun c => negb (is_home_digit c))) waits = true ->
    Go_Home_loop (List.length waits)
      (mkMount a z (replies waits ++ rest) o w k)
    = (Unfinished, mkMount a z rest
                     (o ++ List.repeat ":GAS#" (List.length waits)) w
                     (k + List.length waits)).
Proof.
  induction waits as [| b ws IH]; intros rest a z o w k Hw.
  - cbn [replies append List.length Go_Home_loop List.repeat].
    rewrite app_nil_r, Nat.add_0_r. reflexivity.
  - cbn [forallb] in Hw. apply andb_true_iff in Hw. destruct Hw as [Hb Hws].
    cbn [replies List.length Go_Home_loop].
    rewrite <- append_assoc_hash.
    destruct (Is_Homed_on _ b (replies ws ++ rest) a z o w k Hb)
      as (c & _ & Hc & E).
    unfold bind at 1. rewrite E. apply negb_true_iff in Hc. rewrite Hc. mrun.
    rewrite (IH rest a z (o ++ [":GAS#"])%list w (S k) Hws).
    rewrite app_repeat_S. do 2 f_equal. lia.
Qed.

(** X4.  [Go_Home] sends the home command, reads its one-digit reply, and then
    polls the status: for every status reply whose system-state digit is
    not 7 it sleeps and polls again, and it returns the home reply at the
    first status reply whose digit is 7.  The home reply itself is not
    looked at, and while no reply has the digit 7 the loop goes on: there
    is no bound on the number of polls in the code. *)
Theorem Go_Home_polls_until_home
    (waits : list string) (home rest : string) (d : ascii)
    (a z : bool) (o w : list string) (k : nat) :
  forallb (status_with (fun c => negb (is_home_digit c))) waits = true ->
  status_with is_home_digit home = true ->
  PyStr.is_digit d = true ->
  (forall fuel, (List.length waits < fuel)%nat ->
     Go_Home fuel
       (mkMount a z (String d (replies waits ++ home ++ String "#" rest))
                o w k)
     = (Ok (PyStr.digit_val d),
        mkMount a z rest
          (o ++ ":MH#" :: List.repeat ":GAS#" (S (List.length waits))) w
          (k + List.length waits)))
  /\
  Go_Home (List.length waits)
    (mkMount a z (String d (replies waits ++ rest)) o w k)
  = (Unfinished,
     mkMount a z rest
       (o ++ ":MH#" :: List.repeat ":GAS#" (List.length waits)) w
       (k + List.length waits)).
Proof.
  intros Hw Hh Hd.
  assert (A : forall t,
             _SendMessage ":MH#" (Count 1) (mkMount a z (String d t) o w k)
             = (Ok (String d EmptyString),
                mkMount a z t (o ++ [":MH#"]) w k)).
  { intros t. apply SendMessage_Count1_some. apply digit_is_ascii. exact Hd. }
  split.
  - intros fuel Hf. unfold Go_Home. unfold bind at 1. rewrite A. mrun.
    rewrite int_one_char_cases, Hd.
    rewrite (Go_Home_loop_returns waits home rest a z _ w k fuel Hw Hh Hf).
    rewrite <- app_assoc. reflexivity.
  - unfold Go_Home. unfold bind at 1. rewrite A. mrun.
    rewrite int_one_char_cases, Hd.
    rewrite (Go_Home_loop_unfinished waits rest a z _ w k Hw).
    rewrite <- app_assoc. reflexivity.
Qed.

Lemma Go_Home_polls_until_home_witness :
  Go_Home 3 (mkMount false false "0020911#020911#070911#" [] [] 0)
  = (Ok 0, mkMount false false EmptyString
             [":MH#"; ":GAS#"; ":GAS#"; ":GAS#"] [] 2).
Proof.
  exact (proj1 (Go_Home_polls_until_home ["020911"; "020911"] "070911"
                  EmptyString "0" false false [] [] 0 eq_refl eq_refl eq_refl)
               3%nat (le_n 3)).
Defined.

(** ** The commands of a successful initialisation *)

Lemma bind_ok_inv {A B} (m : M A) (k : A -> M B) s v s' :
  bind m k s = (Ok v, s') ->
  exists a s1, m s = (Ok a, s1) /\ k a s1 = (Ok v, s').
Proof.
  unfold bind. destruct (m s) as [[a | e |] s1]; intros H;
    try discriminate H.
  exists a, s1. split; [reflexivity | exact H].
Qed.

Lemma emits_bind {A B} (m : M A) (k : A -> M B) Q1 Q2 (Q : list string -> Prop) :
  emits m Q1 -> (forall a, emits (k a) Q2) ->
  (forall l1 l2, Q1 l1 -> Q2 l2 -> Q (l1 ++ l2)%list) ->
  emits (bind m k) Q.
Proof.
  intros Hm Hk HQ s v s' E.
  destruct (bind_ok_inv _ _ _ _ _ E) as (a & s1 & E1 & E2).
  destruct (Hm _ _ _ E1) as (l1 & O1 & Q1l).
  destruct (Hk a _ _ _ E2) as (l2 & O2 & Q2l).
  exists (l1 ++ l2)%list. rewrite O2, O1, app_assoc. split; [reflexivity |].
  apply HQ; assumption.
Qed.

Lemma emits_bind_eq {A B} (m : M A) (k : A -> M B) l1 l2 l :
  emits m (eq l1) -> (forall a, emits (k a) (eq l2)) ->
  l = (l1 ++ l2)%list ->
  emits (bind m k) (eq l).
Proof.
  intros Hm Hk ->. eapply emits_bind; [exact Hm | exact Hk |].
  intros ? ? <- <-. reflexivity.
Qed.

Lemma emits_silent {A} (m : M A) :
  (forall s, port_out (snd (m s)) = port_out s) -> emits m (eq []).
Proof.
  intros H s v s' E. exists []. rewrite app_nil_r. split; [| reflexivity].
  rewrite <- (H s), E. reflexivity.
Qed.

Lemma emits_SendMessage cmd exp : emits (_SendMessage cmd exp) (eq [cmd]).
Proof.
  intros s v s' E. exists [cmd]. split; [| reflexivity].
  destruct (SendMessage_frame cmd exp s) as (_ & _ & Fo & _).
  rewrite E in Fo. exact Fo.
Qed.

Ltac emit_leaf :=
  first [ apply emits_SendMessage
        | apply emits_silent; intros ?;
          match goal with
          | |- context [assert ?b] => destruct b
          | |- context [lift ?r] => idtac
          | _ => idtac
          end; reflexivity ].

Ltac emit_with leaf :=
  repeat first
    [ leaf
    | emit_leaf
    | eapply emits_bind_eq; [| intro |] ];
  try reflexivity.

Lemma ack_exchange_emits cmd : emits (ack_exchange cmd) (eq [cmd]).
Proof. unfold ack_exchange. emit_with fail. Qed.

Lemma Get_FirmwareVersion_emits :
  emits Get_FirmwareVersion (eq [":FW1#"; ":FW2#"]).
Proof. unfold Get_FirmwareVersion. emit_with fail. Qed.

Lemma Get_StatusInfo_readable_emits :
  emits (Get_StatusInfo true) (eq [":GAS#"]).
Proof. unfold Get_StatusInfo. emit_with fail. Qed.

Lemma Get_StatusInfo_packed_emits :
  emits (Get_StatusInfo false) (eq [":GAS#"]).
Proof. unfold Get_StatusInfo. emit_with fail. Qed.

Lemma Get_TimeInfo_emits datetime parse :
  emits (Get_TimeInfo datetime parse) (eq [":GLT#"]).
Proof. unfold Get_TimeInfo. emit_with fail. Qed.

Lemma Get_LatLong_emits : emits Get_LatLong (eq [":Gt#"; ":Gg#"]).
Proof. unfold Get_LatLong. emit_with fail. Qed.

Lemma Is_Homed_emits : emits Is_Homed (eq [":GAS#"]).
Proof.
  unfold Is_Homed. emit_with ltac:(apply Get_StatusInfo_packed_emits).
Qed.

Lemma Go_Home_loop_emits fuel :
  emits (Go_Home_loop fuel)
        (fun l => exists n, l = List.repeat ":GAS#" (S n)).
Proof.
  induction fuel as [| fuel IH]; simpl.
  - intros s v s' E. discriminate E.
  - apply (emits_bind _ _ (eq [":GAS#"])
             (fun l => l = [] \/ exists n, l = List.repeat ":GAS#" (S n))).
    + apply Is_Homed_emits.
    + intros homed. destruct homed.
      * intros s v s' E. exists []. rewrite app_nil_r.
        split; [| left; reflexivity].
        inversion E. reflexivity.
      * apply (emits_bind _ _ (eq [])
                 (fun l => exists n, l = List.repeat ":GAS#" (S n))).
        -- apply emits_silent. reflexivity.
        -- intros _. exact IH.
        -- intros l1 l2 <- H. right. exact H.
    + intros l1 l2 <- [-> | (n & ->)].
      * exists 0%nat. reflexivity.
      * exists (S n). reflexivity.
Qed.

Lemma emits_weaken {A} (m : M A) (Q Q' : list string -> Prop) :
  emits m Q -> (forall l, Q l -> Q' l) -> emits m Q'.
Proof.
  intros H W s v s' E. destruct (H _ _ _ E) as (l & O & Ql).
  exists l. split; [exact O | apply W; exact Ql].
Qed.

Lemma emits_bind_then {A B} (m : M A) (k : A -> M B) l1
    (Q : list string -> Prop) :
  emits m (eq l1) ->
  (forall a, emits (k a) (fun l2 => Q (l1 ++ l2)%list)) ->
  emits (bind m k) Q.
Proof.
  intros Hm Hk. eapply emits_bind; [exact Hm | exact Hk |].
  intros ? l2 <- H. exact H.
Qed.

Lemma Go_Home_emits fuel :
  emits (Go_Home fuel)
        (fun l => exists n, l = ":MH#" :: List.repeat ":GAS#" (S n)).
Proof.
  unfold Go_Home.
  apply (emits_bind_then _ _ [":MH#"]); [apply emits_SendMessage |].
  intros r. apply (emits_bind_then _ _ []);
    [apply emits_silent; reflexivity |].
  intros home_Reply.
  eapply emits_bind;
    [apply Go_Home_loop_emits | intros _; apply emits_silent; reflexivity |].
  intros l1 l2 (n & ->) <-. exists n. rewrite app_nil_r. reflexivity.
Qed.

Lemma Track_emits b :
  emits (Track b) (eq [if b then ":ST1#" else ":ST0#"]).
Proof. unfold Track. emit_with fail. Qed.

Lemma Set_MoveRate_max : Set_MoveRate "max" = ack_exchange ":SR9#".
Proof. reflexivity. Qed.

Lemma Set_AltLimit_init :
  Set_AltLimit (PyInt (-89)) "degrees" = ack_exchange ":SAL-89#".
Proof. reflexivity. Qed.

Lemma ends_bind {A B} (m : M A) (k : A -> M B) P :
  (forall a, ends (k a) P) -> ends (bind m k) P.
Proof.
  intros H s v s' E.
  destruct (bind_ok_inv _ _ _ _ _ E) as (a & s1 & _ & E2).
  exact (H a _ _ _ E2).
Qed.

Lemma Go_Home_untouched fuel : always target_untouched (Go_Home fuel).
Proof.
  unfold Go_Home. untouched_with ltac:(apply Go_Home_loop_untouched).
Qed.

(** X5.  A successful initialisation writes the two handshake queries, the
    firmware queries, tracking off, the maximum move rate, the altitude
    limit of -89 degrees, the status, time and position queries and the
    homing command, in this order, then only status polls (at least one);
    it leaves both staged flags false. *)
Theorem init_success_commands
    (datetime : Type) (dateutil_parse : string -> result datetime)
    (fuel : nat) (input : string) (s' : AzMountPro) :
  __init__ datetime dateutil_parse fuel (opened input) = (Ok tt, s') ->
  (exists n, port_out s' = (init_commands ++ List.repeat ":GAS#" (S n))%list)
  /\ new_Alt s' = false /\ new_Az s' = false.
Proof.
  intros E. split.
  - assert (H : emits (__init__ datetime dateutil_parse fuel)
                  (fun l => exists n,
                     l = (init_commands ++ List.repeat ":GAS#" (S n))%list)).
    { unfold __init__.
      rewrite Set_MoveRate_max, Set_AltLimit_init.
      apply (emits_bind_then _ _ [":V#"]); [apply emits_SendMessage |].
      intros version.
      apply (emits_bind_then _ _ [":MountInfo#"]); [apply emits_SendMessage |].
      intros model.
      apply (emits_bind_then _ _ []);
        [apply emits_silent; intros s0;
         destruct (_ && _); reflexivity |].
      intros _.
      apply (emits_bind_then _ _ [":FW1#"; ":FW2#"]);
        [apply Get_FirmwareVersion_emits |].
      intros _.
      apply (emits_bind_then _ _ [":ST0#"]); [apply (Track_emits false) |].
      intros _.
      apply (emits_bind_then _ _ [":SR9#"]); [apply ack_exchange_emits |].
      intros _.
      apply (emits_bind_then _ _ [":SAL-89#"]); [apply ack_exchange_emits |].
      intros _.
      apply (emits_bind_then _ _ [":GAS#"]);
        [apply Get_StatusInfo_readable_emits |].
      intros _.
      apply (emits_bind_then _ _ [":GLT#"]); [apply Get_TimeInfo_emits |].
      intros _.
      apply (emits_bind_then _ _ [":Gt#"; ":Gg#"]); [apply Get_LatLong_emits |].
      intros _.
      apply (emits_bind_then _ _ []); [apply emits_silent; reflexivity |].
      intros _.
      apply (emits_bind_then _ _ []); [apply emits_silent; reflexivity |].
      intros _.
      eapply emits_bind;
        [apply Go_Home_emits | intros _; apply emits_silent; reflexivity |].
      intros l1 l2 (n & ->) <-. exists n. rewrite app_nil_r. reflexivity. }
    destruct (H _ _ _ E) as (l & O & n & ->). exists n. exact O.
  - revert E. generalize (opened input). intros s E.
    assert (H : ends (__init__ datetime dateutil_parse fuel)
                  (fun s' => new_Alt s' = false /\ new_Az s' = false)).
    { unfold __init__. do 10 (apply ends_bind; intros ?).
      intros s0 v s1 E1.
      destruct (bind_ok_inv _ _ _ _ _ E1) as (u1 & t1 & Ea & E2).
      destruct (bind_ok_inv _ _ _ _ _ E2) as (u2 & t2 & Eb & E3).
      destruct (bind_ok_inv _ _ _ _ _ E3) as (r & t3 & Eg & E4).
      injection Ea as _ <-. injection Eb as _ <-. injection E4 as _ <-.
      pose proof (Go_Home_untouched fuel
                    (mkMount false false (port_in s0) (port_out s0)
                             (warnings s0) (sleeps s0))) as [[Fa Fz] _].
      cbn [new_Alt new_Az port_in port_out warnings sleeps] in Eg.
      rewrite Eg in Fa, Fz. split; assumption. }
    exact (H _ _ _ E).
Qed.

Lemma init_success_commands_witness :
  exists s',
    (exists n, port_out s' = (init_commands ++ List.repeat ":GAS#" (S n))%list)
    /\ new_Alt s' = false /\ new_Az s' = false.
Proof.
  eexists.
  refine (init_success_commands unit (fun _ => Ok tt) 2
            ("V1.00#5035170518170518#140101140101#111070911#"
             ++ "+0000170101120000#+185400#-009300#1020911#070911#") _ _).
  vm_compute. reflexivity.
Defined.

(** ** Decimal text: [str] and [int] *)

Lemma digit_val_char (d : Z) :
  0 <= d < 10 -> PyStr.digit_val (PyStr.digit_char d) = d.
Proof.
  intros H.
  assert (C : d = 0 \/ d = 1 \/ d = 2 \/ d = 3 \/ d = 4 \/ d = 5 \/ d = 6
              \/ d = 7 \/ d = 8 \/ d = 9) by lia.
  repeat (destruct C as [-> | C]; [reflexivity |]). subst d. reflexivity.
Qed.

Lemma append_assoc (a b c : string) : (a ++ b) ++ c = a ++ (b ++ c).
Proof. induction a as [| x a IH]; simpl; [reflexivity | now rewrite IH]. Qed.

(** The digits [dec_digits] produces, given enough fuel: they are read
    back by [int_digits] as the number, and their count is the number of
    decimal digits of the number. *)
Lemma dec_digits_spec (fuel : nat) :
  forall (n : Z) (acc : string),
    (0 < fuel)%nat -> 0 <= n < 10 ^ Z.of_nat fuel ->
    exists d,
      PyStr.dec_digits fuel n acc = d ++ acc
      /\ PyStr.all_digits d = true
      /\ (0 < String.length d)%nat
      /\ (forall a tail,
            PyStr.int_digits (d ++ tail) a false
            = PyStr.int_digits tail
                (a * 10 ^ Z.of_nat (String.length d) + n) false)
      /\ n < 10 ^ Z.of_nat (String.length d)
      /\ (0 < n -> 10 ^ (Z.of_nat (String.length d) - 1) <= n).
Proof.
  induction fuel as [| fuel IH]; intros n acc Hf H; [lia |].
  simpl PyStr.dec_digits.
  assert (Hm : 0 <= n mod 10 < 10) by (apply Z.mod_pos_bound; lia).
  assert (Hd : PyStr.is_digit (PyStr.digit_char (n mod 10)) = true)
    by (apply digit_char_is_digit; exact Hm).
  destruct (n <? 10) eqn:L.
  - apply Z.ltb_lt in L.
    exists (String (PyStr.digit_char (n mod 10)) EmptyString).
    rewrite Z.mod_small in * by lia.
    repeat split.
    + simpl. rewrite Hd. reflexivity.
    + simpl. lia.
    + intros a tail. cbn [append PyStr.int_digits String.length].
      rewrite Hd, digit_val_char by lia.
      change (10 ^ Z.of_nat 1) with 10. f_equal. lia.
    + change (10 ^ Z.of_nat (String.length (String (PyStr.digit_char n) EmptyString)))
        with 10. lia.
    + cbn [String.length]. change (10 ^ (Z.of_nat 1 - 1)) with 1. lia.
  - apply Z.ltb_ge in L.
    assert (Hq : 0 <= n / 10 < 10 ^ Z.of_nat fuel).
    { split; [apply Z.div_pos; lia |].
      apply Z.div_lt_upper_bound; [lia |].
      rewrite <- Z.pow_succ_r by lia. rewrite <- Nat2Z.inj_succ.
      exact (proj2 H). }
    assert (Hq1 : 1 <= n / 10)
      by (apply Z.div_le_lower_bound; lia).
    assert (Hf' : (0 < fuel)%nat).
    { destruct fuel; [| lia]. simpl in Hq. lia. }
    destruct (IH (n / 10) (String (PyStr.digit_char (n mod 10)) acc) Hf' Hq)
      as (d & Ed & Dd & Ld & Vd & Ud & Wd).
    exists (d ++ String (PyStr.digit_char (n mod 10)) EmptyString).
    rewrite Ed, append_assoc_char, all_digits_append, length_append.
    change (String.length (String (PyStr.digit_char (n mod 10)) EmptyString))
      with 1%nat.
    replace (Z.of_nat (String.length d + 1))
      with (Z.succ (Z.of_nat (String.length d))) by lia.
    rewrite Z.pow_succ_r by lia.
    pose proof (Z.div_mod n 10 ltac:(lia)) as DM.
    repeat split.
    + simpl. rewrite Dd, Hd. reflexivity.
    + lia.
    + intros a tail. rewrite append_assoc. rewrite Vd.
      cbn [append PyStr.int_digits].
      rewrite Hd, digit_val_char by exact Hm. f_equal. lia.
    + lia.
    + intros _.
      replace (Z.succ (Z.of_nat (String.length d)) - 1)
        with (Z.succ (Z.of_nat (String.length d) - 1)) by lia.
      rewrite Z.pow_succ_r by lia. specialize (Wd ltac:(lia)). lia.
Qed.

Lemma dec_fuel (n : Z) : 0 <= n -> n < 10 ^ Z.of_nat (S (Z.to_nat (Z.log2 n))).
Proof.
  intros H. rewrite Nat2Z.inj_succ, Z2Nat.id by apply Z.log2_nonneg.
  destruct (Z.eq_dec n 0) as [-> | N]; [reflexivity |].
  pose proof (Z.log2_spec n ltac:(lia)) as [_ U].
  eapply Z.lt_le_trans; [exact U |].
  apply Z.pow_le_mono_l. pose proof (Z.log2_nonneg n). lia.
Qed.

(** The text of a non-negative integer. *)
Lemma dec_spec (n : Z) :
  0 <= n ->
  PyStr.all_digits (PyStr.dec n) = true
  /\ (0 < String.length (PyStr.dec n))%nat
  /\ (forall a tail,
        PyStr.int_digits (PyStr.dec n ++ tail) a false
        = PyStr.int_digits tail
            (a * 10 ^ Z.of_nat (String.length (PyStr.dec n)) + n) false)
  /\ n < 10 ^ Z.of_nat (String.length (PyStr.dec n))
  /\ (0 < n -> 10 ^ (Z.of_nat (String.length (PyStr.dec n)) - 1) <= n).
Proof.
  intros H. unfold PyStr.dec.
  destruct (dec_digits_spec (S (Z.to_nat (Z.log2 n))) n EmptyString
              ltac:(lia) (conj H (dec_fuel n H)))
    as (d & Ed & Dd & Ld & Vd & Ud & Wd).
  rewrite Ed, append_empty_r. repeat split; assumption.
Qed.

(** The number of characters of the text of [n], from the bounds of
    [n]. *)
Lemma dec_length (n : Z) (k : nat) :
  10 ^ Z.of_nat k <= n < 10 ^ Z.of_nat (S k) ->
  String.length (PyStr.dec n) = S k.
Proof.
  intros [Lo Hi].
  assert (P : 0 < 10 ^ Z.of_nat k) by (apply Z.pow_pos_nonneg; lia).
  destruct (dec_spec n ltac:(lia)) as (_ & Ln & _ & U & W).
  specialize (W ltac:(lia)).
  set (L := String.length (PyStr.dec n)) in *.
  assert (A : (L <= S k)%nat).
  { destruct (Nat.le_gt_cases L (S k)) as [? | G]; [assumption |].
    exfalso.
    assert (10 ^ Z.of_nat (S k) <= 10 ^ (Z.of_nat L - 1))
      by (apply Z.pow_le_mono_r; lia).
    lia. }
  assert (B : (S k <= L)%nat).
  { destruct (Nat.le_gt_cases (S k) L) as [? | G]; [assumption |].
    exfalso.
    assert (10 ^ Z.of_nat L <= 10 ^ Z.of_nat k)
      by (apply Z.pow_le_mono_r; lia).
    lia. }
  lia.
Qed.

Lemma dec_length_le (n : Z) (k : nat) :
  0 <= n < 10 ^ Z.of_nat (S k) ->
  (String.length (PyStr.dec n) <= S k)%nat.
Proof.
  intros [Lo Hi].
  destruct (Z.eq_dec n 0) as [-> | N]; [simpl; lia |].
  destruct (dec_spec n ltac:(lia)) as (_ & Ln & _ & U & W).
  specialize (W ltac:(lia)).
  set (L := String.length (PyStr.dec n)) in *.
  destruct (Nat.le_gt_cases L (S k)) as [? | G]; [assumption |].
  exfalso.
  assert (10 ^ Z.of_nat (S k) <= 10 ^ (Z.of_nat L - 1))
    by (apply Z.pow_le_mono_r; lia).
  lia.
Qed.

Lemma int_digits_zeros (k : nat) :
  forall a tail,
    PyStr.int_digits (PyStr.repeat "0" k ++ tail) a false
    = PyStr.int_digits tail (a * 10 ^ Z.of_nat k) false.
Proof.
  induction k as [| k IH]; intros a tail.
  - cbn [PyStr.repeat append]. change (10 ^ Z.of_nat 0) with 1.
    f_equal. lia.
  - change (PyStr.repeat "0" (S k) ++ tail)
      with (String "0" (PyStr.repeat "0" k ++ tail)).
    cbn [PyStr.int_digits]. change (PyStr.is_digit "0") with true.
    cbv iota. rewrite IH. f_equal.
    rewrite Nat2Z.inj_succ, Z.pow_succ_r by lia.
    change (PyStr.digit_val "0") with 0. lia.
Qed.

(** A digit string, zero-padded or not, starts with a digit: [int_unsigned]
    reads it as [int_digits] does from 0. *)
Lemma int_unsigned_digits (s : string) :
  PyStr.all_digits s = true -> (0 < String.length s)%nat ->
  PyStr.int_unsigned s = PyStr.int_digits s 0 false.
Proof.
  destruct s as [| c r]; simpl; [lia |].
  intros H _. apply andb_true_iff in H. destruct H as [Hc _].
  rewrite Hc. reflexivity.
Qed.

(** The zero-padded text of a non-negative integer is read back as the
    integer. *)
Lemma int_unsigned_padded (k : nat) (n : Z) :
  0 <= n ->
  PyStr.int_unsigned (PyStr.repeat "0" k ++ PyStr.dec n) = Some n.
Proof.
  intros H. destruct (dec_spec n H) as (Dd & Ld & Vd & _ & _).
  rewrite int_unsigned_digits.
  - rewrite int_digits_zeros.
    pose proof (Vd (0 * 10 ^ Z.of_nat k) EmptyString) as V.
    rewrite append_empty_r in V. rewrite V.
    cbn [PyStr.int_digits]. f_equal; lia.
  - rewrite all_digits_append, all_digits_repeat_0, Dd. reflexivity.
  - rewrite length_append. lia.
Qed.

Lemma digit_not_space (c : ascii) :
  PyStr.is_digit c = true -> PyStr.is_space c = false.
Proof.
  destruct c as [[] [] [] [] [] [] [] []]; vm_compute; intros H;
    (reflexivity || discriminate H).
Qed.

(** No character of the string is white space. *)
Lemma rstrip_digits (s : string) :
  PyStr.all_digits s = true -> PyStr.rstrip s = s.
Proof.
  induction s as [| c r IH]; simpl; [reflexivity |].
  intros H. apply andb_true_iff in H. destruct H as [Hc Hr].
  rewrite (IH Hr). destruct r; [| reflexivity].
  rewrite (digit_not_space c Hc). reflexivity.
Qed.

Lemma rstrip_cons_digits (c : ascii) (s : string) :
  PyStr.is_space c = false -> PyStr.all_digits s = true ->
  PyStr.rstrip (String c s) = String c s.
Proof.
  intros Hc Hs. simpl. rewrite (rstrip_digits s Hs).
  destruct s; [rewrite Hc |]; reflexivity.
Qed.

Lemma int_padded (k : nat) (n : Z) :
  0 <= n -> PyStr.int (PyStr.repeat "0" k ++ PyStr.dec n) = Ok n.
Proof.
  intros H. destruct (dec_spec n H) as (Dd & Ld & _).
  assert (A : PyStr.all_digits (PyStr.repeat "0" k ++ PyStr.dec n) = true)
    by (rewrite all_digits_append, all_digits_repeat_0, Dd; reflexivity).
  pose proof (int_unsigned_padded k n H) as U.
  unfold PyStr.int.
  destruct (PyStr.repeat "0" k ++ PyStr.dec n) as [| c r] eqn:E.
  - discriminate U.
  - simpl in A. apply andb_true_iff in A. destruct A as [Hc Hr].
    simpl PyStr.lstrip. rewrite (digit_not_space c Hc).
    rewrite rstrip_cons_digits by (auto using digit_not_space).
    assert (Np : c <> "+"%char) by (intros ->; discriminate Hc).
    assert (Nm : c <> "-"%char) by (intros ->; discriminate Hc).
    replace (match c with
             | "+"%char => PyStr.int_unsigned r
             | "-"%char => option_map Z.opp (PyStr.int_unsigned r)
             | _ => PyStr.int_unsigned (String c r)
             end) with (PyStr.int_unsigned (String c r)).
    + rewrite U. reflexivity.
    + destruct c as [[] [] [] [] [] [] [] []];
        try reflexivity; congruence.
Qed.

Lemma int_signed_padded (sign : ascii) (k : nat) (n : Z) :
  0 <= n -> sign = "+"%char \/ sign = "-"%char ->
  PyStr.int (String sign (PyStr.repeat "0" k ++ PyStr.dec n))
  = Ok (if (sign =? "-")%char then - n else n).
Proof.
  intros H Hs. destruct (dec_spec n H) as (Dd & Ld & _).
  assert (A : PyStr.all_digits (PyStr.repeat "0" k ++ PyStr.dec n) = true)
    by (rewrite all_digits_append, all_digits_repeat_0, Dd; reflexivity).
  pose proof (int_unsigned_padded k n H) as U.
  unfold PyStr.int.
  assert (Sp : PyStr.is_space sign = false)
    by (destruct Hs as [-> | ->]; reflexivity).
  simpl PyStr.lstrip. rewrite Sp.
  rewrite rstrip_cons_digits by assumption.
  destruct Hs as [-> | ->]; cbv iota; rewrite U; reflexivity.
Qed.

(** [int(str(n)) == n] *)
Lemma int_str (n : Z) : PyStr.int (PyStr.str n) = Ok n.
Proof.
  unfold PyStr.str. destruct (n <? 0) eqn:L.
  - apply Z.ltb_lt in L.
    pose proof (int_signed_padded "-" 0 (- n) ltac:(lia) ltac:(auto)) as E.
    cbn [PyStr.repeat append] in E. rewrite E.
    change ("-" =? "-")%char with true. cbv iota. f_equal. lia.
  - apply Z.ltb_ge in L. exact (int_padded 0 n L).
Qed.

(** ** The text of a zero-padded field *)

(** A non-negative value that fits the width: zeros, then its digits,
    [w] characters in all. *)
Lemma rjust_nonneg (w : nat) (v : Z) :
  0 <= v < 10 ^ Z.of_nat (S w) ->
  PyStr.rjust (S w) "0" (PyStr.str v)
  = PyStr.repeat "0" (S w - String.length (PyStr.dec v)) ++ PyStr.dec v
  /\ String.length (PyStr.rjust (S w) "0" (PyStr.str v)) = S w
  /\ PyStr.all_digits (PyStr.rjust (S w) "0" (PyStr.str v)) = true.
Proof.
  intros H. unfold PyStr.rjust, PyStr.str.
  replace (v <? 0) with false by (symmetry; apply Z.ltb_ge; lia).
  pose proof (dec_length_le v w H) as L.
  destruct (dec_spec v (proj1 H)) as (D & _).
  rewrite length_append, length_repeat, all_digits_append,
    all_digits_repeat_0, D.
  repeat split. lia.
Qed.

(** A negative value whose digits alone fill the width: the minus sign
    and the digits, nothing added. *)
Lemma rjust_neg_wide (w : nat) (v : Z) :
  10 ^ Z.of_nat w <= - v < 10 ^ Z.of_nat (S w) ->
  PyStr.rjust (S w) "0" (PyStr.str v) = String "-" (PyStr.dec (- v))
  /\ String.length (PyStr.dec (- v)) = S w
  /\ PyStr.all_digits (PyStr.dec (- v)) = true.
Proof.
  intros H.
  assert (P : 0 < 10 ^ Z.of_nat w) by (apply Z.pow_pos_nonneg; lia).
  unfold PyStr.rjust, PyStr.str.
  replace (v <? 0) with true by (symmetry; apply Z.ltb_lt; lia).
  pose proof (dec_length (- v) w H) as L.
  destruct (dec_spec (- v) ltac:(lia)) as (D & _).
  cbn [String.length]. rewrite L.
  replace (S w - S (S w))%nat with 0%nat by lia.
  repeat split; assumption.
Qed.


(** ** The site coordinates *)












(** ** The position fields, written and read back *)

Lemma append_cancel_r (t : string) :
  forall s1 s2, s1 ++ t = s2 ++ t -> s1 = s2.
Proof.
  induction s1 as [| c s1 IH]; intros s2 H.
  - destruct s2 as [| c2 s2]; [reflexivity |].
    apply (f_equal String.length) in H.
    cbn [append String.length] in H. rewrite length_append in H. lia.
  - destruct s2 as [| c2 s2].
    + apply (f_equal String.length) in H.
      cbn [append String.length] in H. rewrite length_append in H. lia.
    + cbn [append] in H. injection H as -> H. f_equal. exact (IH _ H).
Qed.

Lemma take_all (s : string) : PyStr.take (String.length s) s = s.
Proof.
  rewrite <- (append_empty_r s) at 2. apply take_length_append.
Qed.

(** [s[:n]] and [s[n:]] of a string whose first [n] characters are [p]. *)
Lemma slice_prefix (p q : string) :
  PyStr.slice (p ++ q) None (Some (Z.of_nat (String.length p))) = p.
Proof.
  unfold PyStr.slice, PyStr.len, PyStr.clamp. rewrite length_append.
  replace (Z.of_nat (String.length p) <? 0) with false
    by (symmetry; apply Z.ltb_ge; lia).
  rewrite Z.min_l by lia. rewrite Z.sub_0_r, Nat2Z.id.
  change (Z.to_nat 0) with 0%nat. apply take_length_append.
Qed.

Lemma slice_suffix (p q : string) :
  PyStr.slice (p ++ q) (Some (Z.of_nat (String.length p))) None = q.
Proof.
  unfold PyStr.slice, PyStr.len, PyStr.clamp. rewrite length_append.
  replace (Z.of_nat (String.length p) <? 0) with false
    by (symmetry; apply Z.ltb_ge; lia).
  rewrite Z.min_l by lia. rewrite Nat2Z.id, drop_length_append.
  replace (Z.to_nat (Z.of_nat (String.length p + String.length q)
                     - Z.of_nat (String.length p)))
    with (String.length q) by lia.
  apply take_all.
Qed.

(** A signed field of [w + 1] characters is read back by [int] as the
    value. *)
Lemma signed_field_int_width (w : nat) (v : Z) :
  0 <= v < 10 ^ Z.of_nat (S w)
  \/ 10 ^ Z.of_nat w <= - v < 10 ^ Z.of_nat (S w) ->
  exists c p,
    (if v >=? 0 then "+" else EmptyString)
    ++ PyStr.rjust (S w) "0" (PyStr.str v) = String c p
    /\ (c = "+"%char \/ c = "-"%char)
    /\ String.length p = S w /\ PyStr.all_digits p = true
    /\ PyStr.int (String c p) = Ok v.
Proof.
  intros [H | H].
  - replace (v >=? 0) with true by (symmetry; apply Z.geb_le; lia).
    destruct (rjust_nonneg w v H) as (E & L & D).
    exists "+"%char, (PyStr.rjust (S w) "0" (PyStr.str v)).
    repeat split; try assumption; [left; reflexivity |].
    rewrite E. apply (int_signed_padded "+"); [lia | left; reflexivity].
  - assert (P : 0 < 10 ^ Z.of_nat w) by (apply Z.pow_pos_nonneg; lia).
    replace (v >=? 0) with false
      by (symmetry; rewrite Z.geb_leb; apply Z.leb_gt; lia).
    destruct (rjust_neg_wide w v H) as (E & L & D).
    exists "-"%char, (PyStr.dec (- v)). rewrite E.
    repeat split; try assumption; [right; reflexivity |].
    pose proof (int_signed_padded "-" 0 (- v) ltac:(lia)
                  ltac:(right; reflexivity)) as I.
    cbn [PyStr.repeat append] in I. rewrite I.
    change ("-" =? "-")%char with true. cbv iota. f_equal. lia.
Qed.

Lemma signed_field_int (v : Z) :
  0 <= v < 100000000 \/ -100000000 < v <= -10000000 ->
  exists c p,
    (if v >=? 0 then "+" else EmptyString)
    ++ PyStr.rjust 8 "0" (PyStr.str v) = String c p
    /\ (c = "+"%char \/ c = "-"%char)
    /\ String.length p = 8%nat /\ PyStr.all_digits p = true
    /\ PyStr.int (String c p) = Ok v.
Proof.
  intros H. apply (signed_field_int_width 7).
  change (10 ^ Z.of_nat 8) with 100000000.
  change (10 ^ Z.of_nat 7) with 10000000. lia.
Qed.

Lemma mul_int_hundredth (a : Z) :
  -1000000000 < a < 1000000000 ->
  PyNum.mul (PyInt a) (PyFloat (PyFloat.lit 1 100))
  = Ok (PyFloat (PyFloat.mul (PyFloat.of_Z a) (PyFloat.lit 1 100))).
Proof.
  intros H. unfold PyNum.mul.
  assert (F : is_fin (PyFloat.of_Z a) = true).
  { apply of_Z_mag. apply IZR_le. lia. }
  rewrite (to_float_int a F). reflexivity.
Qed.

Lemma units_cases (units : string) :
  str_in units units_Allowed = true ->
  units = "arcsec" \/ units = "degrees" \/ units = "radians".
Proof.
  unfold str_in, units_Allowed. cbn [existsb]. intros H.
  destruct (String.eqb_spec units "arcsec"); [auto |].
  destruct (String.eqb_spec units "degrees"); [auto |].
  destruct (String.eqb_spec units "radians"); [auto |].
  discriminate H.
Qed.

(** What [Get_AltAz] returns when the reply carries the fields of the set
    commands for [a] and [z]. *)
Lemma Get_AltAz_fields
    (units : string) (a z : Z) (pa pz : string)
    (a0 z0 : bool) (rest : string) (o w : list string) (k : nat) :
  str_in units units_Allowed = true ->
  altitude_cmd a = ":Sa" ++ pa ++ "#" ->
  azimuth_cmd z = ":Sz" ++ pz ++ "#" ->
  0 <= a < 100000000 \/ -100000000 < a <= -10000000 ->
  0 <= z <= 129600000 ->
  Get_AltAz units (mkMount a0 z0 (pa ++ pz ++ String "#" rest) o w k)
  = (rbind (reported units a) (fun alt =>
     rbind (reported units z) (fun az => Ok (alt, az))),
     mkMount a0 z0 rest (o ++ [":GAC#"]) w k).
Proof.
  intros Hu Ea Ez Ha Hz.
  unfold altitude_cmd in Ea. cbv zeta in Ea.
  injection Ea as Ea. rewrite <- append_assoc in Ea.
  apply append_cancel_r in Ea.
  unfold azimuth_cmd in Ez. injection Ez as Ez.
  apply append_cancel_r in Ez.
  destruct (signed_field_int a Ha) as (c & p & Ep & Hc & Lp & Dp & Ip).
  rewrite Ea in Ep.
  destruct (rjust_nonneg 8 z) as (Eq & Lq & Dq);
    [change (10 ^ Z.of_nat 9) with 1000000000; lia |].
  assert (Iq : PyStr.int pz = Ok z).
  { rewrite <- Ez, Eq. apply int_padded. lia. }
  rewrite Ez in Lq, Dq. clear Ea Ez Eq. subst pa.
  assert (Lpa : String.length (String c p) = 9%nat)
    by (cbn [String.length]; rewrite Lp; reflexivity).
  assert (D : PyStr.all_digits (p ++ pz) = true)
    by (rewrite all_digits_append, Dp, Dq; reflexivity).
  destruct (all_digits_no_hash _ D) as [Hn Has].
  assert (Hn' : no_hash (String c p ++ pz) = true).
  { cbn [append no_hash]. rewrite Hn.
    destruct Hc as [-> | ->]; reflexivity. }
  assert (Has' : Serial.all_ascii (String c p ++ pz) = true).
  { cbn [append Serial.all_ascii]. rewrite Has.
    destruct Hc as [-> | ->]; reflexivity. }
  unfold Get_AltAz, reported. rewrite Hu, bind_assert_true.
  unfold bind at 1. rewrite <- append_assoc.
  rewrite (SendMessage_hash _ _ _ _ _ _ _ _ Hn' Has').
  rewrite slice_drop_last.
  change 9 with (Z.of_nat 9). rewrite <- Lpa.
  rewrite slice_prefix, slice_suffix, Ip, Iq.
  rewrite bind_lift_ok, mul_int_hundredth, bind_lift_ok by lia.
  rewrite bind_lift_ok, mul_int_hundredth, bind_lift_ok by lia.
  cbn [rbind].
  destruct (units_cases units Hu) as [-> | [-> | ->]].
  - reflexivity.
  - change ("degrees" =? "degrees")%string with true. cbv iota.
    rewrite !ArcSec_To_Degrees_float, !bind_lift_ok. reflexivity.
  - change ("radians" =? "degrees")%string with false.
    change ("radians" =? "radians")%string with true. cbv iota.
    rewrite !ArcSec_To_Radians_float, !bind_lift_ok. reflexivity.
Qed.

(** X8.  The fields the two set-target commands write have the layout
    [Get_AltAz] reads: when the reply to the position query carries the
    field of the altitude command for [a] followed by the field of the
    azimuth command for [z], [Get_AltAz] returns [a * 0.01] and
    [z * 0.01] arcseconds.  This holds for every azimuth the range check
    admits and for the altitudes whose field has nine characters: the
    ones that are not negative and the negative ones of eight digits. *)
Theorem Get_AltAz_reads_set_fields
    (a z : Z) (pa pz : string)
    (a0 z0 : bool) (rest : string) (o w : list string) (k : nat) :
  altitude_cmd a = ":Sa" ++ pa ++ "#" ->
  azimuth_cmd z = ":Sz" ++ pz ++ "#" ->
  0 <= a < 100000000 \/ -100000000 < a <= -10000000 ->
  0 <= z <= 129600000 ->
  Get_AltAz "arcsec" (mkMount a0 z0 (pa ++ pz ++ String "#" rest) o w k)
  = (Ok (PyFloat (PyFloat.mul (PyFloat.of_Z a) (PyFloat.lit 1 100)),
         PyFloat (PyFloat.mul (PyFloat.of_Z z) (PyFloat.lit 1 100))),
     mkMount a0 z0 rest (o ++ [":GAC#"]) w k).
Proof.
  intros Ea Ez Ha Hz.
  rewrite (Get_AltAz_fields "arcsec" a z pa pz) by (assumption || reflexivity).
  unfold reported. rewrite !mul_int_hundredth by lia. reflexivity.
Qed.

Lemma Get_AltAz_reads_set_fields_witness :
  Get_AltAz "arcsec"
    (mkMount false false ("+28800000" ++ "068400000" ++ "#") [] [] 0)
  = (Ok (PyFloat (PyFloat.mul (PyFloat.of_Z 28800000) (PyFloat.lit 1 100)),
         PyFloat (PyFloat.mul (PyFloat.of_Z 68400000) (PyFloat.lit 1 100))),
     mkMount false false EmptyString ([] ++ [":GAC#"]) [] 0).
Proof.
  refine (Get_AltAz_reads_set_fields 28800000 68400000
            "+28800000" "068400000" false false EmptyString [] [] 0
            eq_refl eq_refl _ _).
  - left. lia.
  - lia.
Defined.

(** ** A target staged by halves *)

Lemma Set_AltAz_azimuth_rejected
    (altitude azimuth : num) (units : string) (a v : Z)
    (a0 z0 : bool) (rest : string) (o w : list string) (k : nat) :
  str_in units units_Allowed = true ->
  to_hundredths altitude units = Ok a ->
  to_hundredths azimuth units = Ok v ->
  v < 0 \/ 129600000 < v ->
  Set_AltAz altitude azimuth units (mkMount a0 z0 (String "1" rest) o w k)
  = (Raise AssertionError,
     mkMount true z0 rest (o ++ [altitude_cmd a]) w k).
Proof.
  intros Hu Ha Hv Hr. unfold Set_AltAz. unfold bind at 1.
  rewrite (Set_Altitude_acked altitude units a) by assumption.
  unfold bind.
  rewrite (Set_Azimuth_out_of_range azimuth units v) by assumption.
  reflexivity.
Qed.

(** X9.  [Set_AltAz] is not atomic: when the mount acknowledges the altitude
    and the azimuth fails its range check, the assertion error is raised
    after the altitude command has been written and the altitude flag
    set; the azimuth flag is as it was and no azimuth command is written.
    [Go_AltAz] fails in the same way, before its move command. *)
Theorem Set_AltAz_half_staged
    (altitude azimuth : num) (units : string) (a v : Z)
    (a0 z0 : bool) (rest : string) (o w : list string) (k : nat) :
  str_in units units_Allowed = true ->
  to_hundredths altitude units = Ok a ->
  to_hundredths azimuth units = Ok v ->
  v < 0 \/ 129600000 < v ->
  Set_AltAz altitude azimuth units (mkMount a0 z0 (String "1" rest) o w k)
  = (Raise AssertionError,
     mkMount true z0 rest (o ++ [altitude_cmd a]) w k)
  /\
  Go_AltAz altitude azimuth units (mkMount a0 z0 (String "1" rest) o w k)
  = (Raise AssertionError,
     mkMount true z0 rest (o ++ [altitude_cmd a]) w k).
Proof.
  intros Hu Ha Hv Hr.
  pose proof (Set_AltAz_azimuth_rejected altitude azimuth units a v
                a0 z0 rest o w k Hu Ha Hv Hr) as E.
  split; [exact E |].
  unfold Go_AltAz. unfold bind at 1. rewrite E. reflexivity.
Qed.

Lemma Set_AltAz_half_staged_witness :
  Set_AltAz (PyInt 80) (PyInt 370) "degrees"
    (mkMount false false "11" [] [] 0)
  = (Raise AssertionError,
     mkMount true false "1" ([] ++ [altitude_cmd 28800000]) [] 0)
  /\
  Go_AltAz (PyInt 80) (PyInt 370) "degrees"
    (mkMount false false "11" [] [] 0)
  = (Raise AssertionError,
     mkMount true false "1" ([] ++ [altitude_cmd 28800000]) [] 0).
Proof.
  refine (Set_AltAz_half_staged (PyInt 80) (PyInt 370) "degrees"
            28800000 133200000 false false "1" [] [] 0 eq_refl _ _ _).
  - vm_compute. reflexivity.
  - vm_compute. reflexivity.
  - right. lia.
Defined.

(** ** The time zone offset *)




(** ** The names of the rates *)





(** ** The keypad *)

(** X12.  [KeyPad] writes the command of the direction and reads nothing: the
    bytes the mount has yet to deliver stay in the port, and the flags
    are as they were.  A direction other than the four names raises the
    key error with nothing written. *)
Theorem KeyPad_reads_nothing (direction : string) (s : AzMountPro) :
  (exists cmd,
     In (direction, cmd) directions /\
     KeyPad direction s
     = (Ok tt, mkMount (new_Alt s) (new_Az s) (port_in s)
                 (port_out s ++ [cmd]) (warnings s) (sleeps s)))
  \/ (~ In direction ["up"; "down"; "left"; "right"]
      /\ KeyPad direction s = (Raise KeyError, s)).
Proof.
  destruct (dict_get_cases directions direction) as [[cmd E] | E].
  - left. exists cmd. split; [apply dict_get_In; exact E |].
    unfold KeyPad. rewrite E. destruct s as [a z i o w k]. mrun.
    rewrite SendMessage_Count by reflexivity.
    destruct i; reflexivity.
  - right. split.
    + intros H. simpl in H.
      repeat (destruct H as [H | H]; [subst direction; discriminate E |]).
      contradiction.
    + unfold KeyPad. rewrite E. reflexivity.
Qed.

(** ** The site coordinates read back *)

(** [s[1:-1]] drops the first and the last character. *)
Lemma slice_inner (c : ascii) (body : string) (d : ascii) :
  PyStr.slice (String c (body ++ String d EmptyString)) (Some 1) (Some (-1))
  = body.
Proof.
  unfold PyStr.slice, PyStr.len, PyStr.clamp.
  cbn [String.length]. rewrite length_append_char.
  change (1 <? 0) with false. change (-1 <? 0) with true. cbv iota.
  rewrite Z.min_l by lia.
  change (Z.to_nat 1) with 1%nat. cbn [PyStr.drop].
  replace (Z.to_nat (Z.max 0 (Z.of_nat (S (S (String.length body))) + -1) - 1))
    with (String.length body) by lia.
  apply take_length_append.
Qed.

Lemma SendMessage_signed cmd c body rest a z o w k :
  Serial.is_ascii c = true -> c <> "#"%char ->
  no_hash body = true -> Serial.all_ascii body = true ->
  _SendMessage cmd (Until "#")
    (mkMount a z (String c (body ++ String "#" rest)) o w k)
  = (Ok (String c (body ++ "#")), mkMount a z rest (o ++ [cmd]) w k).
Proof.
  intros Hc Nc Hn Ha.
  apply (SendMessage_hash cmd (String c body) rest).
  - cbn [no_hash]. rewrite Hn. apply Ascii.eqb_neq in Nc. rewrite Nc.
    reflexivity.
  - cbn [Serial.all_ascii]. rewrite Hc, Ha. reflexivity.
Qed.

Lemma digit_val_nonneg (c : ascii) :
  PyStr.is_digit c = true -> 0 <= PyStr.digit_val c.
Proof.
  unfold PyStr.is_digit, PyStr.digit_val. intros H.
  apply andb_true_iff in H. destruct H as [H _].
  apply Nat.leb_le in H. lia.
Qed.

Lemma int_digits_nonneg (s : string) :
  forall acc b x,
    0 <= acc -> PyStr.int_digits s acc b = Some x -> 0 <= x.
Proof.
  induction s as [| c r IH]; intros acc b x Ha; cbn [PyStr.int_digits].
  - destruct b; intros H; [discriminate H |]. injection H as <-. exact Ha.
  - destruct (PyStr.is_digit c) eqn:D.
    + apply IH. pose proof (digit_val_nonneg c D). lia.
    + destruct ((c =? "_")%char && negb b); [| discriminate].
      apply IH. exact Ha.
Qed.

(** A string of digits that [int] reads is read as a number that is not
    negative. *)
Lemma int_all_digits_nonneg (s : string) (x : Z) :
  PyStr.all_digits s = true -> PyStr.int s = Ok x -> 0 <= x.
Proof.
  intros D. unfold PyStr.int.
  destruct s as [| c r]; [discriminate |].
  cbn [PyStr.all_digits] in D. apply andb_true_iff in D.
  destruct D as [Dc Dr].
  cbn [PyStr.lstrip]. rewrite (digit_not_space c Dc).
  rewrite rstrip_cons_digits by (auto using digit_not_space).
  replace (match c with
           | "+"%char => PyStr.int_unsigned r
           | "-"%char => option_map Z.opp (PyStr.int_unsigned r)
           | _ => PyStr.int_unsigned (String c r)
           end) with (PyStr.int_unsigned (String c r)).
  - cbn [PyStr.int_unsigned]. rewrite Dc.
    destruct (PyStr.int_digits r (PyStr.digit_val c) false) as [v |] eqn:E;
      [| discriminate].
    intros H. injection H as <-.
    apply (int_digits_nonneg r _ _ _ (digit_val_nonneg c Dc) E).
  - assert (Np : c <> "+"%char) by (intros ->; discriminate Dc).
    assert (Nm : c <> "-"%char) by (intros ->; discriminate Dc).
    destruct c as [[] [] [] [] [] [] [] []]; try reflexivity; congruence.
Qed.

Lemma ArcSec_To_Degrees_int (x : Z) :
  0 <= x <= 1000000000 ->
  ArcSec_To_Degrees (PyInt x) = Ok (PyFloat (PyNum.int_true_divide x 3600))
  /\ sgn (PyNum.int_true_divide x 3600) = false.
Proof.
  intros H.
  destruct (int_true_divide_mag x) as (F & S & _).
  { apply IZR_le. lia. }
  split.
  - unfold ArcSec_To_Degrees, PyNum.truediv.
    change (3600 =? 0) with false. cbv iota.
    destruct (PyNum.int_true_divide x 3600); try discriminate F;
      reflexivity.
  - rewrite S. apply Z.ltb_ge. lia.
Qed.

(** X13.  [Get_LatLong] skips the first character of each reply: whatever the
    two sign characters are, it returns the digits that follow them,
    divided by 3600, and neither coordinate it returns is negative.  A
    southern latitude and a western longitude are reported as northern
    and eastern. *)
Theorem Get_LatLong_ignores_sign
    (c1 c2 : ascii) (lat long rest : string) (x y : Z)
    (a z : bool) (o w : list string) (k : nat) :
  Serial.is_ascii c1 = true -> c1 <> "#"%char ->
  Serial.is_ascii c2 = true -> c2 <> "#"%char ->
  PyStr.all_digits lat = true -> PyStr.all_digits long = true ->
  PyStr.int lat = Ok x -> PyStr.int long = Ok y ->
  x <= 1000000000 -> y <= 1000000000 ->
  Get_LatLong
    (mkMount a z (String c1 lat ++ "#" ++ String c2 long ++ "#" ++ rest) o w k)
  = (Ok (PyFloat (PyNum.int_true_divide x 3600),
         PyFloat (PyNum.int_true_divide y 3600)),
     mkMount a z rest (o ++ [":Gt#"; ":Gg#"]) w k)
  /\ sgn (PyNum.int_true_divide x 3600) = false
  /\ sgn (PyNum.int_true_divide y 3600) = false.
Proof.
  intros A1 N1 A2 N2 Dl Dg Il Ig Bx By.
  pose proof (int_all_digits_nonneg lat x Dl Il) as Px.
  pose proof (int_all_digits_nonneg long y Dg Ig) as Py.
  destruct (all_digits_no_hash _ Dl) as [Hl Al].
  destruct (all_digits_no_hash _ Dg) as [Hg Ag].
  destruct (ArcSec_To_Degrees_int x ltac:(lia)) as [Ex Sx].
  destruct (ArcSec_To_Degrees_int y ltac:(lia)) as [Ey Sy].
  split; [| split; assumption].
  change (String c1 lat ++ "#" ++ String c2 long ++ "#" ++ rest)
    with (String c1 (lat ++ String "#"
            (String c2 (long ++ String "#" rest)))).
  unfold Get_LatLong. mrun.
  rewrite SendMessage_signed by assumption.
  rewrite slice_inner, Il, Ex.
  rewrite SendMessage_signed by assumption.
  rewrite slice_inner, Ig, Ey.
  rewrite <- app_assoc. reflexivity.
Qed.

Lemma Get_LatLong_ignores_sign_witness :
  Get_LatLong
    (mkMount false false
       (String "-" "185400" ++ "#" ++ String "-" "009300" ++ "#" ++ EmptyString)
       [] [] 0)
  = (Ok (PyFloat (PyNum.int_true_divide 185400 3600),
         PyFloat (PyNum.int_true_divide 9300 3600)),
     mkMount false false EmptyString ([] ++ [":Gt#"; ":Gg#"]) [] 0)
  /\ sgn (PyNum.int_true_divide 185400 3600) = false
  /\ sgn (PyNum.int_true_divide 9300 3600) = false.
Proof.
  refine (Get_LatLong_ignores_sign "-" "-" "185400" "009300" EmptyString
            185400 9300 false false [] [] 0
            eq_refl _ eq_refl _ eq_refl eq_refl eq_refl eq_refl _ _);
    (discriminate || lia).
Defined.

(** ** The altitude limit *)






(** ** Relative moves *)

(** X15.  [Go_Delta] adds the deltas to the position it reads and does not
    wrap the azimuth: when the sum, in hundredths of an arcsecond, is
    below 0 or above 129600000, the assertion error of [_Set_Azimuth] is
    raised after the position query and the altitude command, with the
    altitude flag set and no move command written. *)
Theorem Go_Delta_does_not_wrap
    (altitude_Delta azimuth_Delta : num) (units : string)
    (s s1 : AzMountPro) (alt az alt' az' : num) (a v : Z) (rest : string) :
  Get_AltAz units s = (Ok (alt, az), s1) ->
  num_add alt altitude_Delta = Ok alt' ->
  num_add az azimuth_Delta = Ok az' ->
  str_in units units_Allowed = true ->
  to_hundredths alt' units = Ok a ->
  to_hundredths az' units = Ok v ->
  v < 0 \/ 129600000 < v ->
  port_in s1 = String "1" rest ->
  Go_Delta altitude_Delta azimuth_Delta units s
  = (Raise AssertionError,
     mkMount true (new_Az s1) rest (port_out s1 ++ [altitude_cmd a])
             (warnings s1) (sleeps s1)).
Proof.
  intros G Sa Sz Hu Ha Hv Hr Hin. unfold Go_Delta.
  unfold bind at 1. rewrite G. rewrite Sa, Sz, !bind_lift_ok.
  destruct s1 as [a1 z1 i1 o1 w1 k1]. cbn [port_in] in Hin. subst i1.
  cbn [new_Az port_out warnings sleeps].
  unfold Go_AltAz. unfold bind at 1.
  rewrite (Set_AltAz_azimuth_rejected alt' az' units a v a1 z1 rest
             o1 w1 k1 Hu Ha Hv Hr).
  reflexivity.
Qed.

Lemma Go_Delta_does_not_wrap_witness :
  Go_Delta (PyInt 0) (PyInt 20) "degrees"
    (mkMount false false "+28800000126000000#11" [] [] 0)
  = (Raise AssertionError,
     mkMount true false "1" [":GAC#"; ":Sa+28800000#"] [] 0).
Proof.
  refine (Go_Delta_does_not_wrap (PyInt 0) (PyInt 20) "degrees"
            (mkMount false false "+28800000126000000#11" [] [] 0)
            (mkMount false false "11" [":GAC#"] [] 0)
            _ _ _ _ 28800000 133200000 "1" _ _ _ eq_refl _ _ _ eq_refl).
  - vm_compute. reflexivity.
  - vm_compute. reflexivity.
  - vm_compute. reflexivity.
  - vm_compute. reflexivity.
  - vm_compute. reflexivity.
  - right. lia.
Defined.

(** ** A position read and set again *)

Section ReadThenSet.

Local Open Scope R_scope.

(** [int(f)] is the integer part of the magnitude, with the sign. *)
Lemma trunc_floor (f : spec_float) :
  is_fin f = true ->
  exists t : Z,
    PyFloat.trunc f = Ok (if sgn f then (- t)%Z else t)
    /\ (0 <= t)%Z /\ IZR t <= mag f < IZR t + 1.
Proof.
  destruct f as [s | s | | s m e]; try discriminate; intros _.
  - exists 0%Z. cbn [PyFloat.trunc sgn mag].
    split; [destruct s; reflexivity |]. split; [lia | lra].
  - cbn [PyFloat.trunc sgn mag]. destruct (0 <=? e)%Z eqn:E.
    + apply Z.leb_le in E. exists (Z.shiftl (Z.pos m) e).
      split; [reflexivity |].
      rewrite Z.shiftl_mul_pow2 by exact E.
      assert (P : (0 < 2 ^ e)%Z) by (apply Z.pow_pos_nonneg; lia).
      split; [nia |].
      rewrite mult_IZR, bpow_IZR by exact E. lra.
    + apply Z.leb_gt in E. exists (Z.shiftr (Z.pos m) (- e)).
      split; [reflexivity |].
      rewrite Z.shiftr_div_pow2 by lia.
      assert (P : (0 < 2 ^ (- e))%Z) by (apply Z.pow_pos_nonneg; lia).
      pose proof (Z.div_mod (Z.pos m) (2 ^ (- e)) ltac:(lia)) as DM.
      pose proof (Z.mod_pos_bound (Z.pos m) (2 ^ (- e)) P) as MB.
      set (d := (2 ^ (- e))%Z) in *.
      set (q := (Z.pos m / d)%Z) in *.
      set (r := (Z.pos m mod d)%Z) in *.
      split; [apply Z.div_pos; lia |].
      replace (bpow e) with (/ IZR d)
        by (unfold d; rewrite <- bpow_neg_IZR by lia; f_equal; lia).
      rewrite DM, plus_IZR, mult_IZR.
      assert (Dp : 0 < IZR d) by (apply IZR_lt; exact P).
      assert (R0 : 0 <= IZR r) by (apply IZR_le; lia).
      assert (R1 : IZR r < IZR d) by (apply IZR_lt; lia).
      replace ((IZR d * IZR q + IZR r) * / IZR d)
        with (IZR q + IZR r * / IZR d) by (field; lra).
      assert (0 <= IZR r * / IZR d < 1).
      { split.
        - apply Rmult_le_pos; [exact R0 |]. left. apply Rinv_0_lt_compat.
          exact Dp.
        - apply (Rmult_lt_reg_r (IZR d)); [exact Dp |].
          rewrite Rmult_assoc, Rinv_l by lra. lra. }
      lra.
Qed.

(** The literal [0.01]. *)
Lemma c001_eq :
  PyFloat.lit 1 100 = S754_finite false 5764607523034235 (-59).
Proof. vm_compute. reflexivity. Qed.

Lemma mag_c001 :
  mag (PyFloat.lit 1 100) = 5764607523034235 / 576460752303423488.
Proof.
  rewrite c001_eq. unfold mag. change (bpow (-59)) with (bpow (Z.opp 59)).
  rewrite (bpow_neg_IZR 59) by lia.
  change (2 ^ 59)%Z with 576460752303423488%Z. lra.
Qed.

Lemma c001_fin :
  is_fin (PyFloat.lit 1 100) = true /\ sgn (PyFloat.lit 1 100) = false.
Proof. rewrite c001_eq. split; reflexivity. Qed.

Lemma step_div001 (x : spec_float) :
  is_fin x = true ->
  mag x <= 1208925819614629174706176 ->
  let z := PyFloat.div x (PyFloat.lit 1 100) in
  let r := mag x / (5764607523034235 / 576460752303423488) in
  is_fin z = true /\ sgn z = sgn x /\
  r - (u52 * r + eta) <= mag z <= r + (u52 * r + eta).
Proof.
  intros Fx Hx z r.
  pose proof (mag_nonneg x) as X0. pose proof bpow_971_ge as B.
  pose proof mag_c001 as M. unfold z, r. rewrite c001_eq in *.
  destruct (div_mag x false 5764607523034235 (-59) Fx) as (F & S & Hb).
  - rewrite M. lra.
  - rewrite M in Hb. cbn [sgn] in S. rewrite xorb_false_r in S. auto.
Qed.

Lemma truediv_c001 (h : spec_float) :
  PyNum.truediv (PyFloat h) (PyFloat (PyFloat.lit 1 100))
  = Ok (PyFloat (PyFloat.div h (PyFloat.lit 1 100))).
Proof.
  unfold PyNum.truediv. cbn [PyNum.to_float rbind].
  rewrite c001_eq. reflexivity.
Qed.

Lemma to_hundredths_arcsec (h : spec_float) :
  to_hundredths (PyFloat h) "arcsec"
  = PyFloat.trunc (PyFloat.div h (PyFloat.lit 1 100)).
Proof.
  unfold to_hundredths.
  change ("arcsec" =? "degrees")%string with false.
  change ("arcsec" =? "radians")%string with false.
  cbn [rbind]. rewrite truediv_c001. reflexivity.
Qed.

Lemma to_hundredths_degrees (h : spec_float) :
  to_hundredths (PyFloat h) "degrees"
  = PyFloat.trunc (PyFloat.div (PyFloat.mul h c3600) (PyFloat.lit 1 100)).
Proof.
  unfold to_hundredths.
  change ("degrees" =? "degrees")%string with true. cbv iota.
  rewrite Degrees_To_Arcsec_float. cbn [rbind].
  rewrite truediv_c001. reflexivity.
Qed.

Lemma to_hundredths_radians (h : spec_float) :
  to_hundredths (PyFloat h) "radians"
  = PyFloat.trunc
      (PyFloat.div (PyFloat.mul (PyFloat.mul h PyFloat.radToDeg) c3600)
                   (PyFloat.lit 1 100)).
Proof.
  unfold to_hundredths.
  change ("radians" =? "degrees")%string with false.
  change ("radians" =? "radians")%string with true. cbv iota.
  rewrite Radians_To_Arcsec_float. cbn [rbind].
  rewrite truediv_c001. reflexivity.
Qed.

(** The integer part of a magnitude within one of [N]. *)
Lemma trunc_near (z : spec_float) (n : Z) :
  is_fin z = true ->
  IZR (Z.abs n) - 1 < mag z < IZR (Z.abs n) + 1 ->
  (n <> 0%Z -> sgn z = (n <? 0)%Z) ->
  exists v, PyFloat.trunc z = Ok v /\ (v = n \/ v = (n - Z.sgn n)%Z).
Proof.
  intros F B S. destruct (trunc_floor z F) as (t & E & T0 & Tl & Tu).
  assert (A1 : (t < Z.abs n + 1)%Z).
  { apply lt_IZR. rewrite plus_IZR. lra. }
  assert (A2 : (Z.abs n - 2 < t)%Z).
  { apply lt_IZR. rewrite minus_IZR. lra. }
  eexists. split; [exact E |].
  destruct (Z.eq_dec n 0) as [-> | N].
  - assert (t = 0%Z) by lia. subst t. destruct (sgn z); left; reflexivity.
  - rewrite (S N). destruct (n <? 0)%Z eqn:L.
    + apply Z.ltb_lt in L. lia.
    + apply Z.ltb_ge in L. lia.
Qed.

Lemma reported_then_hundredths (units : string) (n : Z) :
  str_in units units_Allowed = true ->
  (-1000000000 < n < 1000000000)%Z ->
  exists g,
    reported units n = Ok (PyFloat g) /\ is_fin g = true /\
    forall h,
      is_fin h = true -> mag h = mag g -> (mag g <> 0 -> sgn h = sgn g) ->
      exists v, to_hundredths (PyFloat h) units = Ok v
                /\ (v = n \/ v = (n - Z.sgn n)%Z).
Proof.
  intros Hu Hn.
  pose proof eta_le as He. pose proof eta_pos as He0.
  assert (HN : 0 <= IZR (Z.abs n) <= 1000000000).
  { split; [apply IZR_le; lia | apply IZR_le; lia]. }
  assert (HN1 : n <> 0%Z -> 1 <= IZR (Z.abs n)).
  { intros N. apply IZR_le. lia. }
  destruct (of_Z_mag n) as (F0 & S0 & B0); [lra |].
  rewrite u52_eq in B0.
  destruct c001_fin as [Fc Sc].
  destruct (step_mul (PyFloat.of_Z n) (PyFloat.lit 1 100) _ F0 Fc Sc mag_c001
              ltac:(lra) ltac:(lra)) as (F1 & S1 & B1).
  rewrite u52_eq in B1. rewrite S0 in S1.
  set (g1 := PyFloat.mul (PyFloat.of_Z n) (PyFloat.lit 1 100)) in *.
  pose proof (mag_nonneg (PyFloat.of_Z n)) as M0.
  pose proof (mag_nonneg g1) as M1.
  unfold reported. rewrite mul_int_hundredth by lia. fold g1. cbn [rbind].
  destruct (units_cases units Hu) as [-> | [-> | ->]].
  - (* arcsec *)
    change ("arcsec" =? "degrees")%string with false.
    change ("arcsec" =? "radians")%string with false. cbv iota.
    exists g1. split; [reflexivity |]. split; [exact F1 |].
    intros h Fh Mh Sh. rewrite to_hundredths_arcsec.
    destruct (step_div001 h Fh ltac:(lra)) as (F2 & S2 & B2).
    rewrite u52_eq, Mh in B2.
    apply trunc_near; [exact F2 | lra |].
    intros N. specialize (HN1 N). rewrite S2, Sh, S1; [reflexivity | lra].
  - (* degrees *)
    change ("degrees" =? "degrees")%string with true. cbv iota.
    rewrite ArcSec_To_Degrees_float.
    destruct (step_div g1 F1 ltac:(lra)) as (F2 & S2 & B2).
    rewrite u52_eq in B2.
    set (g2 := PyFloat.div g1 c3600) in *.
    pose proof (mag_nonneg g2) as M2.
    exists g2. split; [reflexivity |]. split; [exact F2 |].
    intros h Fh Mh Sh. rewrite to_hundredths_degrees.
    destruct c3600_fin as [Fk Sk].
    destruct (step_mul h c3600 _ Fh Fk Sk mag_c3600 ltac:(lra) ltac:(lra))
      as (F3 & S3 & B3).
    rewrite u52_eq, Mh in B3.
    pose proof (mag_nonneg (PyFloat.mul h c3600)) as M3.
    destruct (step_div001 (PyFloat.mul h c3600) F3 ltac:(lra))
      as (F4 & S4 & B4).
    rewrite u52_eq in B4.
    apply trunc_near; [exact F4 | lra |].
    intros N. specialize (HN1 N).
    rewrite S4, S3, Sh, S2, S1; [reflexivity | lra].
  - (* radians *)
    change ("radians" =? "degrees")%string with false.
    change ("radians" =? "radians")%string with true. cbv iota.
    rewrite ArcSec_To_Radians_float.
    destruct (step_div g1 F1 ltac:(lra)) as (F2 & S2 & B2).
    rewrite u52_eq in B2.
    set (g2 := PyFloat.div g1 c3600) in *.
    pose proof (mag_nonneg g2) as M2.
    destruct degToRad_fin as [Fd Sd].
    destruct (step_mul g2 PyFloat.degToRad _ F2 Fd Sd mag_degToRad
                ltac:(lra) ltac:(lra)) as (F3 & S3 & B3).
    rewrite u52_eq in B3.
    set (g3 := PyFloat.mul g2 PyFloat.degToRad) in *.
    pose proof (mag_nonneg g3) as M3.
    exists g3. split; [reflexivity |]. split; [exact F3 |].
    intros h Fh Mh Sh. rewrite to_hundredths_radians.
    destruct radToDeg_fin as [Fr Sr].
    destruct (step_mul h PyFloat.radToDeg _ Fh Fr Sr mag_radToDeg
                ltac:(lra) ltac:(lra)) as (F4 & S4 & B4).
    rewrite u52_eq, Mh in B4.
    set (m1 := PyFloat.mul h PyFloat.radToDeg) in *.
    pose proof (mag_nonneg m1) as M4.
    destruct c3600_fin as [Fk Sk].
    destruct (step_mul m1 c3600 _ F4 Fk Sk mag_c3600 ltac:(lra) ltac:(lra))
      as (F5 & S5 & B5).
    rewrite u52_eq in B5.
    set (m2 := PyFloat.mul m1 c3600) in *.
    pose proof (mag_nonneg m2) as M5.
    destruct (step_div001 m2 F5 ltac:(lra)) as (F6 & S6 & B6).
    rewrite u52_eq in B6.
    apply trunc_near; [exact F6 | lra |].
    intros N. specialize (HN1 N).
    rewrite S6, S5, S4, Sh, S3, S2, S1; [reflexivity | lra].
Qed.

End ReadThenSet.

(** X16.  Reading the position and staging what was read: in each of the three
    units, the value [Get_AltAz] returns for a field is converted back by
    the set commands to the integer of the field or to the integer next
    to it towards zero, never further. *)
Theorem Get_AltAz_then_set
    (units : string) (a z : Z) (pa pz : string)
    (a0 z0 : bool) (rest : string) (o w : list string) (k : nat) :
  str_in units units_Allowed = true ->
  altitude_cmd a = ":Sa" ++ pa ++ "#" ->
  azimuth_cmd z = ":Sz" ++ pz ++ "#" ->
  0 <= a < 100000000 \/ -100000000 < a <= -10000000 ->
  0 <= z <= 129600000 ->
  exists alt az a' z',
    Get_AltAz units (mkMount a0 z0 (pa ++ pz ++ String "#" rest) o w k)
    = (Ok (alt, az), mkMount a0 z0 rest (o ++ [":GAC#"]) w k)
    /\ to_hundredths alt units = Ok a'
    /\ to_hundredths az units = Ok z'
    /\ (a' = a \/ a' = a - Z.sgn a)
    /\ (z' = z \/ z' = z - Z.sgn z).
Proof.
  intros Hu Ea Ez Ha Hz.
  destruct (reported_then_hundredths units a Hu ltac:(lia))
    as (ga & Ra & Fa & Ta).
  destruct (reported_then_hundredths units z Hu ltac:(lia))
    as (gz & Rz & Fz & Tz).
  destruct (Ta ga Fa eq_refl (fun _ => eq_refl)) as (a' & Ia & Ca).
  destruct (Tz gz Fz eq_refl (fun _ => eq_refl)) as (z' & Iz & Cz).
  exists (PyFloat ga), (PyFloat gz), a', z'.
  rewrite (Get_AltAz_fields units a z pa pz) by assumption.
  rewrite Ra, Rz. repeat split; assumption.
Qed.

Lemma Get_AltAz_then_set_witness :
  exists alt az a' z',
    Get_AltAz "degrees"
      (mkMount false false ("+28800000" ++ "068400000" ++ String "#" "111")
               [] [] 0)
    = (Ok (alt, az), mkMount false false "111" ([] ++ [":GAC#"]) [] 0)
    /\ to_hundredths alt "degrees" = Ok a'
    /\ to_hundredths az "degrees" = Ok z'
    /\ (a' = 28800000 \/ a' = 28800000 - Z.sgn 28800000)
    /\ (z' = 68400000 \/ z' = 68400000 - Z.sgn 68400000).
Proof.
  refine (Get_AltAz_then_set "degrees" 28800000 68400000
            "+28800000" "068400000" false false "111" [] [] 0
            eq_refl eq_refl eq_refl _ _).
  - left. lia.
  - lia.
Defined.

Lemma add_zero (g : spec_float) :
  is_fin g = true ->
  exists h, num_add (PyFloat g) (PyInt 0) = Ok (PyFloat h)
            /\ is_fin h = true /\ mag h = mag g
            /\ (mag g <> 0%R -> sgn h = sgn g).
Proof.
  intros F. unfold num_add.
  change (PyNum.to_float (PyInt 0)) with (Ok (S754_zero false)).
  cbn [PyNum.to_float rbind].
  destruct g as [s | s | | s m e]; try discriminate F.
  - eexists. split; [reflexivity |]. cbn [SFadd].
    destruct s; cbn [Bool.eqb is_fin mag sgn];
      (split; [reflexivity |]; split; [reflexivity |]);
      intros N; contradiction N; reflexivity.
  - eexists. split; [reflexivity |]. cbn [SFadd]. repeat split.
Qed.

Lemma Go_AltAz_accepted
    (altitude azimuth : num) (units : string) (a v : Z)
    (a0 z0 : bool) (rest : string) (o w : list string) (k : nat) :
  str_in units units_Allowed = true ->
  to_hundredths altitude units = Ok a ->
  to_hundredths azimuth units = Ok v ->
  0 <= v <= 129600000 ->
  Go_AltAz altitude azimuth units
    (mkMount a0 z0 (String "1" (String "1" (String "1" rest))) o w k)
  = (Ok ((1, 1), 1),
     mkMount false false rest
       (o ++ [altitude_cmd a; azimuth_cmd v; ":MS#"]) w k).
Proof.
  intros Hu Ha Hv Hr.
  assert (E : Set_AltAz altitude azimuth units
                (mkMount a0 z0 (String "1" (String "1" (String "1" rest)))
                         o w k)
              = (Ok (1, 1),
                 mkMount true true (String "1" rest)
                   ((o ++ [altitude_cmd a]) ++ [azimuth_cmd v]) w k)).
  { unfold Set_AltAz. unfold bind at 1.
    rewrite (Set_Altitude_acked altitude units a) by assumption.
    unfold bind at 1.
    rewrite (Set_Azimuth_acked azimuth units v) by assumption.
    reflexivity. }
  unfold Go_AltAz. unfold bind at 1. rewrite E.
  unfold bind at 1. rewrite Move_staged by reflexivity.
  unfold clear_flags. cbn [port_in port_out warnings sleeps].
  rewrite move_exchange_accepted. unfold ret.
  rewrite <- !app_assoc. reflexivity.
Qed.

(** X17.  [Go_Delta] with both deltas zero is not always a move to the position
    reported: it stages, for each axis, the integer of the reply or the
    integer next to it towards zero.  The second case happens: from the
    position of 29 hundredths of an arcsecond on both axes it stages 28
    on both. *)
Theorem Go_Delta_zero :
  (forall (units : string) (a z : Z) (pa pz : string)
          (a0 z0 : bool) (rest : string) (o w : list string) (k : nat),
     str_in units units_Allowed = true ->
     altitude_cmd a = ":Sa" ++ pa ++ "#" ->
     azimuth_cmd z = ":Sz" ++ pz ++ "#" ->
     0 <= a < 100000000 \/ -100000000 < a <= -10000000 ->
     0 <= z <= 129600000 ->
     exists a' z',
       (a' = a \/ a' = a - Z.sgn a) /\ (z' = z \/ z' = z - Z.sgn z) /\
       Go_Delta (PyInt 0) (PyInt 0) units
         (mkMount a0 z0 (pa ++ pz ++ String "#" ("111" ++ rest)) o w k)
       = (Ok ((1, 1), 1),
          mkMount false false rest
            (o ++ [":GAC#"; altitude_cmd a'; azimuth_cmd z'; ":MS#"]) w k))
  /\
  Go_Delta (PyInt 0) (PyInt 0) "arcsec"
    (mkMount false false "+00000029000000029#111" [] [] 0)
  = (Ok ((1, 1), 1),
     mkMount false false EmptyString
       [":GAC#"; ":Sa+00000028#"; ":Sz000000028#"; ":MS#"] [] 0).
Proof.
  split; [| vm_compute; reflexivity].
  intros units a z pa pz a0 z0 rest o w k Hu Ea Ez Ha Hz.
  destruct (reported_then_hundredths units a Hu ltac:(lia))
    as (ga & Ra & Fa & Ta).
  destruct (reported_then_hundredths units z Hu ltac:(lia))
    as (gz & Rz & Fz & Tz).
  destruct (add_zero ga Fa) as (ha & Aa & Fha & Mha & Sha).
  destruct (add_zero gz Fz) as (hz & Az & Fhz & Mhz & Shz).
  destruct (Ta ha Fha Mha Sha) as (a' & Ia & Ca).
  destruct (Tz hz Fhz Mhz Shz) as (z' & Iz & Cz).
  exists a', z'. split; [exact Ca |]. split; [exact Cz |].
  change ("111" ++ rest)
    with (String "1" (String "1" (String "1" rest))).
  unfold Go_Delta. unfold bind at 1.
  rewrite (Get_AltAz_fields units a z pa pz) by assumption.
  rewrite Ra, Rz. cbn [rbind]. rewrite Aa, Az, !bind_lift_ok.
  rewrite (Go_AltAz_accepted (PyFloat ha) (PyFloat hz) units a' z')
    by (assumption || lia).
  rewrite <- app_assoc. reflexivity.
Qed.

Lemma Go_Delta_zero_witness :
  exists a' z',
    (a' = 28800000 \/ a' = 28800000 - Z.sgn 28800000)
    /\ (z' = 68400000 \/ z' = 68400000 - Z.sgn 68400000)
    /\ Go_Delta (PyInt 0) (PyInt 0) "degrees"
         (mkMount false false
            ("+28800000" ++ "068400000" ++ String "#" ("111" ++ EmptyString))
            [] [] 0)
       = (Ok ((1, 1), 1),
          mkMount false false EmptyString
            ([] ++ [":GAC#"; altitude_cmd a'; azimuth_cmd z'; ":MS#"]) [] 0).
Proof.
  refine (proj1 Go_Delta_zero "degrees" 28800000 68400000
            "+28800000" "068400000" false false EmptyString [] [] 0%nat
            eq_refl eq_refl eq_refl _ _).
  - left. lia.
  - lia.
Defined.

(** ** The time of the mount *)






(** ** The firmware dates *)

Lemma take_drop (n : nat) (s : string) : PyStr.take n s ++ PyStr.drop n s = s.
Proof.
  revert s. induction n as [| n IH]; intros s; [reflexivity |].
  destruct s as [| c s]; [reflexivity |].
  change (String c (PyStr.take n s ++ PyStr.drop n s) = String c s).
  rewrite IH. reflexivity.
Qed.

Lemma length_take (n : nat) (s : string) :
  String.length (PyStr.take n s) = Nat.min n (String.length s).
Proof.
  revert s. induction n as [| n IH]; intros s; [reflexivity |].
  destruct s as [| c s]; [reflexivity |].
  change (S (String.length (PyStr.take n s))
          = S (Nat.min n (String.length s))).
  rewrite IH. reflexivity.
Qed.

Lemma length_drop (n : nat) (s : string) :
  String.length (PyStr.drop n s) = (String.length s - n)%nat.
Proof.
  revert s. induction n as [| n IH]; intros s.
  - cbn [PyStr.drop]. lia.
  - destruct s as [| c s]; [reflexivity |].
    cbn [PyStr.drop String.length]. rewrite IH. reflexivity.
Qed.

Lemma take_min (n : nat) (s : string) :
  PyStr.take (Nat.min n (String.length s)) s = PyStr.take n s.
Proof.
  revert s. induction n as [| n IH]; intros s; [reflexivity |].
  destruct s as [| c s]; [reflexivity |].
  change (String c (PyStr.take (Nat.min n (String.length s)) s)
          = String c (PyStr.take n s)).
  rewrite IH. reflexivity.
Qed.

Lemma drop_min (n : nat) (s : string) :
  PyStr.drop (Nat.min n (String.length s)) s = PyStr.drop n s.
Proof.
  revert s. induction n as [| n IH]; intros s; [reflexivity |].
  destruct s as [| c s]; [reflexivity |].
  cbn [String.length Nat.min PyStr.drop]. apply IH.
Qed.

(** [s[:n]] and [s[n:]] for any string. *)
Lemma slice_to (n : nat) (s : string) :
  PyStr.slice s None (Some (Z.of_nat n)) = PyStr.take n s.
Proof.
  unfold PyStr.slice, PyStr.len, PyStr.clamp.
  replace (Z.of_nat n <? 0) with false by (symmetry; apply Z.ltb_ge; lia).
  rewrite Z.sub_0_r. change (Z.to_nat 0) with 0%nat. cbn [PyStr.drop].
  replace (Z.to_nat (Z.min (Z.of_nat n) (Z.of_nat (String.length s))))
    with (Nat.min n (String.length s)) by lia.
  apply take_min.
Qed.

Lemma slice_from (n : nat) (s : string) :
  PyStr.slice s (Some (Z.of_nat n)) None = PyStr.drop n s.
Proof.
  unfold PyStr.slice, PyStr.len, PyStr.clamp.
  replace (Z.of_nat n <? 0) with false by (symmetry; apply Z.ltb_ge; lia).
  replace (Z.to_nat (Z.min (Z.of_nat n) (Z.of_nat (String.length s))))
    with (Nat.min n (String.length s)) by lia.
  rewrite drop_min.
  replace (Z.to_nat (Z.of_nat (String.length s)
                     - Z.min (Z.of_nat n) (Z.of_nat (String.length s))))
    with (String.length (PyStr.drop n s)) by (rewrite length_drop; lia).
  apply take_all.
Qed.

(** X19.  [Get_FirmwareVersion] cuts each of the two reply bodies after its
    sixth character and returns the four pieces: joined again they are the
    bodies, nothing lost and nothing added; a body shorter than twelve
    characters gives shorter pieces and no error. *)
Theorem Get_FirmwareVersion_split
    (fw1 fw2 rest : string) (a z : bool) (o w : list string) (k : nat) :
  no_hash fw1 = true -> Serial.all_ascii fw1 = true ->
  no_hash fw2 = true -> Serial.all_ascii fw2 = true ->
  exists mainboard handcontroller ra_motor dec_motor,
    Get_FirmwareVersion
      (mkMount a z (fw1 ++ String "#" (fw2 ++ String "#" rest)) o w k)
    = (Ok (mainboard, handcontroller, ra_motor, dec_motor),
       mkMount a z rest (o ++ [":FW1#"; ":FW2#"]) w k)
    /\ mainboard ++ handcontroller = fw1
    /\ ra_motor ++ dec_motor = fw2
    /\ String.length mainboard = Nat.min 6 (String.length fw1)
    /\ String.length ra_motor = Nat.min 6 (String.length fw2).
Proof.
  intros H1 A1 H2 A2.
  exists (PyStr.take 6 fw1), (PyStr.drop 6 fw1),
         (PyStr.take 6 fw2), (PyStr.drop 6 fw2).
  split; [| repeat split; auto using take_drop, length_take].
  unfold Get_FirmwareVersion. unfold bind at 1.
  rewrite (SendMessage_hash _ _ _ _ _ _ _ _ H1 A1).
  cbv zeta. unfold bind at 1.
  rewrite (SendMessage_hash _ _ _ _ _ _ _ _ H2 A2).
  rewrite !slice_drop_last.
  change 6 with (Z.of_nat 6). rewrite !slice_to, !slice_from.
  unfold ret. rewrite <- app_assoc. reflexivity.
Qed.

Lemma Get_FirmwareVersion_split_witness :
  exists mainboard handcontroller ra_motor dec_motor,
    Get_FirmwareVersion
      (mkMount false false
         ("170518170518" ++ String "#" ("1401" ++ String "#" EmptyString))
         [] [] 0)
    = (Ok (mainboard, handcontroller, ra_motor, dec_motor),
       mkMount false false EmptyString ([] ++ [":FW1#"; ":FW2#"]) [] 0)
    /\ mainboard ++ handcontroller = "170518170518"
    /\ ra_motor ++ dec_motor = "1401"
    /\ String.length mainboard = Nat.min 6 (String.length "170518170518")
    /\ String.length ra_motor = Nat.min 6 (String.length "1401").
Proof.
  exact (Get_FirmwareVersion_split "170518170518" "1401" EmptyString
           false false [] [] 0 eq_refl eq_refl eq_refl eq_refl).
Defined.
